(** * npc_ephys.openephys: a shallow embedding and its verified properties

    The development follows [src/npc_ephys/openephys.py].  Text is modelled as
    [string] (sequences of 8-bit characters), integers as [Z], byte buffers as
    [list byte]; exceptions are values of [exn] carried by the
    [result] monad, and generators are modelled by the finite stream of items
    they yield together with the exception (if any) that ends the iteration. *)

From Stdlib Require Import ZArith QArith Ascii String Strings.Byte List Floats.SpecFloat.
From stdpp Require Import base decidable option list strings sorting gmap.

Close Scope Q_scope.
Open Scope string_scope.
Open Scope list_scope.

(** ** Exceptions and the error monad *)

Inductive exn : Type :=
  | ValueError
  | FileNotFoundError
  | RuntimeError
  | IndexError
  | KeyError
  | AttributeError
  | TypeError
  | StopIteration
  | AssertionError (msg : string)
  | ExternalError (origin : string).

(** Any exception but an [AssertionError]. *)
Definition not_assertion (e : exn) : Prop :=
  match e with AssertionError _ => False | _ => True end.

Inductive result (A : Type) : Type :=
  | Ok (a : A)
  | Err (e : exn).
Arguments Ok {A} a.
Arguments Err {A} e.

Definition rbind {A B} (r : result A) (k : A -> result B) : result B :=
  match r with
  | Ok a => k a
  | Err e => Err e
  end.

Notation "'do' x <- r ; k" := (rbind r (fun x => k))
  (at level 10, x name, r at level 100, k at level 200).

Definition is_ok {A} (r : result A) : bool :=
  match r with Ok _ => true | Err _ => false end.

(** A generator run to exhaustion: the items yielded, then either a normal
    end ([None]) or the exception that escaped the generator body. *)
Record gen (A : Type) : Type := Gen { yielded : list A; raised : option exn }.
Arguments Gen {A} yielded raised.
Arguments yielded {A} g.
Arguments raised {A} g.

(** [next(g)]: the first item, else the escaping exception, else
    [StopIteration]. *)
Definition next {A} (g : gen A) : result A :=
  match yielded g with
  | x :: _ => Ok x
  | [] => match raised g with
          | Some e => Err e
          | None => Err StopIteration
          end
  end.

(** The statements of a generator body: [yield x], falling through, and an
    escaping exception. *)
Definition gen_yield {A} (x : A) : gen A := Gen [x] None.
Definition gen_pass {A} : gen A := Gen [] None.
Definition gen_raise {A} (e : exn) : gen A := Gen [] (Some e).

(** An exception on its way out of a generator body: a [StopIteration]
    leaves the generator as a [RuntimeError] (PEP 479). *)
Definition escaping (e : exn) : exn :=
  match e with
  | StopIteration => RuntimeError
  | _ => e
  end.

(** A computation that may fail, followed by the rest of the body. *)
Definition gen_try {A B} (r : result A) (k : A -> gen B) : gen B :=
  match r with
  | Ok a => k a
  | Err e => gen_raise (escaping e)
  end.

(** [for x in items: body x], the body being generator code: the loop stops
    at the first exception. *)
Fixpoint gen_for_list {A B} (items : list A) (body : A -> gen B) : gen B :=
  match items with
  | [] => gen_pass
  | x :: rest =>
      let g := body x in
      match raised g with
      | Some e => g
      | None =>
          let r := gen_for_list rest body in
          Gen (yielded g ++ yielded r) (raised r)
      end
  end.

(** [for x in g: body x] over another generator [g]: the items of [g] are
    consumed one by one, and the exception that ends [g] comes last. *)
Definition gen_for {A B} (g : gen A) (body : A -> gen B) : gen B :=
  let r := gen_for_list (yielded g) body in
  match raised r with
  | Some _ => r
  | None => Gen (yielded r) (raised g)
  end.

(** ** Python string primitives *)

Module PyStr.

Fixpoint startswith (p s : string) : bool :=
  match p, s with
  | EmptyString, _ => true
  | String _ _, EmptyString => false
  | String a p', String b s' => if Ascii.eqb a b then startswith p' s' else false
  end.

Fixpoint slice_to (n : nat) (s : string) : string :=
  match n, s with
  | S n', String c s' => String c (slice_to n' s')
  | _, _ => EmptyString
  end.

Fixpoint slice_from (n : nat) (s : string) : string :=
  match n, s with
  | S n', String _ s' => slice_from n' s'
  | _, _ => s
  end.

(** [s.find(sep)]: index of the first occurrence ([None] for -1). *)
Fixpoint find (sep s : string) : option nat :=
  if startswith sep s then Some 0
  else match s with
       | EmptyString => None
       | String _ s' => S <$> find sep s'
       end.

(** [sep in s] *)
Definition contains (sep s : string) : bool :=
  match find sep s with Some _ => true | None => false end.

(** [s.split(sep)] for a non-empty separator: greedy, left to right,
    non-overlapping.  The fuel bounds the number of separators found. *)
Fixpoint split_fuel (fuel : nat) (sep s : string) : list string :=
  match fuel with
  | O => [s]
  | S fuel' =>
      match find sep s with
      | None => [s]
      | Some i => slice_to i s :: split_fuel fuel' sep (slice_from (i + String.length sep) s)
      end
  end.

Definition split (sep s : string) : list string :=
  split_fuel (String.length s) sep s.

(** [new.join(parts)] *)
Fixpoint join (new : string) (parts : list string) : string :=
  match parts with
  | [] => EmptyString
  | [p] => p
  | p :: rest => p ++ new ++ join new rest
  end.

(** [s.replace(old, new)] for non-empty [old]; it is [new.join(s.split(old))]. *)
Definition replace (old new s : string) : string := join new (split old s).

(** [parts[-1]] and [parts[0]] of a split (a split is never empty). *)
Definition last_part (parts : list string) : string := List.last parts EmptyString.
Definition first_part (parts : list string) : string := List.hd EmptyString parts.

Definition mem_char (c : ascii) (chars : string) : bool :=
  existsb (Ascii.eqb c) (list_ascii_of_string chars).

Fixpoint lstrip (chars s : string) : string :=
  match s with
  | EmptyString => EmptyString
  | String c s' => if mem_char c chars then lstrip chars s' else s
  end.

(** strip from the right: the result of stripping the tail, and the head is
    dropped only when everything after it went away too *)
Fixpoint rstrip (chars s : string) : string :=
  match s with
  | EmptyString => EmptyString
  | String c s' =>
      match rstrip chars s' with
      | EmptyString => if mem_char c chars then EmptyString else String c EmptyString
      | r => String c r
      end
  end.

(** [s.strip(chars)] *)
Definition strip (chars s : string) : string := rstrip chars (lstrip chars s).

(** ASCII white space, as skipped by [int()] *)
Definition whitespace : string :=
  String " " (String "009" (String "010" (String "011" (String "012" (String "013" EmptyString))))).

Definition digit_of (c : ascii) : option Z :=
  let n := Z.of_nat (nat_of_ascii c) in
  if ((48 <=? n) && (n <=? 57))%Z then Some (n - 48)%Z else None.

(** Digits with single underscores allowed between them, [acc] the value so
    far and [prev] telling whether the previous character was a digit. *)
Fixpoint digits_go (acc : Z) (prev : bool) (s : string) : option Z :=
  match s with
  | EmptyString => if prev then Some acc else None
  | String c s' =>
      match digit_of c with
      | Some d => digits_go (10 * acc + d)%Z true s'
      | None =>
          if Ascii.eqb c "_" && prev
          then match s' with
               | EmptyString => None
               | String c' _ => match digit_of c' with
                                | Some _ => digits_go acc false s'
                                | None => None
                                end
               end
          else None
      end
  end.

(** [int(s)] on text: surrounding white space, an optional sign, decimal
    digits; anything else is a [ValueError]. *)
Definition int (s : string) : result Z :=
  let body := strip whitespace s in
  let parse (neg : bool) (t : string) :=
    match digits_go 0 false t with
    | Some v => Ok (if neg then (- v)%Z else v)
    | None => Err ValueError
    end in
  match body with
  | EmptyString => Err ValueError
  | String c t =>
      if Ascii.eqb c "-" then parse true t
      else if Ascii.eqb c "+" then parse false t
      else parse false body
  end.

Definition newline_chars : string := String "010" EmptyString.

(** Text made of decimal digits only, and the number it denotes. *)
Fixpoint all_digits (s : string) : bool :=
  match s with
  | EmptyString => true
  | String c s' => match digit_of c with
                   | Some _ => all_digits s'
                   | None => false
                   end
  end.

Fixpoint digits_value (acc : Z) (s : string) : Z :=
  match s with
  | EmptyString => acc
  | String c s' => digits_value (10 * acc + default 0%Z (digit_of c))%Z s'
  end.

Definition decimal (s : string) : Z := digits_value 0 s.

Definition is_linebreak (c : ascii) : bool :=
  existsb (Ascii.eqb c)
    ["010"; "013"; "011"; "012"; "028"; "029"; "030"]%char.

(** [s.splitlines()]: line boundaries are dropped, CR LF counts once, and a
    final line boundary opens no empty last line. *)
Fixpoint splitlines_go (cur : string) (s : string) : list string :=
  match s with
  | EmptyString => match cur with EmptyString => [] | _ => [cur] end
  | String c s' =>
      if is_linebreak c then
        match s' with
        | String c' s'' =>
            if Ascii.eqb c "013" && Ascii.eqb c' "010"
            then cur :: splitlines_go EmptyString s''
            else cur :: splitlines_go EmptyString s'
        | EmptyString => [cur]
        end
      else splitlines_go (cur ++ String c EmptyString) s'
  end.

Definition splitlines (s : string) : list string := splitlines_go EmptyString s.

Definition lower_char (c : ascii) : ascii :=
  let n := nat_of_ascii c in
  if (65 <=? n)%nat && (n <=? 90)%nat then ascii_of_nat (n + 32) else c.

(** [s.lower()] on ASCII text *)
Fixpoint lower (s : string) : string :=
  match s with
  | EmptyString => EmptyString
  | String c s' => String (lower_char c) (lower s')
  end.

Definition endswith (p s : string) : bool :=
  (String.length p <=? String.length s)%nat
  && String.eqb p (slice_from (String.length s - String.length p) s).

End PyStr.

(** ** The acquisition log: [get_sync_messages_data] *)

Record sync_entry : Type := SyncEntry { se_start : Z; se_rate : Z }.

(** A Python [dict] with string keys, in insertion order; assigning to an
    existing key replaces the value and keeps the key's position. *)
Fixpoint dict_set {V} (k : string) (v : V) (d : list (string * V)) : list (string * V) :=
  match d with
  | [] => [(k, v)]
  | (k', v') :: d' =>
      if String.eqb k k' then (k', v) :: d' else (k', v') :: dict_set k v d'
  end.

Fixpoint dict_get {V} (k : string) (d : list (string * V)) : option V :=
  match d with
  | [] => None
  | (k', v') :: d' => if String.eqb k k' then Some v' else dict_get k d'
  end.

Module SyncMessages.
Import PyStr.

Definition label (line : string) : string :=
  replace " (" "-"
    (replace ") - " "."
       (first_part (split " @" (last_part (split "Start Time for " line))))).

Definition start (line : string) : result Z :=
  int (last_part (split "Hz:" (strip " " line))).

Definition rate (line : string) : result Z :=
  int (first_part (split " Hz" (last_part (split "@ " line)))).

(** The dict comprehension, line by line: key first, then the two values. *)
Fixpoint comprehend (lines : list string) (acc : list (string * sync_entry))
  : result (list (string * sync_entry)) :=
  match lines with
  | [] => Ok acc
  | line :: rest =>
      let k := label line in
      do s <- start line;
      do r <- rate line;
      comprehend rest (dict_set k (SyncEntry s r) acc)
  end.

Definition get_sync_messages_data (text : string) : result (list (string * sync_entry)) :=
  comprehend (List.tl (splitlines text)) [].

(** A log line as the acquisition software writes it. *)
Definition log_line (device rate_text start_text : string) : string :=
  ("Start Time for " ++ device ++ " @ " ++ rate_text ++ " Hz: " ++ start_text)%string.

Definition newline : string := String "010" EmptyString.

Definition no_linebreak (s : string) : bool :=
  forallb (fun c => negb (is_linebreak c)) (list_ascii_of_string s).

(** What the three local parsers need from a line's fields: a device label
    free of [@], [:], line boundaries and of a second line prefix, and two
    non-empty digit strings. *)
Definition plain_fields (f : string * string * string) : bool :=
  let '(device, rate_text, start_text) := f in
  negb (mem_char "@" device) && negb (mem_char ":" device)
  && negb (contains "Start Time for " (device ++ " "))
  && no_linebreak device
  && all_digits rate_text && negb (String.eqb rate_text "")
  && all_digits start_text && negb (String.eqb start_text "").

(** A whole log: the header line, then one line per device. *)
Fixpoint log_body (fields : list (string * string * string)) : string :=
  match fields with
  | [] => EmptyString
  | (device, rate_text, start_text) :: rest =>
      (log_line device rate_text start_text ++ newline ++ log_body rest)%string
  end.

Definition log_text (header : string) (fields : list (string * string * string)) : string :=
  (header ++ newline ++ log_body fields)%string.

(** The label normalisation of [label]: first every [") - "] becomes ["."],
    then every [" ("] becomes ["-"]. *)
Definition normalize (device : string) : string :=
  replace " (" "-" (replace ") - " "." device).

(** The normalisation as the specification words it: a [" ("] ... [")"] pair
    becomes a ["-"] join and [" - "] becomes ["."], each rule on its own. *)
Definition normalize_as_worded (device : string) : string :=
  replace " - " "." (replace ")" "" (replace " (" "-" device)).

Definition entry_of (f : string * string * string) : string * sync_entry :=
  let '(device, rate_text, start_text) := f in
  (normalize device, SyncEntry (decimal start_text) (decimal rate_text)).

Definition dict_of (fields : list (string * string * string)) : list (string * sync_entry) :=
  fold_left (fun acc f => dict_set (fst (entry_of f)) (snd (entry_of f)) acc) fields [].

End SyncMessages.


(** ** The array container: [read_array_range_from_npy] *)

Module Npy.

(** [int.from_bytes(bs, "little")] *)
Fixpoint int_from_bytes_little (bs : list byte) : Z :=
  match bs with
  | [] => 0
  | b :: bs' => Z.of_N (Byte.to_N b) + 256 * int_from_bytes_little bs'
  end.

(** [path.fs.read_bytes(path, start=, end=)] on the object's content: the
    bytes [data[start:end]] (offsets are never negative here). *)
Definition read_bytes (data : list byte) (start stop : Z) : list byte :=
  take (Z.to_nat (stop - start)) (drop (Z.to_nat start) data).

(** The two entries of the header dictionary the reader looks at. *)
Record npy_header : Type := NpyHeader { shape : list Z; descr : string }.

(** A one-dimensional array: its dtype and the raw bytes of each element. *)
Record ndarray : Type := NdArray { dtype : string; items : list (list byte) }.

Inductive range : Type :=
  | Index (i : Z)
  | Slice (start stop : Z).

Fixpoint chunks_fuel (fuel size : nat) (buf : list byte) : list (list byte) :=
  match fuel with
  | O => []
  | S fuel' =>
      match buf with
      | [] => []
      | _ => take size buf :: chunks_fuel fuel' size (drop size buf)
      end
  end.

(** [np.frombuffer(buf, dtype=dt)], elements kept as their bytes. *)
Definition frombuffer (dt : string) (size : nat) (buf : list byte) : result ndarray :=
  if (size =? 0)%nat then Err ValueError
  else if (length buf mod size =? 0)%nat
       then Ok (NdArray dt (chunks_fuel (length buf) size buf))
       else Err ValueError.

Section Reader.
(** [eval] on the header text and [np.dtype(descr).itemsize] are Python's
    and numpy's. *)
Variable eval_header : string -> result npy_header.
Variable itemsize : string -> result nat.

Definition header_text_of (header_bytes : list byte) : string :=
  PyStr.strip PyStr.whitespace
    (PyStr.strip PyStr.newline_chars (string_of_list_byte header_bytes)).

Definition read_array_range_from_npy (data : list byte) (_range : range)
  : result ndarray :=
  let '(start, stop) :=
    match _range with
    | Index i => (i, i + 1)%Z
    | Slice start stop => (start, stop)
    end in
  let ver_major := int_from_bytes_little (read_bytes data 6 7) in
  let header_len_stop := (if (ver_major =? 1)%Z then 10 else 12)%Z in
  let header_len := int_from_bytes_little (read_bytes data 8 header_len_stop) in
  let array_start := (header_len_stop + header_len)%Z in
  let header_bytes := read_bytes data header_len_stop array_start in
  do header <- eval_header (header_text_of header_bytes);
  if (length (shape header) =? 1)%nat then
    do num_bytes_per_value <- itemsize (descr header);
    frombuffer (descr header) num_bytes_per_value
      (read_bytes data
         (array_start + start * Z.of_nat num_bytes_per_value)
         (array_start + stop * Z.of_nat num_bytes_per_value))
  else Err (AssertionError "Currently supporting 1-D array only").

(** *** The documented container *)

Definition magic : list byte := [x93; x4e; x55; x4d; x50; x59]%byte.

Definition byte_of_Z (n : Z) : byte :=
  default x00%byte (Byte.of_N (Z.to_N (n mod 256))).

Fixpoint le_bytes (width : nat) (n : Z) : list byte :=
  match width with
  | O => []
  | S width' => byte_of_Z n :: le_bytes width' (n / 256)
  end.

(** 2 bytes of header length in version 1, 4 bytes otherwise *)
Definition length_width (major : byte) : nat :=
  if Byte.eqb major x01%byte then 2 else 4.

Definition container (major minor : byte) (header : list byte)
    (payload : list byte) : list byte :=
  magic ++ [major; minor]
  ++ le_bytes (length_width major) (Z.of_nat (length header))
  ++ header ++ payload.

(** A valid one-dimensional array in the container: the header evaluates to
    the array's shape and dtype, every element has the dtype's size, and the
    header length fits its field. *)
Record valid_array (major : byte) (header : list byte) (dt : string)
    (size : nat) (elems : list (list byte)) : Prop := ValidArray {
  va_header : eval_header (header_text_of header)
              = Ok (NpyHeader [Z.of_nat (length elems)] dt);
  va_itemsize : itemsize dt = Ok size;
  va_size : 0 < size;
  va_elems : Forall (fun e => length e = size) elems;
  va_fits : (Z.of_nat (length header) < 256 ^ Z.of_nat (length_width major))%Z
  }.

End Reader.

(** *** A concrete reading of numpy's part, for the arrays this package reads *)

(** [eval] on the header layout numpy writes:
    [{'descr': '<i8', 'fortran_order': False, 'shape': (3,), }]. *)
Definition eval_header_numpy (text : string) : result npy_header :=
  match PyStr.split "'descr': '" text, PyStr.split "'shape': (" text with
  | [_; after_descr], [_; after_shape] =>
      let dims := filter (fun d => negb (String.eqb d ""))
                    (map (PyStr.strip PyStr.whitespace)
                       (PyStr.split ","
                          (PyStr.first_part (PyStr.split ")" after_shape)))) in
      do shape <- fold_right
                    (fun d acc => do v <- PyStr.int d; do l <- acc; Ok (v :: l))
                    (Ok []) dims;
      Ok (NpyHeader shape (PyStr.first_part (PyStr.split "'" after_descr)))
  | _, _ => Err ValueError
  end.

(** [np.dtype(descr).itemsize] for the numeric dtype strings: a byte-order
    mark, a kind letter, and the size in bytes. *)
Definition itemsize_numpy (dt : string) : result nat :=
  do n <- PyStr.int (PyStr.slice_from 2 dt);
  if (0 <? n)%Z then Ok (Z.to_nat n) else Err TypeError.

(** The integer value of a little-endian element ([.item()]), signed for kind
    [i], unsigned for kind [u]. *)
Definition item_numpy (dt : string) (e : list byte) : result Z :=
  let v := int_from_bytes_little e in
  let bits := (8 * Z.of_nat (length e))%Z in
  match dt with
  | String _ (String "u" _) => Ok v
  | String _ (String "i" _) => Ok (if (v <? 2 ^ (bits - 1))%Z then v else (v - 2 ^ bits)%Z)
  | _ => Err TypeError
  end.

(** [np.load] of a whole one-dimensional integer array. *)
Definition load_numpy (data : list byte) : result (list Z) :=
  do arr <- read_array_range_from_npy eval_header_numpy itemsize_numpy data
              (Slice 0 (Z.of_nat (length data)));
  fold_right (fun e acc => do v <- item_numpy (dtype arr) e; do l <- acc; Ok (v :: l))
    (Ok []) (items arr).

(** A version-1 file holding the given integers, [size] bytes each; the
    header text spells the dtype and the number of elements. *)
Definition int_array_file (dt count_text : string) (size : nat) (values : list Z)
  : list byte :=
  container x01 x00
    (list_byte_of_string
       ("{'descr': '" ++ dt ++ "', 'fortran_order': False, 'shape': ("
        ++ count_text ++ ",), }" ++ PyStr.newline_chars)%string)
    (concat (map (le_bytes size) values)).

End Npy.

(** ** Floating-point values

    Python floats and numpy float64 values are IEEE 754 binary64 numbers,
    modelled by [spec_float] with precision 53 and maximal exponent 1024. *)

Module PyFloat.

Definition float : Type := spec_float.

Definition prec : Z := 53.
Definition emax : Z := 1024.

(** [float(n)] for an integer [n], rounded to the nearest float; beyond the
    range of floats, where Python has an [OverflowError], it is an
    infinity *)
Definition of_int (n : Z) : float := binary_normalize prec emax n 0 false.

(** [a / b] on float64 *)
Definition div (a b : float) : float := SFdiv prec emax a b.

(** [-a] *)
Definition neg (a : float) : float := SFopp a.

(** [np.isnan] *)
Definition isnan (a : float) : bool :=
  match a with S754_nan => true | _ => false end.

(** [np.isfinite]: neither an infinity nor a NaN *)
Definition isfinite (a : float) : bool :=
  match a with S754_nan | S754_infinity _ => false | _ => true end.

End PyFloat.

(** ** JSON values, as [json.loads] returns them *)

Unset Elimination Schemes.
Inductive json : Type :=
  | JNull
  | JBool (b : bool)
  | JNum (q : Q)
  | JStr (s : string)
  | JList (items : list json)
  | JDict (entries : list (string * json)).
Set Elimination Schemes.

Module Json.

Definition bool_num (b : bool) : Q := if b then 1%Q else 0%Q.

(** Python's [==] on parsed JSON: numbers by value ([True == 1 == 1.0]), lists
    element by element, dicts by key, whatever the order of the keys. *)
Fixpoint py_eq (a b : json) {struct a} : bool :=
  match a, b with
  | JNull, JNull => true
  | JBool x, JBool y => Bool.eqb x y
  | JBool x, JNum q => Qeq_bool (bool_num x) q
  | JNum p, JBool y => Qeq_bool p (bool_num y)
  | JNum p, JNum q => Qeq_bool p q
  | JStr s, JStr t => String.eqb s t
  | JList l, JList m =>
      (fix all2 (l : list json) (m : list json) {struct l} : bool :=
         match l, m with
         | [], [] => true
         | x :: l', y :: m' => py_eq x y && all2 l' m'
         | _, _ => false
         end) l m
  | JDict d, JDict e =>
      (length d =? length e)%nat
      && (fix each (d : list (string * json)) {struct d} : bool :=
            match d with
            | [] => true
            | (k, v) :: d' =>
                match dict_get k e with
                | Some w => py_eq v w
                | None => false
                end && each d'
            end) d
  | _, _ => false
  end.

(** [item in items] *)
Definition py_in (item : json) (items : list json) : bool :=
  existsb (fun e => py_eq e item) items.

Fixpoint unique_keys {V} (d : list (string * V)) : bool :=
  match d with
  | [] => true
  | (k, _) :: d' => negb (existsb (fun e => String.eqb k (fst e)) d') && unique_keys d'
  end.

(** What [json.loads] builds: no object holds a key twice. *)
Fixpoint well_formed (v : json) : bool :=
  match v with
  | JList l => forallb well_formed l
  | JDict d =>
      unique_keys d
      && (fix each (d : list (string * json)) : bool :=
            match d with
            | [] => true
            | (_, w) :: d' => well_formed w && each d'
            end) d
  | _ => true
  end.

(** The number of constructors of a value. *)
Fixpoint size (v : json) : nat :=
  match v with
  | JList l => S (fold_right (fun x n => size x + n) 0 l)
  | JDict d => S (fold_right (fun e n => size (snd e) + n) 0 d)
  | _ => 1
  end.

(** [d[key]] on a value: a [KeyError] for a missing key, a [TypeError] when
    the value is no dict. *)
Definition getitem (v : json) (key : string) : result json :=
  match v with
  | JDict d => match dict_get key d with
               | Some w => Ok w
               | None => Err KeyError
               end
  | _ => Err TypeError
  end.

End Json.

(** ** Paths

    A path is the list of its components, the anchor (drive, root or bucket)
    first. *)

Module PyPath.

(** The anchor is the drive, root or bucket (empty for a relative path);
    the parts are the components below it. *)
Record path : Type := Path { anchor : string; parts : list string }.

Global Instance path_eq_dec : EqDecision path.
Proof. solve_decision. Defined.

Global Instance path_countable : Countable path.
Proof.
  refine (inj_countable' (fun p => (anchor p, parts p))
            (fun t => Path (fst t) (snd t)) _).
  now intros [].
Defined.

(** [p / name] *)
Definition child (p : path) (name : string) : path :=
  Path (anchor p) (parts p ++ [name]).

(** [p.name] *)
Definition name (p : path) : string := List.last (parts p) EmptyString.

(** [p.parent]; the anchor is its own parent *)
Definition parent (p : path) : path := Path (anchor p) (removelast (parts p)).

(** [p.parents]: the proper ancestors, nearest first, down to the anchor *)
Definition parents (p : path) : list path :=
  map (fun k => Path (anchor p) (take k (parts p)))
    (rev (seq 0 (length (parts p)))).

(** [p.as_posix()]: the components joined by forward slashes *)
Definition as_posix (p : path) : string :=
  (anchor p ++ PyStr.join "/" (parts p))%string.

(** [str(p)]: the components joined by the separator of the path's flavour.
    POSIX and cloud paths use the forward slash, so that [str(p)] is
    [p.as_posix()]; Windows paths use the backslash, in the anchor as well
    ([A:\x\y] where [as_posix] gives [A:/x/y]). *)
Definition str (windows : bool) (p : path) : string :=
  if windows
  then (PyStr.replace "/" "\" (anchor p) ++ PyStr.join "\" (parts p))%string
  else as_posix p.

Fixpoint is_prefix (base p : list string) : bool :=
  match base, p with
  | [], _ => true
  | _ :: _, [] => false
  | b :: base', c :: p' => String.eqb b c && is_prefix base' p'
  end.

(** [q] is [p] or lies beneath it *)
Definition within (p q : path) : bool :=
  String.eqb (anchor p) (anchor q) && is_prefix (parts p) (parts q).

(** [p.relative_to(base)] *)
Definition relative_to (p base : path) : result path :=
  if within base p
  then Ok (Path EmptyString (drop (length (parts base)) (parts p)))
  else Err ValueError.

(** [p.suffix]: from the last dot of the name, unless the name starts or ends
    with it *)
Definition suffix (p : path) : string :=
  let n := name p in
  let pieces := PyStr.split "." n in
  let ext := PyStr.last_part pieces in
  let i := String.length n - String.length ext - 1 in
  if (2 <=? length pieces)%nat && (0 <? i)%nat && negb (String.eqb ext "")
  then ("." ++ ext)%string else EmptyString.

(** [fnmatch] of a name against a pattern made of literal characters and
    [*] *)
Fixpoint glob_match (pat name : string) {struct pat} : bool :=
  match pat with
  | EmptyString => match name with EmptyString => true | _ => false end
  | String c pat' =>
      if Ascii.eqb c "*" then
        (fix star (name : string) : bool :=
           glob_match pat' name
           || match name with
              | EmptyString => false
              | String _ name' => star name'
              end) name
      else match name with
           | EmptyString => false
           | String d name' => Ascii.eqb c d && glob_match pat' name'
           end
  end.

(** Python's order on paths: the anchor, then component by component *)
Fixpoint parts_leb (p q : list string) : bool :=
  match p, q with
  | [], _ => true
  | _ :: _, [] => false
  | a :: p', b :: q' =>
      if String.eqb a b then parts_leb p' q' else String.leb a b
  end.

Definition path_leb (p q : path) : bool :=
  parts_leb (anchor p :: parts p) (anchor q :: parts q).

Definition path_le (p q : path) : Prop := path_leb p q = true.

Global Instance path_le_dec : RelDecision path_le.
Proof. intros p q. unfold path_le. apply _. Defined.

End PyPath.

(** ** The storage, as the functions of the package see it *)

Record filesystem : Type := FileSystem {
  (** every existing path, files and folders, in the order a traversal
      meets them *)
  fs_paths : list PyPath.path;
  fs_is_dir : PyPath.path -> bool;
  (** file contents *)
  fs_bytes : PyPath.path -> option (list byte);
  (** [npc_io.get_size]: the total size in bytes of a file or of a folder's
      subtree *)
  fs_size : PyPath.path -> Z;
  (** the flavour of the paths of this storage: [true] for the local drives
      of a Windows machine, whose paths are Windows paths, [false] for POSIX
      and cloud storage *)
  fs_windows : bool
}.

Module Fs.
Import PyPath.

(** [p.exists()] *)
Definition exists_ (fs : filesystem) (p : path) : bool :=
  bool_decide (p ∈ fs_paths fs).

Definition is_dir (fs : filesystem) (p : path) : bool :=
  exists_ fs p && fs_is_dir fs p.

Definition is_file (fs : filesystem) (p : path) : bool :=
  exists_ fs p && negb (fs_is_dir fs p).

(** [p.read_bytes()] *)
Definition read_bytes (fs : filesystem) (p : path) : result (list byte) :=
  if is_file fs p then
    match fs_bytes fs p with
    | Some data => Ok data
    | None => Err FileNotFoundError
    end
  else Err FileNotFoundError.

(** [p.read_text()] *)
Definition read_text (fs : filesystem) (p : path) : result string :=
  do data <- read_bytes fs p; Ok (string_of_list_byte data).

(** [q] lies strictly beneath [p] *)
Definition beneath (p q : path) : bool :=
  within p q && (length (parts p) <? length (parts q))%nat.

(** [p.glob(pattern)]: the children of [p] whose name matches *)
Definition glob (fs : filesystem) (p : path) (pattern : string) : list path :=
  filter (fun q => beneath p q && (length (parts q) =? S (length (parts p)))%nat
                   && glob_match pattern (name q)) (fs_paths fs).

(** [p.rglob(pattern)]: the descendants of [p] whose name matches *)
Definition rglob (fs : filesystem) (p : path) (pattern : string) : list path :=
  filter (fun q => beneath p q && glob_match pattern (name q)) (fs_paths fs).

(** A storage given by its folders and its files, in traversal order; the
    size of a path adds up the files at or beneath it. *)
Definition of_tree (entries : list (path * option (list byte))) : filesystem :=
  {| fs_paths := map fst entries;
     fs_is_dir := fun p =>
       existsb (fun e => bool_decide (fst e = p)
                         && match snd e with None => true | Some _ => false end) entries;
     fs_bytes := fun p =>
       match List.find (fun e => bool_decide (fst e = p)) entries with
       | Some (_, Some data) => Some data
       | _ => None
       end;
     fs_size := fun p =>
       fold_right Z.add 0%Z
         (map (fun e => match snd e with
                        | Some data =>
                            if within p (fst e) then Z.of_nat (length data) else 0%Z
                        | None => 0%Z
                        end) entries);
     fs_windows := false |}.


End Fs.

(** ** numpy, as far as the package calls it *)

Record numpy : Type := Numpy {
  (** [eval] of a container's header text *)
  np_eval_header : string -> result Npy.npy_header;
  (** [np.dtype(descr).itemsize] *)
  np_itemsize : string -> result nat;
  (** the Python integer held by one element of the given dtype *)
  np_item : string -> list byte -> result Z;
  (** [np.load(io.BytesIO(data))] on a one-dimensional integer array *)
  np_load : list byte -> result (list Z)
}.

Definition numpy_model : numpy :=
  {| np_eval_header := Npy.eval_header_numpy;
     np_itemsize := Npy.itemsize_numpy;
     np_item := Npy.item_numpy;
     np_load := Npy.load_numpy |}.

(** ** Devices and their local timing: [get_ephys_timing_on_pxi] *)

Module Devices.
Import PyPath.

Record EphysDeviceInfo : Type := {
  name : string;
  continuous : path;
  events : path;
  ttl : path;
  compressed : option path;
  ttl_sample_numbers : list Z;
  ttl_states : list Z
}.

Record EphysTimingInfoOnPXI : Type := {
  device : EphysDeviceInfo;
  start_sample : Z;
  sampling_rate : PyFloat.float;
  start_time : PyFloat.float
}.

Section Resolver.
Variable fs : filesystem.
Variable np : numpy.
(** [clipped_path_to_compressed], which no claim depends on, by its outcome
    on a continuous-data folder. *)
Variable clipped_path_to_compressed : path -> result path.

(** [arr.item()]: the array must hold exactly one element. *)
Definition item (arr : Npy.ndarray) : result Z :=
  match Npy.items arr with
  | [e] => np_item np (Npy.dtype arr) e
  | _ => Err ValueError
  end.

Definition read_first_sample (p : path) : result Z :=
  do data <- Fs.read_bytes fs p;
  do arr <- Npy.read_array_range_from_npy (np_eval_header np) (np_itemsize np)
              data (Npy.Index 0);
  item arr.

Definition load_array (p : path) : result (list Z) :=
  do data <- Fs.read_bytes fs p; np_load np data.

(** [only_devices_including and only_devices_including.lower() not in
    device.lower()] *)
Definition filtered_out (only_devices_including : option string) (device : string) : bool :=
  match only_devices_including with
  | None => false
  | Some only =>
      negb (String.eqb only "")
      && negb (PyStr.contains (PyStr.lower only) (PyStr.lower device))
  end.

(** The body of the inner loop, for one device of the log. *)
Definition device_body (recording_dir : path)
    (data : list (string * sync_entry))
    (only_devices_including : option string) (device : string)
  : gen EphysTimingInfoOnPXI :=
  if filtered_out only_devices_including device then gen_pass
  else
    let continuous := child (child recording_dir "continuous") device in
    if negb (Fs.exists_ fs continuous) then gen_pass
    else
      let events := child (child recording_dir "events") device in
      (* [next(events.glob("TTL*"))], without a default: the
         [StopIteration] of an empty listing escapes the body *)
      match Fs.glob fs events "TTL*" with
      | [] => gen_raise (escaping StopIteration)
      | ttl :: _ =>
          gen_try (read_first_sample (child continuous "sample_numbers.npy"))
            (fun first_sample_from_continuous_sample_numbers =>
          gen_try (match dict_get device data with
                   | Some e => Ok (se_start e, se_rate e)
                   | None => Err KeyError
                   end)
            (fun '(first_sample_from_sync_messages, sampling_rate) =>
          let first_sample_on_ephys_clock :=
            first_sample_from_continuous_sample_numbers in
          gen_try (load_array (child ttl "sample_numbers.npy"))
            (fun raw_ttl_sample_numbers =>
          let ttl_sample_numbers :=
            map (fun n => (n - first_sample_on_ephys_clock)%Z) raw_ttl_sample_numbers in
          gen_try (load_array (child ttl "states.npy"))
            (fun ttl_states =>
          (* only a [ValueError] is caught; any other exception escapes *)
          gen_try (match clipped_path_to_compressed continuous with
                   | Ok p => Ok (Some p)
                   | Err ValueError => Ok None
                   | Err e => Err e
                   end)
            (fun compressed =>
          gen_yield
            {| device := {| name := device;
                            continuous := continuous;
                            events := events;
                            ttl := ttl;
                            compressed := compressed;
                            ttl_sample_numbers := ttl_sample_numbers;
                            ttl_states := ttl_states |};
               start_sample := first_sample_on_ephys_clock;
               sampling_rate := PyFloat.of_int sampling_rate;
               start_time := PyFloat.of_int 0 |})))))
      end.

Definition recording_body (only_devices_including : option string)
    (recording_dir : path) : gen EphysTimingInfoOnPXI :=
  gen_try (do text <- Fs.read_text fs (child recording_dir "sync_messages.txt");
           SyncMessages.get_sync_messages_data text)
    (fun device_to_sync_messages_data =>
       gen_for_list (map fst device_to_sync_messages_data)
         (device_body recording_dir device_to_sync_messages_data
            only_devices_including)).

Definition get_ephys_timing_on_pxi (recording_dirs : list path)
    (only_devices_including : option string) : gen EphysTimingInfoOnPXI :=
  gen_for_list recording_dirs (recording_body only_devices_including).

End Resolver.

End Devices.

(** ** Timing on the reference clock: [get_ephys_timing_on_sync] *)

Module Sync.
Import PyPath Devices.

(** What the reference clock's dataset gives for the line [barcode_ephys]:
    rising and falling edges in seconds, and the total duration. *)
Record sync_dataset : Type := {
  rising_edges : list PyFloat.float;
  falling_edges : list PyFloat.float;
  total_seconds : PyFloat.float
}.

(** [npc_sync.SyncPathOrDataset] *)
Inductive sync_path_or_dataset : Type :=
  | SyncPath (p : path)
  | SyncDataset (d : sync_dataset).

Record EphysTimingInfoOnSync : Type := {
  sync_device : EphysDeviceInfo;
  sync_sampling_rate : PyFloat.float;
  sync_start_time : PyFloat.float
}.

(** [values[states ? 0]]: a boolean mask, which numpy refuses when the two
    arrays differ in length *)
Definition select (keep : Z -> bool) (values states : list Z) : result (list Z) :=
  if (length values =? length states)%nat
  then Ok (map fst (List.filter (fun p => keep (snd p)) (combine values states)))
  else Err IndexError.

(** [values[-1]] *)
Definition last_item (values : list Z) : result Z :=
  match values with
  | [] => Err IndexError
  | _ => Ok (List.last values 0%Z)
  end.

Definition seconds (rate : PyFloat.float) (samples : list Z) : list PyFloat.float :=
  map (fun n => PyFloat.div (PyFloat.of_int n) rate) samples.

Section Reconciler.
Variable fs : filesystem.
Variable np : numpy.
Variable clipped_path_to_compressed : path -> result path.
(** The external collaborators: the reader of a reference dataset file
    (behind [npc_sync.get_sync_data]), the barcode extraction and the offset
    and rate estimator ([npc_ephys.barcodes]). *)
Variable read_sync_file : path -> result sync_dataset.

(** [npc_sync.get_sync_data]: a dataset is returned as it is, a path is
    opened. *)
Definition get_sync_data (sync : sync_path_or_dataset) : result sync_dataset :=
  match sync with
  | SyncPath p => read_sync_file p
  | SyncDataset d => Ok d
  end.
Variable barcodes : Type.
Variable extract_barcodes_from_times :
  list PyFloat.float -> list PyFloat.float -> PyFloat.float -> result barcodes.
(** master barcodes, probe barcodes, [acq_start_index], [local_probe_rate];
    the time shift and the sampling rate of the answer *)
Variable get_probe_time_offset :
  barcodes -> barcodes -> Z -> PyFloat.float -> result (PyFloat.float * PyFloat.float).

Definition ephys_barcodes (info : EphysTimingInfoOnPXI) : result barcodes :=
  let d := device info in
  do on <- select (fun s => (0 <? s)%Z) (ttl_sample_numbers d) (ttl_states d);
  do off <- select (fun s => (s <? 0)%Z) (ttl_sample_numbers d) (ttl_states d);
  do last <- last_item (ttl_sample_numbers d);
  extract_barcodes_from_times
    (seconds (sampling_rate info) on)
    (seconds (sampling_rate info) off)
    (PyFloat.div (PyFloat.of_int last) (sampling_rate info)).

(** The timing built from an estimate. *)
Definition reconciled (info : EphysTimingInfoOnPXI)
    (timeshift sampling_rate : PyFloat.float) : EphysTimingInfoOnSync :=
  let start_time := PyFloat.neg timeshift in
  let sampling_rate :=
    if PyFloat.isnan sampling_rate || negb (PyFloat.isfinite sampling_rate)
    then Devices.sampling_rate info
    else sampling_rate in
  {| sync_device := device info;
     sync_sampling_rate := sampling_rate;
     sync_start_time := start_time |}.

(** The body of the loop over the devices. *)
Definition reconcile_body (sync_barcodes : barcodes) (info : EphysTimingInfoOnPXI)
  : gen EphysTimingInfoOnSync :=
  gen_try (ephys_barcodes info) (fun probe_barcodes =>
  gen_try (get_probe_time_offset sync_barcodes probe_barcodes 0
             (sampling_rate info))
    (fun '(timeshift, sampling_rate) =>
       gen_yield (reconciled info timeshift sampling_rate))).

Definition truthy {A} (x : option (list A)) : bool :=
  match x with
  | Some (_ :: _) => true
  | _ => false
  end.

Definition get_ephys_timing_on_sync (sync : sync_path_or_dataset)
    (recording_dirs : option (list path))
    (devices : option (list EphysTimingInfoOnPXI))
    (only_devices_including : option string) : gen EphysTimingInfoOnSync :=
  if negb (truthy recording_dirs || truthy devices) then gen_raise ValueError
  else
    gen_try (get_sync_data sync) (fun sync =>
    gen_try (extract_barcodes_from_times (rising_edges sync) (falling_edges sync)
               (total_seconds sync))
      (fun sync_barcodes =>
         let devices :=
           if truthy recording_dirs && negb (truthy devices)
           then get_ephys_timing_on_pxi fs np clipped_path_to_compressed
                  (default [] recording_dirs) only_devices_including
           else Gen (default [] devices) None in
         gen_for devices (reconcile_body sync_barcodes))).

End Reconciler.

End Sync.

(** ** Recording folders: manifests, kept paths, roots *)

Module Topology.
Import PyPath.

(** [max(values)] *)
Definition py_max (values : list Z) : result Z :=
  match values with
  | [] => Err ValueError
  | v :: rest => Ok (fold_left Z.max rest v)
  end.

(** [values.index(v)]: the first position holding [v] *)
Fixpoint py_index (v : Z) (values : list Z) : result nat :=
  match values with
  | [] => Err ValueError
  | w :: rest => if (w =? v)%Z then Ok 0 else do i <- py_index v rest; Ok (S i)
  end.

Section Scanner.
Variable fs : filesystem.

(** The total size of the folder that holds a manifest. *)
Definition dir_size (q : path) : Z := fs_size fs (parent q).

Definition get_single_oebin_path (p : path) : result path :=
  if negb (Fs.is_dir fs p) then Err ValueError
  else
    let oebin_paths := Fs.rglob fs p "structure*.oebin" in
    match oebin_paths with
    | [] => Err FileNotFoundError
    | [single] => Ok single
    | _ =>
        let dir_sizes := map (fun q => fs_size fs (parent q)) oebin_paths in
        do largest <- py_max dir_sizes;
        do i <- py_index largest dir_sizes;
        match oebin_paths !! i with
        | Some q => Ok q
        | None => Err IndexError
        end
    end.

(** The result is [tuple(set(...) - {...})]: its order is the set's. *)
Definition get_superfluous_oebin_paths (p : path) : result (list path) :=
  let all_oebin_paths := Fs.rglob fs p "structure*.oebin" in
  if (length all_oebin_paths =? 1)%nat then Ok []
  else
    do single <- get_single_oebin_path p;
    Ok (elements ((list_to_set all_oebin_paths : gset path) ∖ {[ single ]})).

(** [any(d in abs_path.parents for d in superfluous_recording_dirs)] *)
Definition is_superfluous_path (superfluous_recording_dirs : list path)
    (abs_path : path) : bool :=
  existsb (fun d => bool_decide (d ∈ parents abs_path)) superfluous_recording_dirs.

Definition record_node_body (record_node : path) : gen (path * path) :=
  gen_try (get_superfluous_oebin_paths record_node) (fun superfluous =>
    let superfluous_recording_dirs := map parent superfluous in
    gen_for_list (Fs.rglob fs record_node "*") (fun abs_path =>
      if is_superfluous_path superfluous_recording_dirs abs_path then gen_pass
      else gen_try (relative_to abs_path (parent record_node))
             (fun rel => gen_yield (abs_path, rel)))).

Definition get_filtered_ephys_paths_relative_to_record_node_parents
    (toplevel_ephys_path : path) : gen (path * path) :=
  gen_for_list (Fs.rglob fs toplevel_ephys_path "Record Node*") record_node_body.

(** [get_ephys_root]: the parent of the nearest ancestor named like a
    record node. *)
Definition get_ephys_root (p : path) : result path :=
  if negb (PyStr.contains "Record Node" (as_posix p)) then Err ValueError
  else
    match List.filter
            (fun q => PyStr.contains (PyStr.lower "Record Node") (PyStr.lower (name q)))
            (parents p) with
    | q :: _ => Ok (parent q)
    | [] => Err StopIteration
    end.

Definition processed (f : path) : bool :=
  existsb (fun k => PyStr.contains k (PyStr.lower (as_posix f)))
    ["sorted"; "extracted"; "curated"].

(** The loop filling the set of roots. *)
Fixpoint collect_roots (files : list path) (subfolders : gset path)
  : result (gset path) :=
  match files with
  | [] => Ok subfolders
  | f :: rest =>
      if processed f then collect_roots rest subfolders
      else do root <- get_ephys_root f;
           collect_roots rest ({[ root ]} ∪ subfolders)
  end.

(** [size < min_size_gb * 1024**3] *)
Definition below (size : Z) (min_size_gb : Q) : bool :=
  negb (Qle_bool (min_size_gb * inject_Z (1024 ^ 3))%Q (inject_Z size)).

(** The order of [sorted(subfolders, key=lambda s: str(s))] *)
Definition str_le (p q : path) : Prop :=
  String.le (str (fs_windows fs) p) (str (fs_windows fs) q).

Global Instance str_le_dec : RelDecision str_le.
Proof. intros p q. unfold str_le. apply _. Defined.

Definition get_raw_ephys_subfolders (p : path) (min_size_gb : option Q)
  : result (list path) :=
  do subfolders <- collect_roots (Fs.rglob fs p "continuous.dat") ∅;
  let subfolders :=
    match min_size_gb with
    | Some m => List.filter (fun q => below (fs_size fs q) m) (elements subfolders)
    | None => elements subfolders
    end in
  Ok (merge_sort str_le subfolders).

End Scanner.

End Topology.

(** ** Merging manifests: [get_merged_oebin_file] *)

Module Merge.
Import PyPath.

(** Modelled from the spec: [npc_ephys.settings_xml.get_settings_xml_data]
    is not among the sources at hand.  The specification has the settings
    files compared as "structurally identical after parsing (ignoring a known
    mutable creation date field)": the parsed value keeps the creation date
    apart from the rest of the structure, and its equality looks at the rest
    only. *)
Record settings_data : Type := {
  creation_date : string;
  structure : list (string * string)
}.

Definition settings_match (a b : settings_data) : bool :=
  bool_decide (structure a = structure b).

(** The merged manifest while it is built: category to descriptors, in
    insertion order. *)
Definition merged_oebin : Type := list (string * list json).

(** [merged.get(key, [])] *)
Definition get_list (merged : merged_oebin) (key : string) : list json :=
  default [] (dict_get key merged).

(** [merged.setdefault(key, []).append(item)] *)
Fixpoint setdefault_append (key : string) (item : json) (merged : merged_oebin)
  : merged_oebin :=
  match merged with
  | [] => [(key, [item])]
  | (k, items) :: rest =>
      if String.eqb key k then (k, items ++ [item]) :: rest
      else (k, items) :: setdefault_append key item rest
  end.

(** [merged.get(key) == value] *)
Definition get_equals (merged : merged_oebin) (key : string) (value : json) : bool :=
  match dict_get key merged with
  | None => match value with JNull => true | _ => false end
  | Some items => Json.py_eq (JList items) value
  end.

(** [exclude_probe_names and any(p.lower() in item.get("folder_name",
    "").lower() for p in exclude_probe_names)] *)
Definition excluded (exclude_probe_names : list string) (item : json) : result bool :=
  match exclude_probe_names with
  | [] => Ok false
  | _ =>
      match item with
      | JDict entries =>
          match default (JStr "") (dict_get "folder_name" entries) with
          | JStr folder_name =>
              Ok (existsb (fun p => PyStr.contains (PyStr.lower p)
                                      (PyStr.lower folder_name))
                    exclude_probe_names)
          | _ => Err AttributeError
          end
      | _ => Err AttributeError
      end
  end.

(** The loop over the items of one category. *)
Fixpoint merge_items (exclude_probe_names : list string) (key : string)
    (items : list json) (merged : merged_oebin) : result merged_oebin :=
  match items with
  | [] => Ok merged
  | item :: rest =>
      if Json.py_in item (get_list merged key)
      then merge_items exclude_probe_names key rest merged
      else
        do skip <- excluded exclude_probe_names item;
        if skip then merge_items exclude_probe_names key rest merged
        else merge_items exclude_probe_names key rest
               (setdefault_append key item merged)
  end.

(** The loop over the keys of one manifest. *)
Fixpoint merge_keys (exclude_probe_names : list string)
    (entries : list (string * json)) (merged : merged_oebin) : result merged_oebin :=
  match entries with
  | [] => Ok merged
  | (key, value) :: rest =>
      if get_equals merged key value
      then merge_keys exclude_probe_names rest merged
      else
        match value with
        | JList items =>
            do merged' <- merge_items exclude_probe_names key items merged;
            merge_keys exclude_probe_names rest merged'
        | _ => merge_keys exclude_probe_names rest merged
        end
  end.

(** One parsed manifest merged into what was gathered so far.  A manifest
    is an object; over an empty list or string the loop does nothing, and
    any other value is given as a [TypeError].  That is what the loop raises
    on a number, a text, a boolean or [null]; on a list that is not empty
    the outcome in Python depends on the items (integers that index the
    list are walked without an error), which the model does not follow. *)
Definition merge_manifest (exclude_probe_names : list string) (oebin_data : json)
    (merged : merged_oebin) : result merged_oebin :=
  match oebin_data with
  | JDict entries => merge_keys exclude_probe_names entries merged
  | JList [] | JStr EmptyString => Ok merged
  | _ => Err TypeError
  end.




(** [merged'] holds, up to [==], whatever [merged] holds. *)
Definition extends (merged merged' : merged_oebin) : Prop :=
  forall key x, Json.py_in x (get_list merged key) = true ->
                Json.py_in x (get_list merged' key) = true.

(** A descriptor the loop would pass over: met already, or excluded. *)
Definition covered (exclude : list string) (merged : merged_oebin)
    (key : string) (x : json) : Prop :=
  Json.py_in x (get_list merged key) = true \/ excluded exclude x = Ok true.

Definition items_reflexive (entries : list (string * json)) : Prop :=
  forall key items x, In (key, JList items) entries -> In x items ->
                      Json.py_eq x x = true.

Definition as_json (merged : merged_oebin) : json :=
  JDict (map (fun e => (fst e, JList (snd e))) merged).

Section Merger.
Variable fs : filesystem.
(** [json.loads]; a text that is no JSON is a [ValueError] *)
Variable json_loads : string -> option json.
(** The checksum of [npc_io.checksums_match] *)
Variable checksum : list byte -> Z.
(** The settings parser, see [settings_data] *)
Variable get_settings_xml_data : list byte -> settings_data.

Definition get_oebin_data (p : path) : result json :=
  do text <- Fs.read_text fs p;
  match json_loads text with
  | Some v => Ok v
  | None => Err ValueError
  end.

(** [all(x == xs[0] for x in xs)] *)
Definition all_equal_first {A} (eqb : A -> A -> bool) (xs : list A) : bool :=
  match xs with
  | [] => true
  | x0 :: _ => forallb (fun x => eqb x x0) xs
  end.

Fixpoint read_all (paths : list path) : result (list (list byte)) :=
  match paths with
  | [] => Ok []
  | p :: rest => do data <- Fs.read_bytes fs p; do l <- read_all rest; Ok (data :: l)
  end.

(** The message of the mismatch.  Python writes the tuple of paths after
    the colon, each with the name of its path class; here the paths are
    listed by their text. *)
Definition xml_mismatch_message (paths : list path) : string :=
  ("XML files do not match: " ++ PyStr.join ", " (map as_posix paths))%string.

Definition assert_xml_files_match (paths : list path) : result unit :=
  if negb (forallb (fun p => String.eqb (suffix p) ".xml") paths)
  then Err ValueError
  else if negb (forallb (Fs.is_file fs) paths) then Err FileNotFoundError
  else
    do contents <- read_all paths;
    if all_equal_first Z.eqb (map checksum contents) then Ok tt
    else
      let data := map get_settings_xml_data contents in
      if all_equal_first settings_match data then Ok tt
      else Err (AssertionError (xml_mismatch_message paths)).

Definition settings_path (oebin_path : path) : path :=
  child (parent (parent (parent oebin_path))) "settings.xml".

(** The loop over the manifests, in sorted order. *)
Fixpoint merge_paths (exclude_probe_names : list string) (oebin_paths : list path)
    (merged : merged_oebin) : result merged_oebin :=
  match oebin_paths with
  | [] => Ok merged
  | oebin_path :: rest =>
      do oebin_data <- get_oebin_data oebin_path;
      do merged' <- merge_manifest exclude_probe_names oebin_data merged;
      merge_paths exclude_probe_names rest merged'
  end.

Definition get_merged_oebin_file (paths : list path)
    (exclude_probe_names : list string) : result json :=
  match paths with
  | [single] => get_oebin_data single
  | oebin_paths =>
      if existsb (fun p => negb (String.eqb (suffix p) ".oebin")) oebin_paths
      then Err ValueError
      else
        do _ <- assert_xml_files_match (map settings_path oebin_paths);
        do merged <- merge_paths exclude_probe_names
                       (merge_sort path_le oebin_paths) [];
        match merged with
        | [] => Err ValueError
        | _ => Ok (as_json merged)
        end
  end.

End Merger.

End Merge.

(** ** Validation: [validate_recording_folder] *)

Module Validate.
Import PyPath Devices Sync.

Definition device_not_found_message (device_name : string) (recording_path : path)
  : string :=
  ("Could not find " ++ device_name ++ " data in " ++ as_posix recording_path)%string.

Definition sync_failed_message (device_name : string) : string :=
  ("Could not validate " ++ device_name ++ " with sync")%string.

Section Validator.
Variable fs : filesystem.
Variable np : numpy.
Variable clipped_path_to_compressed : path -> result path.
Variable json_loads : string -> option json.
Variable read_sync_file : path -> result sync_dataset.
Variable barcodes : Type.
Variable extract_barcodes_from_times :
  list PyFloat.float -> list PyFloat.float -> PyFloat.float -> result barcodes.
Variable get_probe_time_offset :
  barcodes -> barcodes -> Z -> PyFloat.float -> result (PyFloat.float * PyFloat.float).

(** [next(get_ephys_timing_on_pxi(recording_path,
    only_devices_including=device_name))] *)
Definition find_device (recording_path : path) (device_name : string)
  : result EphysTimingInfoOnPXI :=
  next (get_ephys_timing_on_pxi fs np clipped_path_to_compressed
          [recording_path] (Some device_name)).

(** [next(get_ephys_timing_on_sync(sync, devices=(info,)))] *)
Definition reconcile_device (sync : sync_dataset) (info : EphysTimingInfoOnPXI)
  : result EphysTimingInfoOnSync :=
  next (get_ephys_timing_on_sync fs np clipped_path_to_compressed read_sync_file
          barcodes extract_barcodes_from_times get_probe_time_offset
          (SyncDataset sync) None (Some [info]) None).

(** The body of the loop, for one continuous-stream descriptor. *)
Definition validate_device (recording_path : path) (sync : option sync_dataset)
    (device : json) : result unit :=
  do folder_name <- Json.getitem device "folder_name";
  match folder_name with
  | JStr folder_name =>
      let device_name := PyStr.strip "/" folder_name in
      do info <- match find_device recording_path device_name with
                 | Err StopIteration =>
                     Err (AssertionError
                            (device_not_found_message device_name recording_path))
                 | found => found
                 end;
      match sync with
      | Some sync =>
          match reconcile_device sync info with
          | Ok _ => Ok tt
          | Err exc =>
              Err (AssertionError (sync_failed_message (name (Devices.device info))))
          end
      | None => Ok tt
      end
  | _ => Err AttributeError
  end.

Fixpoint validate_devices (recording_path : path) (sync : option sync_dataset)
    (devices : list json) : result unit :=
  match devices with
  | [] => Ok tt
  | device :: rest =>
      do _ <- validate_device recording_path sync device;
      validate_devices recording_path sync rest
  end.

Definition validate_recording_folder (recording_path : path)
    (sync_path_or_dataset : option sync_path_or_dataset) : result unit :=
  do sync <- match sync_path_or_dataset with
             | Some s => do d <- get_sync_data read_sync_file s; Ok (Some d)
             | None => Ok None
             end;
  do oebin <- Merge.get_oebin_data fs json_loads
                (child recording_path "structure.oebin");
  do continuous <- Json.getitem oebin "continuous";
  match continuous with
  | JList devices => validate_devices recording_path sync devices
  | _ => Err TypeError
  end.

End Validator.

End Validate.

(** ** The digitizer: [get_pxi_nidaq_info] *)

Module Nidaq.
Import PyPath Devices.

(** [tuple(t for t in g)]: the generator is run to its end, and an exception
    that ends it ends the call. *)
Definition tuple_of {A} (g : gen A) : result (list A) :=
  match raised g with
  | Some e => Err e
  | None => Ok (yielded g)
  end.

Section Finder.
Variable fs : filesystem.
Variable np : numpy.
Variable clipped_path_to_compressed : path -> result path.

Definition get_pxi_nidaq_info (recording_dir : list path)
  : result EphysTimingInfoOnPXI :=
  do info <- tuple_of (get_ephys_timing_on_pxi fs np clipped_path_to_compressed
                         recording_dir (Some "NI-DAQmx-"));
  match info with
  | [] => Err FileNotFoundError
  | [single] => Ok single
  | _ => Err FileNotFoundError
  end.

End Finder.

End Nidaq.

(** ** Hallmarks of a recording folder: [is_new_ephys_folder],
    [is_complete_ephys_folder], [is_valid_ephys_folder] *)

Module Hallmarks.
Import PyPath.

Definition globs : list string := ["Record Node*"; "structure*.oebin"].

(** [tuple(_.replace("*", "") for _ in globs)] *)
Definition components : list string := map (PyStr.replace "*" "") globs.

Section Checker.
Variable fs : filesystem.
(** [npc_io.get_size_gb(path) < min_size_gb * 1024**3], the size helper
    being [npc_io]'s. *)
Variable size_gb_below : path -> Q -> bool.

(** [next(path.rglob(glob), None)], a path being truthy *)
Definition found (p : path) (glob : string) : bool :=
  match Fs.rglob fs p glob with
  | [] => false
  | _ :: _ => true
  end.

Definition is_new_ephys_folder (p : path) : bool :=
  if existsb (fun c => PyStr.contains (PyStr.lower c) (PyStr.lower (as_posix p)))
       components
  then true
  else existsb (found p) globs.

Definition is_complete_ephys_folder (p : path) : bool :=
  if negb (is_new_ephys_folder p) then false
  else forallb (found p) ["continuous.dat"; "spike_times.npy"; "spike_clusters.npy"].

Definition is_valid_ephys_folder (p : path) (min_size_gb : option Q) : bool :=
  if negb (Fs.is_dir fs p) then false
  else if negb (is_new_ephys_folder p) then false
  else match min_size_gb with
       | Some m => if size_gb_below p m then false else true
       | None => true
       end.

End Checker.

End Hallmarks.

(** ** Validation of whole sessions: [validate_ephys] *)

Module ValidateAll.
Import PyPath Devices Sync.

Section Validator.
Variable fs : filesystem.
Variable np : numpy.
Variable clipped_path_to_compressed : path -> result path.
Variable json_loads : string -> option json.
Variable read_sync_file : path -> result sync_dataset.
Variable barcodes : Type.
Variable extract_barcodes_from_times :
  list PyFloat.float -> list PyFloat.float -> PyFloat.float -> result barcodes.
Variable get_probe_time_offset :
  barcodes -> barcodes -> Z -> PyFloat.float -> result (PyFloat.float * PyFloat.float).

(** The manifests of one root: the single one kept, or every
    [structure.oebin] beneath the root. *)
Definition oebin_paths_of (root : path) (ignore_small_folders : bool)
  : result (list path) :=
  if ignore_small_folders
  then do single <- Topology.get_single_oebin_path fs root; Ok [single]
  else Ok (Fs.rglob fs root "structure.oebin").

(** The inner loop: the folder of each manifest is validated. *)
Fixpoint validate_recordings (oebin_paths : list path)
    (sync_path_or_dataset : option sync_path_or_dataset) : result unit :=
  match oebin_paths with
  | [] => Ok tt
  | p :: rest =>
      do _ <- Validate.validate_recording_folder fs np clipped_path_to_compressed
                json_loads read_sync_file barcodes extract_barcodes_from_times
                get_probe_time_offset (parent p) sync_path_or_dataset;
      validate_recordings rest sync_path_or_dataset
  end.

Fixpoint validate_ephys (root_paths : list path)
    (sync_path_or_dataset : option sync_path_or_dataset)
    (ignore_small_folders : bool) : result unit :=
  match root_paths with
  | [] => Ok tt
  | root :: rest =>
      do oebin_paths <- oebin_paths_of root ignore_small_folders;
      do _ <- validate_recordings oebin_paths sync_path_or_dataset;
      validate_ephys rest sync_path_or_dataset ignore_small_folders
  end.

End Validator.

End ValidateAll.

(** ** The compressed copy of a device's data: [clipped_path_to_compressed] *)

Module Compressed.
Import PyPath.

(** The longest run of decimal digits a text starts with, and the rest:
    what a greedy [\d+] takes. *)
Fixpoint span_digits (s : string) : string * string :=
  match s with
  | EmptyString => (EmptyString, EmptyString)
  | String c s' =>
      match PyStr.digit_of c with
      | Some _ => let (digits, rest) := span_digits s' in (String c digits, rest)
      | None => (EmptyString, s)
      end
  end.

(** The longest run of characters other than [/] a text starts with, and the
    rest: what a greedy [[^/]+] takes. *)
Fixpoint span_no_slash (s : string) : string * string :=
  match s with
  | EmptyString => (EmptyString, EmptyString)
  | String c s' =>
      if Ascii.eqb c "/" then (EmptyString, s)
      else let (run, rest) := span_no_slash s' in (String c run, rest)
  end.

(** How far ".*" can go from the start of a text: up to the first line
    feed. *)
Definition line_length (s : string) : nat :=
  match PyStr.find PyStr.newline_chars s with
  | Some i => i
  | None => String.length s
  end.

(** The pattern ".*X" at the start of [s], [x] telling what "X" captures
    at the start of a text: the star first takes [k] characters and gives
    them back one by one until "X" matches. *)
Fixpoint backtrack {A} (x : string -> option A) (s : string) (k : nat) : option A :=
  match x (PyStr.slice_from k s) with
  | Some a => Some a
  | None =>
      match k with
      | O => None
      | S k' => backtrack x s k'
      end
  end.

(** The match of ".*X" at the start of [s], as [re.match] does it. *)
Definition match_dot_star {A} (x : string -> option A) (s : string) : option A :=
  backtrack x s (line_length s).

(** The search of ".*X" in [s], as [re.search] does it: the match is tried
    at each position in turn. *)
Fixpoint search_dot_star {A} (x : string -> option A) (s : string) : option A :=
  match match_dot_star x s with
  | Some a => Some a
  | None =>
      match s with
      | EmptyString => None
      | String _ s' => search_dot_star x s'
      end
  end.

(** The group "(word\d+)" at the start of [t]: the word with all the
    digits that follow it. *)
Definition word_digits (word t : string) : option string :=
  if PyStr.startswith word t then
    match fst (span_digits (PyStr.slice_from (String.length word) t)) with
    | EmptyString => None
    | digits => Some (word ++ digits)%string
    end
  else None.

(** The pattern "{record_node}/{experiment}/recording\d+/[^/]+/" and its
    final group, which takes the rest of the line, at the start of [t]; the
    two names hold no character that is special in a pattern.  The digits
    must run up to a [/] and the folder name after it up to the next [/]. *)
Definition device_tail (record_node experiment t : string) : option string :=
  let prefix := (record_node ++ "/" ++ experiment ++ "/recording")%string in
  if PyStr.startswith prefix t then
    match span_digits (PyStr.slice_from (String.length prefix) t) with
    | (String _ _, String c after_digits) =>
        if Ascii.eqb c "/" then
          match span_no_slash after_digits with
          | (String _ _, String _ after_folder) =>
              Some (PyStr.slice_to (line_length after_folder) after_folder)
          | _ => None
          end
        else None
    | _ => None
    end
  else None.

Section Finder.
Variable fs : filesystem.

(** [p.iterdir()] on a folder, or on nothing at all: the entries right
    beneath [p] *)
Definition iterdir (p : path) : list path :=
  List.filter (fun q => Fs.beneath p q
                        && (length (parts q) =? S (length (parts p)))%nat)
    (fs_paths fs).

Definition clipped_path_to_compressed (p : path) : result path :=
  let text := as_posix p in
  if negb (PyStr.contains "ecephys_clipped" text) then Err ValueError
  else
    match search_dot_star (word_digits "experiment") text,
          search_dot_star (word_digits "Record Node ") text with
    | Some experiment, Some record_node =>
        match match_dot_star (device_tail record_node experiment) text with
        | None => Err ValueError
        | Some device =>
            let compressed_name :=
              (experiment ++ "_" ++ record_node ++ "#" ++ device ++ ".zarr")%string in
            match List.filter (fun q => String.eqb (name q) "ecephys_clipped")
                    (parents p) with
            | [] => Err StopIteration
            | root_path :: _ =>
                let folder := child (parent root_path) "ecephys_compressed" in
                (* listing a file is an error of the storage's own *)
                if Fs.is_file fs folder then Err (ExternalError "iterdir")
                else
                  match List.filter (fun q => String.eqb (name q) compressed_name)
                          (iterdir folder) with
                  | [] => Err FileNotFoundError
                  | compressed_path :: _ => Ok compressed_path
                  end
            end
        end
    | _, _ => Err ValueError
    end.

End Finder.

End Compressed.

(** ** Sample data *)

Module Samples.
Import PyPath.

(** Three 16-bit integers, read from a version-1 and from a version-2 file. *)
Definition sample_header : list byte :=
  list_byte_of_string
    ("{'descr': '<i2', 'fortran_order': False, 'shape': (3,), }      " ++ PyStr.newline_chars).

Definition sample_elems : list (list byte) :=
  [[x01; x00]; [x02; x00]; [xff; xff]]%byte.


(** A recording folder on a bucket: the log lists a probe and the NI-DAQmx
    digitizer; only the digitizer was recorded here. *)
Definition recording : path :=
  Path "s3://" ["session"; "Record Node 102"; "experiment1"; "recording1"].

(** [p / a / b / ...] *)
Definition descend (p : path) (names : list string) : path :=
  Path (anchor p) (parts p ++ names).

Definition log : list byte :=
  list_byte_of_string
    (SyncMessages.log_text "Software Time: 1"
       [("ProbeA-AP", "30000", "100");
        ("NI-DAQmx-105.PXI-6133", "30000", "257417001")]).

Definition recorded_tree : list (path * option (list byte)) :=
  [ (recording, None);
    (descend recording ["sync_messages.txt"], Some log);
    (descend recording ["continuous"], None);
    (descend recording ["continuous"; "NI-DAQmx-105.PXI-6133"], None);
    (descend recording ["continuous"; "NI-DAQmx-105.PXI-6133"; "sample_numbers.npy"],
     Some (Npy.int_array_file "<i8" "3" 8 [257417001; 257417002; 257417003]%Z));
    (descend recording ["events"], None);
    (descend recording ["events"; "NI-DAQmx-105.PXI-6133"], None);
    (descend recording ["events"; "NI-DAQmx-105.PXI-6133"; "TTL"], None);
    (descend recording ["events"; "NI-DAQmx-105.PXI-6133"; "TTL"; "sample_numbers.npy"],
     Some (Npy.int_array_file "<i8" "2" 8 [257417011; 257417021]%Z));
    (descend recording ["events"; "NI-DAQmx-105.PXI-6133"; "TTL"; "states.npy"],
     Some (Npy.int_array_file "<i2" "2" 2 [1; -1]%Z)) ].

(** The same, with a continuous-data folder for the probe and an events
    folder for it that holds no [TTL*] subfolder. *)
Definition probe_without_ttl_tree : list (path * option (list byte)) :=
  recorded_tree ++ [(descend recording ["continuous"; "ProbeA-AP"], None);
                    (descend recording ["events"; "ProbeA-AP"], None)].

(** The digitizer as the resolver describes it. *)
Definition digitizer : Devices.EphysTimingInfoOnPXI :=
  {| Devices.device :=
       {| Devices.name := "NI-DAQmx-105.PXI-6133";
          Devices.continuous := descend recording ["continuous"; "NI-DAQmx-105.PXI-6133"];
          Devices.events := descend recording ["events"; "NI-DAQmx-105.PXI-6133"];
          Devices.ttl := descend recording ["events"; "NI-DAQmx-105.PXI-6133"; "TTL"];
          Devices.compressed := None;
          Devices.ttl_sample_numbers := [10; 20]%Z;
          Devices.ttl_states := [1; -1]%Z |};
     Devices.start_sample := 257417001;
     Devices.sampling_rate := PyFloat.of_int 30000;
     Devices.start_time := PyFloat.of_int 0 |}.

(** Stand-ins for the external collaborators: a reference dataset without
    edges, an extraction that keeps the rising edges, and an estimator that
    finds no matching barcodes: a shift of 20 seconds and no rate. *)
Definition empty_dataset : Sync.sync_dataset :=
  {| Sync.rising_edges := []; Sync.falling_edges := [];
     Sync.total_seconds := PyFloat.of_int 0 |}.

Definition no_sync_file (p : path) : result Sync.sync_dataset :=
  Err FileNotFoundError.

Definition keep_rising (on off : list PyFloat.float) (total : PyFloat.float)
  : result (list PyFloat.float) := Ok on.

Definition estimate_nothing (master probe : list PyFloat.float)
    (acq_start_index : Z) (local_probe_rate : PyFloat.float)
  : result (PyFloat.float * PyFloat.float) :=
  if (acq_start_index =? 0)%Z then Ok (PyFloat.of_int 20, S754_nan)
  else Err (ExternalError "get_probe_time_offset").

(** A session folder whose record node holds two recordings: the proper one
    and a short, aborted one. *)
Definition session : path := Path "A:/" ["1233245678_366122_20220618_probeABC"].

Definition node : path := descend session ["Record Node 101"].

Definition bytes_of_size (n : nat) : list byte := repeat x00 n.

Definition session_tree : list (path * option (list byte)) :=
  [ (session, None);
    (node, None);
    (descend node ["settings.xml"], Some (bytes_of_size 3));
    (descend node ["experiment1"], None);
    (descend node ["experiment1"; "recording1"], None);
    (descend node ["experiment1"; "recording1"; "structure.oebin"],
     Some (bytes_of_size 5));
    (descend node ["experiment1"; "recording1"; "continuous"], None);
    (descend node ["experiment1"; "recording1"; "continuous"; "ProbeA-AP"], None);
    (descend node ["experiment1"; "recording1"; "continuous"; "ProbeA-AP";
                   "continuous.dat"],
     Some (bytes_of_size 40));
    (descend node ["experiment1"; "recording2"], None);
    (descend node ["experiment1"; "recording2"; "structure.oebin"],
     Some (bytes_of_size 5));
    (descend node ["experiment1"; "recording2"; "continuous"], None);
    (descend node ["experiment1"; "recording2"; "continuous"; "ProbeA-AP"], None);
    (descend node ["experiment1"; "recording2"; "continuous"; "ProbeA-AP";
                   "continuous.dat"],
     Some (bytes_of_size 10)) ].

(** Two raw recordings on one drive, the folder of one beside a folder that
    holds the other. *)
Definition drive : path := Path "A:/" [].


(** A recording split over two drives, one record node on each. *)
Definition node_abc : path :=
  Path "A:/" ["1233245678_366122_20220618_probeABC"; "Record Node 101"].

Definition node_def : path :=
  Path "B:/" ["1233245678_366122_20220618_probeDEF"; "Record Node 102"].

Definition oebin_abc : path :=
  descend node_abc ["experiment1"; "recording1"; "structure.oebin"].

Definition oebin_def : path :=
  descend node_def ["experiment1"; "recording1"; "structure.oebin"].

Definition split_tree (settings_abc settings_def oebin_text_abc oebin_text_def : string)
  : list (path * option (list byte)) :=
  [ (node_abc, None);
    (descend node_abc ["settings.xml"], Some (list_byte_of_string settings_abc));
    (descend node_abc ["experiment1"], None);
    (descend node_abc ["experiment1"; "recording1"], None);
    (oebin_abc, Some (list_byte_of_string oebin_text_abc));
    (node_def, None);
    (descend node_def ["settings.xml"], Some (list_byte_of_string settings_def));
    (descend node_def ["experiment1"], None);
    (descend node_def ["experiment1"; "recording1"], None);
    (oebin_def, Some (list_byte_of_string oebin_text_def)) ].

Definition stream (folder_name : string) (num_channels : Z) : json :=
  JDict [("folder_name", JStr folder_name);
         ("num_channels", JNum (inject_Z num_channels));
         ("sample_rate", JNum (inject_Z 30000))].

Definition manifest_abc : json :=
  JDict [("GUI version", JStr "0.6.4");
         ("continuous", JList [stream "Neuropix-PXI-100.ProbeA-AP/" 384;
                               stream "NI-DAQmx-105.PXI-6133/" 8]);
         ("events", JList [stream "NI-DAQmx-105.PXI-6133/TTL/" 8]);
         ("spikes", JList [])].

Definition manifest_def : json :=
  JDict [("GUI version", JStr "0.6.4");
         ("continuous", JList [stream "Neuropix-PXI-100.ProbeD-AP/" 384;
                               stream "NI-DAQmx-105.PXI-6133/" 8]);
         ("events", JList [stream "NI-DAQmx-105.PXI-6133/TTL/" 8]);
         ("spikes", JList [])].

(** Stand-ins for [json.loads], the checksum and the settings parser on the
    sample files: the manifests are named by their text, the checksum reads
    the bytes as one number, and the first character of a settings file is
    its creation date. *)
Definition loads (text : string) : option json :=
  if String.eqb text "manifest ABC" then Some manifest_abc
  else if String.eqb text "manifest DEF" then Some manifest_def
  else if String.eqb text "manifest of the digitizer"
       then Some (JDict [("continuous", JList [stream "NI-DAQmx-105.PXI-6133/" 8])])
  else if String.eqb text "manifest of the digitizer and a probe"
       then Some (JDict [("continuous", JList [stream "NI-DAQmx-105.PXI-6133/" 8;
                                               stream "ProbeA-AP/" 384])])
  else None.

(** The sample recording with a manifest. *)
Definition recorded_tree_with (manifest_text : string)
  : list (path * option (list byte)) :=
  recorded_tree
  ++ [(descend recording ["structure.oebin"],
       Some (list_byte_of_string manifest_text))].

Definition checksum (data : list byte) : Z := Npy.int_from_bytes_little data.

Definition parse_settings (data : list byte) : Merge.settings_data :=
  {| Merge.creation_date := string_of_list_byte (take 1 data);
     Merge.structure := [("settings", string_of_list_byte (drop 1 data))] |}.

(** No compressed copy anywhere. *)
Definition no_compressed (p : path) : result path := Err ValueError.

(** The session of the docstrings: the clipped recording of a probe and its
    compressed copy. *)
Definition bucket : path :=
  Path "s3://" ["aind-ephys-data"; "ecephys_670248_2023-08-03_12-04-15"].

Definition clipped_probe : path :=
  descend bucket ["ecephys_clipped"; "Record Node 102"; "experiment1"; "recording1";
                  "continuous"; "Neuropix-PXI-100.ProbeA-AP"].

Definition compressed_probe : path :=
  descend bucket ["ecephys_compressed";
                  "experiment1_Record Node 102#Neuropix-PXI-100.ProbeA-AP.zarr"].

Definition bucket_tree : list (path * option (list byte)) :=
  [ (bucket, None);
    (descend bucket ["ecephys_clipped"], None);
    (descend bucket ["ecephys_compressed"], None);
    (descend bucket ["ecephys_compressed";
                     "experiment1_Record Node 102#Neuropix-PXI-100.ProbeB-AP.zarr"], None);
    (compressed_probe, None) ].

(** The sample recording moved into that session, with the compressed copy
    of the digitizer's data. *)
Definition clipped_recording : path :=
  descend bucket ["ecephys_clipped"; "Record Node 102"; "experiment1"; "recording1"].

Definition move (source target q : path) : path :=
  Path (anchor target) (parts target ++ drop (length (parts source)) (parts q)).

Definition compressed_digitizer : path :=
  descend bucket ["ecephys_compressed";
                  "experiment1_Record Node 102#NI-DAQmx-105.PXI-6133.zarr"].

Definition clipped_tree : list (path * option (list byte)) :=
  [ (bucket, None); (descend bucket ["ecephys_clipped"], None) ]
  ++ map (fun e => (move recording clipped_recording (fst e), snd e)) recorded_tree
  ++ [ (descend bucket ["ecephys_compressed"], None); (compressed_digitizer, None) ].

Definition clipped_digitizer : Devices.EphysTimingInfoOnPXI :=
  {| Devices.device :=
       {| Devices.name := "NI-DAQmx-105.PXI-6133";
          Devices.continuous :=
            descend clipped_recording ["continuous"; "NI-DAQmx-105.PXI-6133"];
          Devices.events := descend clipped_recording ["events"; "NI-DAQmx-105.PXI-6133"];
          Devices.ttl :=
            descend clipped_recording ["events"; "NI-DAQmx-105.PXI-6133"; "TTL"];
          Devices.compressed := Some compressed_digitizer;
          Devices.ttl_sample_numbers := [10; 20]%Z;
          Devices.ttl_states := [1; -1]%Z |};
     Devices.start_sample := 257417001;
     Devices.sampling_rate := PyFloat.of_int 30000;
     Devices.start_time := PyFloat.of_int 0 |}.

End Samples.
(** ** Facts about the string primitives *)

Module PyStrFacts.
Import PyStr.

Lemma app_cons (x : ascii) (a b : string) :
  (String x a ++ b)%string = String x (a ++ b).
Proof. reflexivity. Qed.

Lemma app_nil_l_s (a : string) : ("" ++ a)%string = a.
Proof. reflexivity. Qed.

Ltac sapp := rewrite ?app_cons, ?app_nil_l_s.

Lemma app_assoc_s (a b c : string) : ((a ++ b) ++ c)%string = (a ++ (b ++ c))%string.
Proof. induction a as [|x a IH]; sapp; [reflexivity | now rewrite IH]. Qed.

Lemma app_nil_r_s (a : string) : (a ++ "")%string = a.
Proof. induction a as [|x a IH]; sapp; [reflexivity | now rewrite IH]. Qed.

Lemma length_app_s (a b : string) :
  String.length (a ++ b) = String.length a + String.length b.
Proof. induction a as [|x a IH]; sapp; simpl; [reflexivity | now rewrite IH]. Qed.

Lemma startswith_app (p s : string) : startswith p (p ++ s) = true.
Proof.
  induction p as [|x p IH]; sapp; simpl; [reflexivity |].
  now rewrite Ascii.eqb_refl.
Qed.

Lemma slice_to_app (a b : string) : slice_to (String.length a) (a ++ b) = a.
Proof. induction a as [|x a IH]; sapp; simpl; [now destruct b | now rewrite IH]. Qed.

Lemma slice_from_app (a b : string) : slice_from (String.length a) (a ++ b) = b.
Proof. induction a as [|x a IH]; sapp; simpl; [now destruct b | exact IH]. Qed.

Lemma slice_from_add (n m : nat) (s : string) : slice_from (n + m) s = slice_from m (slice_from n s).
Proof.
  revert s; induction n as [|n IH]; intros s; simpl; [reflexivity |].
  destruct s as [|x s]; [now destruct m | apply IH].
Qed.

Lemma mem_char_cons (c x : ascii) (s : string) :
  mem_char c (String x s) = Ascii.eqb c x || mem_char c s.
Proof. reflexivity. Qed.

Lemma mem_char_app (c : ascii) (a b : string) :
  mem_char c (a ++ b) = mem_char c a || mem_char c b.
Proof.
  induction a as [|x a IH]; sapp; [reflexivity |].
  rewrite !mem_char_cons, IH. now rewrite orb_assoc.
Qed.

(** A match of [u ++ c :: v] puts the character [c] at offset [length u]. *)
Lemma startswith_has_char (u v : string) (c : ascii) (s : string) :
  startswith (u ++ String c v) s = true -> mem_char c s = true.
Proof.
  revert s; induction u as [|y u IH]; intros [|x s]; sapp; simpl; try discriminate.
  - rewrite mem_char_cons. destruct (Ascii.eqb c x); [reflexivity | discriminate].
  - rewrite mem_char_cons. destruct (Ascii.eqb y x); [| discriminate].
    intros H. rewrite (IH _ H). apply orb_true_r.
Qed.

Lemma startswith_needs_char (u v : string) (c : ascii) (w rest : string) :
  mem_char c w = false -> String.length u < String.length w ->
  startswith (u ++ String c v) (w ++ rest) = false.
Proof.
  revert w; induction u as [|y u IH]; intros [|x w]; sapp; simpl; try lia.
  - rewrite mem_char_cons. intros [Hx _]%orb_false_elim _. now rewrite Hx.
  - rewrite mem_char_cons. intros [_ Hw]%orb_false_elim Hlen.
    destruct (Ascii.eqb y x); [| reflexivity]. apply IH; [exact Hw | lia].
Qed.

Lemma startswith_barrier (sep w y : string) (c : ascii) :
  mem_char c sep = false ->
  startswith sep (w ++ String c y) = startswith sep w.
Proof.
  revert w; induction sep as [|d sep IH]; intros w; [now destruct w |].
  rewrite mem_char_cons. intros [Hd Hsep]%orb_false_elim.
  destruct w as [|e w]; sapp; simpl.
  - rewrite Ascii.eqb_sym in Hd. now rewrite Hd.
  - destruct (Ascii.eqb d e); [now apply IH | reflexivity].
Qed.

Lemma find_cons (sep : string) (x : ascii) (s : string) :
  find sep (String x s) =
  if startswith sep (String x s) then Some 0 else S <$> find sep s.
Proof. reflexivity. Qed.

Lemma find_prefix (sep s : string) : find sep (sep ++ s) = Some 0.
Proof.
  destruct (sep ++ s)%string eqn:E.
  - simpl. now rewrite <- E, startswith_app.
  - rewrite find_cons, <- E. now rewrite startswith_app.
Qed.

(** The first occurrence of a separator that owns a character [c] absent
    from everything before it. *)
Lemma find_at (u v : string) (c : ascii) (a b : string) :
  mem_char c a = false -> mem_char c u = false ->
  find (u ++ String c v) (a ++ (u ++ String c v) ++ b) = Some (String.length a).
Proof.
  intros Ha Hu. induction a as [|x a IH]; sapp.
  - apply find_prefix.
  - rewrite mem_char_cons in Ha. apply orb_false_elim in Ha as [Hx Ha'].
    rewrite find_cons.
    assert (E : String x (a ++ (u ++ String c v) ++ b)
                = ((String x a ++ u) ++ (String c v ++ b))%string).
    { sapp. f_equal. now rewrite !app_assoc_s. }
    rewrite E at 1.
    rewrite startswith_needs_char.
    + now rewrite (IH Ha').
    + rewrite mem_char_app, mem_char_cons, Hx, Ha', Hu. reflexivity.
    + rewrite length_app_s. simpl. lia.
Qed.

Lemma find_absent (u v : string) (c : ascii) (s : string) :
  mem_char c s = false -> find (u ++ String c v) s = None.
Proof.
  induction s as [|x s IH]; intros Hs.
  - destruct u; reflexivity.
  - rewrite find_cons.
    destruct (startswith (u ++ String c v) (String x s)) eqn:E.
    + apply startswith_has_char in E. congruence.
    + rewrite mem_char_cons in Hs. apply orb_false_elim in Hs as [_ Hs].
      now rewrite (IH Hs).
Qed.

Lemma find_None_cons (sep : string) (x : ascii) (s : string) :
  find sep (String x s) = None ->
  startswith sep (String x s) = false /\ find sep s = None.
Proof.
  rewrite find_cons. destruct (startswith sep (String x s)); [discriminate |].
  destruct (find sep s); [discriminate | auto].
Qed.

(** A character foreign to the separator is a barrier for matches. *)
Lemma find_barrier (sep x y : string) (c : ascii) :
  sep <> EmptyString -> mem_char c sep = false ->
  find sep x = None -> find sep y = None ->
  find sep (x ++ String c y) = None.
Proof.
  intros Hne Hc Hx Hy. induction x as [|a x IH].
  - rewrite app_nil_l_s, find_cons.
    rewrite <- (app_nil_l_s (String c y)) at 1.
    rewrite startswith_barrier by exact Hc.
    destruct sep; [congruence |]. simpl. now rewrite Hy.
  - apply find_None_cons in Hx as [Hs Hx].
    rewrite app_cons, find_cons, <- app_cons.
    rewrite startswith_barrier by exact Hc. rewrite Hs.
    now rewrite (IH Hx).
Qed.

Lemma split_fuel_none (n : nat) (sep s : string) :
  find sep s = None -> split_fuel n sep s = [s].
Proof. intros H. destruct n; simpl; [reflexivity | now rewrite H]. Qed.

(** One separator, found where expected and absent afterwards: two parts. *)
Lemma split_at (sep a b : string) :
  sep <> EmptyString ->
  find sep (a ++ sep ++ b) = Some (String.length a) ->
  find sep b = None ->
  split sep (a ++ sep ++ b) = [a; b].
Proof.
  intros Hne Hf Hb. unfold split.
  destruct (String.length (a ++ sep ++ b)) eqn:El.
  - rewrite !length_app_s in El. destruct sep; [congruence | simpl in El; lia].
  - cbn [split_fuel]. rewrite Hf, slice_to_app, slice_from_add, slice_from_app, slice_from_app.
    now rewrite split_fuel_none.
Qed.

Lemma lstrip_id (chars : string) (x : ascii) (s : string) :
  mem_char x chars = false -> lstrip chars (String x s) = String x s.
Proof. intros H. simpl. now rewrite H. Qed.

Lemma rstrip_cons (chars : string) (x : ascii) (s : string) :
  rstrip chars (String x s) =
  match rstrip chars s with
  | EmptyString => if mem_char x chars then EmptyString else String x EmptyString
  | r => String x r
  end.
Proof. reflexivity. Qed.

Lemma rstrip_app (chars a b : string) :
  rstrip chars b <> EmptyString -> rstrip chars (a ++ b) = (a ++ rstrip chars b)%string.
Proof.
  intros Hb. induction a as [|x a IH]; sapp; [reflexivity |].
  rewrite rstrip_cons, IH.
  destruct (a ++ rstrip chars b)%string eqn:E; [| reflexivity].
  destruct a; rewrite ?app_cons, ?app_nil_l_s in E; [congruence | discriminate].
Qed.

End PyStrFacts.
Module DigitFacts.
Import PyStr PyStrFacts.

Lemma digits_go_all (acc : Z) (p : bool) (s : string) :
  all_digits s = true -> s <> EmptyString \/ p = true ->
  digits_go acc p s = Some (digits_value acc s).
Proof.
  revert acc p; induction s as [|c s IH]; intros acc p Hs Hp.
  - destruct Hp as [Hp | ->]; [congruence | reflexivity].
  - simpl in Hs |- *. destruct (digit_of c) as [d|]; [| discriminate].
    simpl. apply IH; [exact Hs | now right].
Qed.

Lemma all_digits_no_char (c : ascii) (s : string) :
  digit_of c = None -> all_digits s = true -> mem_char c s = false.
Proof.
  intros Hc. induction s as [|x s IH]; [reflexivity |].
  simpl. rewrite mem_char_cons. destruct (digit_of x) eqn:Ex; [| discriminate].
  intros Hs. rewrite (IH Hs), orb_false_r.
  destruct (Ascii.eqb_spec c x) as [-> |]; [congruence | reflexivity].
Qed.


(** A digit belongs to no set of characters that holds no digit. *)
Lemma digit_outside (chars : string) (x : ascii) (d : Z) :
  forallb (fun c => match digit_of c with Some _ => false | None => true end)
    (list_ascii_of_string chars) = true ->
  digit_of x = Some d -> mem_char x chars = false.
Proof.
  intros Hall Hx. induction chars as [|c chars IH]; [reflexivity |].
  simpl in Hall. apply andb_true_iff in Hall as [Hc Hall].
  rewrite mem_char_cons, (IH Hall), orb_false_r.
  destruct (Ascii.eqb_spec x c) as [-> |]; [| reflexivity].
  rewrite Hx in Hc. discriminate.
Qed.

Lemma rstrip_digits (chars s : string) :
  forallb (fun c => match digit_of c with Some _ => false | None => true end)
    (list_ascii_of_string chars) = true ->
  all_digits s = true -> rstrip chars s = s.
Proof.
  intros Hall. induction s as [|x s IH]; [reflexivity |].
  simpl all_digits. destruct (digit_of x) as [d|] eqn:Ex; [| discriminate].
  intros Hs. rewrite rstrip_cons, (IH Hs).
  destruct s; [| reflexivity].
  now rewrite (digit_outside chars x d Hall Ex).
Qed.

Lemma strip_digits (chars s : string) :
  forallb (fun c => match digit_of c with Some _ => false | None => true end)
    (list_ascii_of_string chars) = true ->
  all_digits s = true -> strip chars s = s.
Proof.
  intros Hall Hs. unfold strip. destruct s as [|x s]; [reflexivity |].
  assert (Hx : exists d, digit_of x = Some d).
  { simpl in Hs. destruct (digit_of x); [eauto | discriminate]. }
  destruct Hx as [d Hx].
  rewrite lstrip_id by exact (digit_outside chars x d Hall Hx).
  now apply rstrip_digits.
Qed.

Lemma int_digits (s : string) :
  s <> EmptyString -> all_digits s = true -> int s = Ok (decimal s).
Proof.
  intros Hne Hs. unfold int. rewrite strip_digits by (reflexivity || exact Hs).
  destruct s as [|x s]; [congruence |].
  assert (Hx : exists d, digit_of x = Some d).
  { simpl in Hs. destruct (digit_of x); [eauto | discriminate]. }
  destruct Hx as [d Hx].
  destruct (Ascii.eqb_spec x "-") as [-> |]; [discriminate |].
  destruct (Ascii.eqb_spec x "+") as [-> |]; [discriminate |].
  rewrite digits_go_all; [reflexivity | exact Hs | now left].
Qed.

Lemma int_space_digits (s : string) :
  s <> EmptyString -> all_digits s = true -> int (String " " s) = Ok (decimal s).
Proof.
  intros Hne Hs. rewrite <- (int_digits s Hne Hs). unfold int, strip.
  reflexivity.
Qed.

End DigitFacts.

(** ** The acquisition log *)

Module SyncMessagesFacts.
Import PyStr PyStrFacts DigitFacts SyncMessages.

Section OneLine.
Variables device rate_text start_text : string.
Hypothesis device_no_at : mem_char "@" device = false.
Hypothesis device_no_colon : mem_char ":" device = false.
Hypothesis device_no_prefix : contains "Start Time for " (device ++ " ") = false.
Hypothesis rate_digits : all_digits rate_text = true.
Hypothesis start_digits : all_digits start_text = true.
Hypothesis rate_nonempty : rate_text <> EmptyString.
Hypothesis start_nonempty : start_text <> EmptyString.

Let tail : string := (" " ++ rate_text ++ " Hz: " ++ start_text)%string.

Ltac no_char c :=
  rewrite ?mem_char_app, ?mem_char_cons;
  rewrite ?(all_digits_no_char c rate_text eq_refl rate_digits),
          ?(all_digits_no_char c start_text eq_refl start_digits),
          ?device_no_at, ?device_no_colon;
  reflexivity.

Lemma after_prefix :
  last_part (split "Start Time for " (log_line device rate_text start_text))
  = (device ++ " @" ++ tail)%string.
Proof.
  unfold log_line.
  rewrite <- (app_nil_l_s ("Start Time for " ++ _)%string).
  rewrite (split_at "Start Time for " "" (device ++ " @ " ++ rate_text ++ " Hz: " ++ start_text));
    [| discriminate | exact (find_prefix "Start Time for " _) |]; [reflexivity |].
  replace (device ++ " @ " ++ rate_text ++ " Hz: " ++ start_text)%string
    with ((device ++ " ") ++ String "@" tail)%string
    by (now rewrite app_assoc_s).
  apply find_barrier; [discriminate | reflexivity | |].
  - unfold contains in device_no_prefix.
    destruct (find "Start Time for " (device ++ " ")); [discriminate | reflexivity].
  - apply (find_absent "" "tart Time for " "S"). unfold tail. no_char "S"%char.
Qed.

Lemma label_of_line :
  label (log_line device rate_text start_text)
  = replace " (" "-" (replace ") - " "." device).
Proof.
  unfold label. rewrite after_prefix.
  rewrite (split_at " @" device tail); [reflexivity | discriminate | |].
  - apply (find_at " " "" "@"); [exact device_no_at | reflexivity].
  - apply (find_absent " " "" "@"). unfold tail. no_char "@"%char.
Qed.

Lemma rate_of_line :
  rate (log_line device rate_text start_text) = Ok (decimal rate_text).
Proof.
  unfold rate, log_line.
  replace ("Start Time for " ++ device ++ " @ " ++ rate_text ++ " Hz: " ++ start_text)%string
    with (("Start Time for " ++ device ++ " ") ++ "@ "
          ++ (rate_text ++ " Hz: " ++ start_text))%string
    by (now rewrite !app_assoc_s).
  rewrite (split_at "@ " ("Start Time for " ++ device ++ " ")
             (rate_text ++ " Hz: " ++ start_text)); [| discriminate | |].
  - cbn [last_part List.last].
    replace (rate_text ++ " Hz: " ++ start_text)%string
      with (rate_text ++ " Hz" ++ (": " ++ start_text))%string by reflexivity.
    rewrite (split_at " Hz" rate_text (": " ++ start_text)); [| discriminate | |].
    + now apply int_digits.
    + apply (find_at "" "Hz" " "); [| reflexivity].
      exact (all_digits_no_char " "%char rate_text eq_refl rate_digits).
    + apply (find_absent " " "z" "H"). no_char "H"%char.
  - apply (find_at "" " " "@"); [| reflexivity]. no_char "@"%char.
  - apply (find_absent "" " " "@"). no_char "@"%char.
Qed.

Lemma strip_line :
  strip " " (log_line device rate_text start_text)
  = log_line device rate_text start_text.
Proof.
  unfold strip, log_line. rewrite app_cons, lstrip_id by reflexivity.
  replace (String "S" ("tart Time for " ++ device ++ " @ " ++ rate_text
                       ++ " Hz: " ++ start_text))%string
    with (("Start Time for " ++ device ++ " @ " ++ rate_text ++ " Hz: ")
          ++ start_text)%string.
  2:{ rewrite !app_assoc_s. reflexivity. }
  rewrite rstrip_app; rewrite rstrip_digits; trivial.
Qed.

Lemma start_of_line :
  start (log_line device rate_text start_text) = Ok (decimal start_text).
Proof.
  unfold start. rewrite strip_line. unfold log_line.
  replace ("Start Time for " ++ device ++ " @ " ++ rate_text ++ " Hz: " ++ start_text)%string
    with (("Start Time for " ++ device ++ " @ " ++ rate_text ++ " ") ++ "Hz:"
          ++ (String " " start_text))%string
    by (now rewrite !app_assoc_s).
  rewrite (split_at "Hz:" ("Start Time for " ++ device ++ " @ " ++ rate_text ++ " ")
             (String " " start_text)); [| discriminate | |].
  - cbn [last_part List.last]. now apply int_space_digits.
  - apply (find_at "Hz" "" ":"); [| reflexivity]. no_char ":"%char.
  - apply (find_absent "Hz" "" ":"). no_char ":"%char.
Qed.

End OneLine.

Lemma no_linebreak_app (a b : string) :
  no_linebreak (a ++ b) = no_linebreak a && no_linebreak b.
Proof.
  unfold no_linebreak. induction a as [|x a IH]; sapp; [reflexivity |].
  simpl. now rewrite IH, andb_assoc.
Qed.

Lemma digit_no_linebreak (x : ascii) (d : Z) :
  digit_of x = Some d -> is_linebreak x = false.
Proof.
  intros Hx. unfold is_linebreak. cbn [existsb].
  repeat match goal with
  | |- context [Ascii.eqb x ?c] =>
      destruct (Ascii.eqb_spec x c) as [-> |]; [discriminate Hx |]
  end.
  reflexivity.
Qed.

Lemma digits_no_linebreak (s : string) : all_digits s = true -> no_linebreak s = true.
Proof.
  unfold no_linebreak. induction s as [|x s IH]; [reflexivity |].
  simpl. destruct (digit_of x) as [d|] eqn:Ex; [| discriminate].
  intros Hs. now rewrite (digit_no_linebreak x d Ex), (IH Hs).
Qed.

Lemma splitlines_go_line (cur line rest : string) :
  no_linebreak line = true ->
  splitlines_go cur (line ++ newline ++ rest)
  = (cur ++ line)%string :: splitlines_go EmptyString rest.
Proof.
  revert cur; induction line as [|x line IH]; intros cur Hl.
  - rewrite app_nil_l_s, app_nil_r_s. unfold newline. rewrite app_cons, app_nil_l_s.
    destruct rest; reflexivity.
  - unfold no_linebreak in Hl. simpl in Hl. apply andb_true_iff in Hl as [Hx Hl].
    rewrite app_cons. cbn [splitlines_go].
    destruct (is_linebreak x); [discriminate |].
    rewrite (IH _ Hl), app_assoc_s. reflexivity.
Qed.

Lemma splitlines_line (line rest : string) :
  no_linebreak line = true ->
  splitlines (line ++ newline ++ rest) = line :: splitlines rest.
Proof. intros H. unfold splitlines. now rewrite splitlines_go_line. Qed.

Lemma plain_fields_spec (device rate_text start_text : string) :
  plain_fields (device, rate_text, start_text) = true ->
  mem_char "@" device = false /\ mem_char ":" device = false
  /\ contains "Start Time for " (device ++ " ") = false
  /\ no_linebreak device = true
  /\ all_digits rate_text = true /\ rate_text <> EmptyString
  /\ all_digits start_text = true /\ start_text <> EmptyString.
Proof.
  unfold plain_fields. rewrite !andb_true_iff, !negb_true_iff.
  intros [[[[[[[H1 H2] H3] H4] H5] H6] H7] H8].
  repeat split; try assumption.
  - intros ->. discriminate.
  - intros ->. discriminate.
Qed.

Lemma log_line_no_linebreak (device rate_text start_text : string) :
  plain_fields (device, rate_text, start_text) = true ->
  no_linebreak (log_line device rate_text start_text) = true.
Proof.
  intros (_ & _ & _ & Hd & Hr & _ & Hs & _)%plain_fields_spec.
  unfold log_line. rewrite !no_linebreak_app, Hd.
  now rewrite (digits_no_linebreak _ Hr), (digits_no_linebreak _ Hs).
Qed.

Lemma splitlines_log_body (fields : list (string * string * string)) :
  forallb plain_fields fields = true ->
  splitlines (log_body fields)
  = map (fun f => log_line (fst (fst f)) (snd (fst f)) (snd f)) fields.
Proof.
  induction fields as [|[[d r] s] fields IH]; [reflexivity |].
  simpl. intros [Hf Hrest]%andb_true_iff.
  rewrite splitlines_line by now apply log_line_no_linebreak.
  now rewrite (IH Hrest).
Qed.

Lemma comprehend_cons (line : string) (rest : list string)
    (acc : list (string * sync_entry)) :
  comprehend (line :: rest) acc
  = (do s <- start line; do r <- rate line;
     comprehend rest (dict_set (label line) (SyncEntry s r) acc)).
Proof. reflexivity. Qed.

Lemma comprehend_fields (fields : list (string * string * string))
    (acc : list (string * sync_entry)) :
  forallb plain_fields fields = true ->
  comprehend (map (fun f => log_line (fst (fst f)) (snd (fst f)) (snd f)) fields) acc
  = Ok (fold_left (fun acc f => dict_set (fst (entry_of f)) (snd (entry_of f)) acc)
          fields acc).
Proof.
  revert acc; induction fields as [|[[d r] s] fields IH]; intros acc; [reflexivity |].
  cbn [forallb map fst snd]. intros [Hf Hrest]%andb_true_iff.
  pose proof (plain_fields_spec _ _ _ Hf) as (H1 & H2 & H3 & _ & H5 & H6 & H7 & H8).
  rewrite comprehend_cons, start_of_line, rate_of_line, label_of_line by assumption.
  cbn [rbind fold_left]. exact (IH _ Hrest).
Qed.

Lemma replace_once (old new a b : string) :
  old <> EmptyString ->
  find old (a ++ old ++ b) = Some (String.length a) -> find old b = None ->
  replace old new (a ++ old ++ b) = (a ++ new ++ b)%string.
Proof. intros Hne Hf Hb. unfold replace. now rewrite split_at. Qed.

Lemma replace_absent (old new s : string) :
  find old s = None -> replace old new s = s.
Proof. intros H. unfold replace, split. now rewrite split_fuel_none. Qed.

(** The documented shape, [name (id) - rest], becomes [name-id.rest]. *)
Lemma normalize_documented (name id rest : string) :
  mem_char "(" name = false -> mem_char ")" name = false ->
  mem_char "(" id = false -> mem_char ")" id = false ->
  mem_char "(" rest = false -> mem_char ")" rest = false ->
  normalize (name ++ " (" ++ id ++ ") - " ++ rest) = (name ++ "-" ++ id ++ "." ++ rest)%string.
Proof.
  intros Hn1 Hn2 Hi1 Hi2 Hr1 Hr2. unfold normalize.
  replace (name ++ " (" ++ id ++ ") - " ++ rest)%string
    with ((name ++ " (" ++ id) ++ ") - " ++ rest)%string
    by (now rewrite !app_assoc_s).
  rewrite (replace_once ") - " "." (name ++ " (" ++ id) rest); [| discriminate | |].
  - replace ((name ++ " (" ++ id) ++ "." ++ rest)%string
      with (name ++ " (" ++ (id ++ "." ++ rest))%string
      by (now rewrite !app_assoc_s).
    rewrite (replace_once " (" "-" name (id ++ "." ++ rest)); [reflexivity | discriminate | |].
    + apply (find_at " " "" "("); [exact Hn1 | reflexivity].
    + apply (find_absent " " "" "(").
      rewrite !mem_char_app, Hi1, Hr1. reflexivity.
  - apply (find_at "" " - " ")"); [| reflexivity].
    rewrite !mem_char_app, Hn2, Hi2. reflexivity.
  - apply (find_absent "" " - " ")"). exact Hr2.
Qed.

(** A label without parentheses is kept as it is. *)
Lemma normalize_plain (device : string) :
  mem_char "(" device = false -> mem_char ")" device = false ->
  normalize device = device.
Proof.
  intros H1 H2. unfold normalize.
  rewrite (replace_absent ") - " "." device) by exact (find_absent "" " - " ")" _ H2).
  apply replace_absent. exact (find_absent " " "" "(" _ H1).
Qed.

End SyncMessagesFacts.

(** ** The array container *)

Module NpyFacts.
Import Npy.

Lemma byte_of_Z_to_N (n : Z) : Z.of_N (Byte.to_N (byte_of_Z n)) = (n mod 256)%Z.
Proof.
  unfold byte_of_Z.
  pose proof (Z.mod_pos_bound n 256 eq_refl) as Hb.
  pose proof (Byte.to_of_N_option_map (Z.to_N (n mod 256))) as H.
  destruct (Byte.of_N (Z.to_N (n mod 256))) as [b|]; simpl in *.
  - destruct (N.leb_spec (Z.to_N (n mod 256)) 255); [| discriminate].
    injection H as ->. lia.
  - destruct (N.leb_spec (Z.to_N (n mod 256)) 255); [discriminate | lia].
Qed.

Lemma int_from_bytes_le_bytes (width : nat) (n : Z) :
  (0 <= n)%Z ->
  int_from_bytes_little (le_bytes width n) = (n mod 256 ^ Z.of_nat width)%Z.
Proof.
  revert n; induction width as [|w IH]; intros n Hn.
  - simpl. now rewrite Z.mod_1_r.
  - cbn [le_bytes int_from_bytes_little].
    rewrite byte_of_Z_to_N, IH by (apply Z.div_pos; lia).
    rewrite Nat2Z.inj_succ, Z.pow_succ_r by lia.
    rewrite Z.rem_mul_r by lia. lia.
Qed.

Lemma length_le_bytes (width : nat) (n : Z) : length (le_bytes width n) = width.
Proof. revert n; induction width; intros; simpl; auto. Qed.

Lemma read_bytes_app (pre data : list byte) (start stop : Z) :
  (0 <= start)%Z ->
  read_bytes (pre ++ data) (Z.of_nat (length pre) + start) (Z.of_nat (length pre) + stop)
  = read_bytes data start stop.
Proof.
  intros Hs. unfold read_bytes.
  replace (Z.of_nat (length pre) + stop - (Z.of_nat (length pre) + start))%Z
    with (stop - start)%Z by lia.
  replace (Z.to_nat (Z.of_nat (length pre) + start))
    with (length pre + Z.to_nat start) by lia.
  now rewrite drop_app_add.
Qed.

Lemma read_bytes_prefix (a b : list byte) :
  read_bytes (a ++ b) 0 (Z.of_nat (length a)) = a.
Proof.
  unfold read_bytes. rewrite Z.sub_0_r, Nat2Z.id.
  change (Z.to_nat 0) with 0. now rewrite drop_0, take_app_length.
Qed.

(** Elements of one size, laid end to end, are recovered by chunking. *)
Lemma chunks_concat (size fuel : nat) (elems : list (list byte)) :
  0 < size -> Forall (fun e => length e = size) elems ->
  length elems <= fuel ->
  chunks_fuel fuel size (concat elems) = elems.
Proof.
  intros Hsize. revert fuel; induction elems as [|e elems IH]; intros fuel Hall Hfuel.
  - destruct fuel; reflexivity.
  - apply Forall_cons in Hall as [He Hall].
    destruct fuel as [|fuel]; [simpl in Hfuel; lia |].
    cbn [chunks_fuel concat].
    destruct (e ++ concat elems) eqn:E.
    + destruct e; [simpl in He; lia | discriminate].
    + rewrite <- E, <- He, take_app_length, drop_app_length.
      rewrite He. f_equal. apply IH; [exact Hall | simpl in Hfuel; lia].
Qed.

Lemma length_concat_uniform (size : nat) (elems : list (list byte)) :
  Forall (fun e => length e = size) elems ->
  length (concat elems) = length elems * size.
Proof.
  induction 1 as [|e elems He _ IH]; [reflexivity |].
  simpl. rewrite length_app, IH, He. lia.
Qed.

Lemma drop_concat_uniform (size i : nat) (elems : list (list byte)) :
  Forall (fun e => length e = size) elems ->
  drop (i * size) (concat elems) = concat (drop i elems).
Proof.
  intros Hall. revert i; induction Hall as [|e elems He _ IH]; intros i.
  - cbn [concat]. now rewrite !drop_nil.
  - destruct i as [|i]; [reflexivity |].
    simpl. rewrite <- He at 1. rewrite drop_app_add. apply IH.
Qed.

Lemma take_concat_uniform (size k : nat) (elems : list (list byte)) :
  Forall (fun e => length e = size) elems ->
  take (k * size) (concat elems) = concat (take k elems).
Proof.
  intros Hall. revert k; induction Hall as [|e elems He _ IH]; intros k.
  - cbn [concat]. now rewrite !take_nil.
  - destruct k as [|k]; [reflexivity |].
    simpl. rewrite <- He at 1. rewrite take_app_add. now rewrite IH.
Qed.

Lemma frombuffer_concat (dt : string) (size : nat) (elems : list (list byte)) :
  0 < size -> Forall (fun e => length e = size) elems ->
  frombuffer dt size (concat elems) = Ok (NdArray dt elems).
Proof.
  intros Hsize Hall. unfold frombuffer.
  destruct (Nat.eqb_spec size 0) as [-> | _]; [lia |].
  rewrite (length_concat_uniform size) by exact Hall.
  rewrite Nat.Div0.mod_mul, Nat.eqb_refl.
  rewrite chunks_concat; [reflexivity | exact Hsize | exact Hall |].
  nia.
Qed.

Lemma ver_major_is_1 (major : byte) :
  (int_from_bytes_little [major] =? 1)%Z = Byte.eqb major x01%byte.
Proof. destruct major; reflexivity. Qed.

Section Container.
Variable eval_header : string -> result npy_header.
Variable itemsize : string -> result nat.
Variables (major minor : byte) (header : list byte) (payload : list byte).

Let width : nat := length_width major.
Let stop : Z := (8 + Z.of_nat width)%Z.

Lemma header_len_stop_eq :
  (if (int_from_bytes_little (read_bytes (container major minor header payload) 6 7) =? 1)%Z
   then 10 else 12)%Z = stop.
Proof.
  change (read_bytes (container major minor header payload) 6 7) with [major].
  rewrite ver_major_is_1. unfold stop, width, length_width.
  destruct (Byte.eqb major x01); reflexivity.
Qed.

Lemma read_length_field :
  read_bytes (container major minor header payload) 8 stop
  = le_bytes width (Z.of_nat (length header)).
Proof.
  unfold container.
  change (magic ++ [major; minor] ++ ?r) with ((magic ++ [major; minor]) ++ r).
  change 8%Z with (Z.of_nat (length (magic ++ [major; minor])) + 0)%Z at 1.
  unfold stop.
  change 8%Z with (Z.of_nat (length (magic ++ [major; minor]))).
  rewrite read_bytes_app by lia.
  pose proof (read_bytes_prefix (le_bytes width (Z.of_nat (length header)))
                (header ++ payload)) as H.
  rewrite length_le_bytes in H. exact H.
Qed.

Lemma container_prefix_length :
  Z.of_nat (length (magic ++ [major; minor]
                    ++ le_bytes width (Z.of_nat (length header)))) = stop.
Proof.
  rewrite !length_app, length_le_bytes. unfold stop. simpl length. lia.
Qed.

Lemma read_header (hl : Z) :
  hl = Z.of_nat (length header) ->
  read_bytes (container major minor header payload) stop (stop + hl) = header.
Proof.
  intros ->. unfold container. fold width.
  rewrite <- container_prefix_length.
  set (pre := magic ++ [major; minor] ++ le_bytes width (Z.of_nat (length header))).
  replace (magic ++ [major; minor] ++ le_bytes width (Z.of_nat (length header))
           ++ header ++ payload)
    with (pre ++ header ++ payload)
    by (unfold pre; now rewrite <- !app_assoc).
  rewrite <- (Z.add_0_r (Z.of_nat (length pre))) at 1.
  rewrite read_bytes_app by lia. apply read_bytes_prefix.
Qed.

Lemma read_payload (a b : Z) :
  (0 <= a)%Z ->
  read_bytes (container major minor header payload)
    (stop + Z.of_nat (length header) + a) (stop + Z.of_nat (length header) + b)
  = read_bytes payload a b.
Proof.
  intros Ha. unfold container. fold width.
  rewrite <- container_prefix_length.
  set (pre := magic ++ [major; minor] ++ le_bytes width (Z.of_nat (length header))).
  replace (magic ++ [major; minor] ++ le_bytes width (Z.of_nat (length header))
           ++ header ++ payload)
    with ((pre ++ header) ++ payload)
    by (unfold pre; now rewrite <- !app_assoc).
  rewrite <- Nat2Z.inj_add, <- length_app.
  now apply read_bytes_app.
Qed.

End Container.

Lemma read_bytes_elems (size : nat) (elems : list (list byte)) (i j : Z) :
  Forall (fun e => length e = size) elems ->
  (0 <= i <= j)%Z ->
  read_bytes (concat elems) (i * Z.of_nat size) (j * Z.of_nat size)
  = concat (take (Z.to_nat (j - i)) (drop (Z.to_nat i) elems)).
Proof.
  intros Hall Hij. unfold read_bytes.
  replace (Z.to_nat (j * Z.of_nat size - i * Z.of_nat size))
    with (Z.to_nat (j - i) * size) by nia.
  replace (Z.to_nat (i * Z.of_nat size)) with (Z.to_nat i * size) by nia.
  rewrite (drop_concat_uniform size) by exact Hall.
  apply take_concat_uniform. now apply Forall_drop.
Qed.

(** The reader on a valid container. *)
Lemma read_valid (eval_header : string -> result npy_header)
    (itemsize : string -> result nat)
    (major minor : byte) (header : list byte) (dt : string) (size : nat)
    (elems : list (list byte)) (i j : Z) :
  valid_array eval_header itemsize major header dt size elems ->
  (0 <= i <= j)%Z ->
  read_array_range_from_npy eval_header itemsize
    (container major minor header (concat elems)) (Slice i j)
  = Ok (NdArray dt (take (Z.to_nat (j - i)) (drop (Z.to_nat i) elems))).
Proof.
  intros [Hh Hi Hs He Hf] Hij.
  unfold read_array_range_from_npy.
  rewrite header_len_stop_eq, read_length_field.
  rewrite int_from_bytes_le_bytes by lia.
  rewrite Z.mod_small by lia.
  rewrite (read_header major minor header (concat elems) _ eq_refl), Hh.
  cbn [rbind shape descr length Nat.eqb]. rewrite Hi. cbn [rbind].
  rewrite read_payload by nia.
  rewrite (read_bytes_elems size) by assumption.
  apply frombuffer_concat; [exact Hs |].
  apply Forall_take, Forall_drop, He.
Qed.

End NpyFacts.

(** ** Generators *)

Module GenFacts.

Lemma gen_eta {A} (g : gen A) : Gen (yielded g) (raised g) = g.
Proof. now destruct g. Qed.

(** Iterations whose body falls through leave no trace. *)
Lemma gen_for_list_filter {A B} (keep : A -> bool) (items : list A)
    (body : A -> gen B) :
  (forall x, x ∈ items -> keep x = false -> body x = gen_pass) ->
  gen_for_list items body = gen_for_list (filter (fun x => keep x) items) body.
Proof.
  induction items as [|x items IH]; intros Hskip; [reflexivity |].
  assert (IH' : gen_for_list items body
                = gen_for_list (filter (fun x => keep x) items) body).
  { apply IH. intros y Hy. apply Hskip. now right. }
  destruct (keep x) eqn:Ex.
  - rewrite filter_cons_True by now rewrite Ex.
    cbn [gen_for_list]. now rewrite IH'.
  - rewrite filter_cons_False by now rewrite Ex.
    cbn [gen_for_list]. rewrite (Hskip x) by (left || exact Ex).
    cbn [gen_pass raised yielded app]. rewrite gen_eta. exact IH'.
Qed.

(** Whatever a loop yields was yielded by its body on some item. *)
Lemma yielded_gen_for_list {A B} (y : B) (items : list A) (body : A -> gen B) :
  y ∈ yielded (gen_for_list items body) ->
  exists x, x ∈ items /\ y ∈ yielded (body x).
Proof.
  induction items as [|x items IH]; cbn [gen_for_list].
  - intros H. inversion H.
  - destruct (raised (body x)) eqn:Er.
    + intros H. exists x. split; [left | exact H].
    + cbn [yielded]. intros [H | H]%elem_of_app.
      * exists x. split; [left | exact H].
      * destruct (IH H) as (x' & Hx' & Hy). exists x'. split; [now right | exact Hy].
Qed.

Lemma yielded_gen_try {A B} (y : B) (r : result A) (k : A -> gen B) :
  y ∈ yielded (gen_try r k) -> exists a, r = Ok a /\ y ∈ yielded (k a).
Proof.
  destruct r as [a | e]; cbn.
  - eauto.
  - intros H. inversion H.
Qed.

End GenFacts.

(** ** The device resolver *)

Module DevicesFacts.
Import PyPath Devices GenFacts.

Section Resolver.
Variable fs : filesystem.
Variable np : numpy.
Variable clipped_path_to_compressed : path -> result path.

Lemma device_body_skip (recording_dir : path) (data : list (string * sync_entry))
    (only : option string) (device : string) :
  Fs.exists_ fs (child (child recording_dir "continuous") device) = false ->
  device_body fs np clipped_path_to_compressed recording_dir data only device
  = gen_pass.
Proof.
  intros H. unfold device_body. rewrite H.
  now destruct (filtered_out only device).
Qed.

(** Every timing a device body yields belongs to that device, whose
    continuous-data folder and pulse-line subfolder exist. *)
Lemma device_body_yields (recording_dir : path) (data : list (string * sync_entry))
    (only : option string) (dev : string) (info : EphysTimingInfoOnPXI) :
  info ∈ yielded (device_body fs np clipped_path_to_compressed
                    recording_dir data only dev) ->
  name (device info) = dev
  /\ continuous (device info) = child (child recording_dir "continuous") dev
  /\ Fs.exists_ fs (continuous (device info)) = true
  /\ filtered_out only dev = false
  /\ ttl (device info) ∈ Fs.glob fs (child (child recording_dir "events") dev) "TTL*".
Proof.
  unfold device_body.
  destruct (filtered_out only dev); [intros H; inversion H |].
  destruct (Fs.exists_ fs (child (child recording_dir "continuous") dev)) eqn:Ex;
    cbn [negb]; [| intros H; inversion H].
  destruct (Fs.glob fs (child (child recording_dir "events") dev) "TTL*")
    as [|t ts] eqn:Eg; [intros H; inversion H |].
  intros (first & _ & H)%yielded_gen_try.
  apply yielded_gen_try in H as ([s r] & _ & H).
  apply yielded_gen_try in H as (raw & _ & H).
  apply yielded_gen_try in H as (states & _ & H).
  apply yielded_gen_try in H as (comp & _ & H).
  apply list_elem_of_singleton in H. subst info. cbn.
  repeat split; try assumption. left.
Qed.

End Resolver.

End DevicesFacts.

(** ** The reconciler *)

Module SyncFacts.
Import PyPath Devices Sync GenFacts.

Lemma yielded_gen_for {A B} (g : gen A) (body : A -> gen B) :
  yielded (gen_for g body) = yielded (gen_for_list (yielded g) body).
Proof. unfold gen_for. now destruct (raised (gen_for_list (yielded g) body)). Qed.

Lemma gen_for_one {A B} (x : A) (body : A -> gen B) :
  gen_for (Gen [x] None) body = body x.
Proof.
  unfold gen_for. cbn [yielded raised gen_for_list].
  destruct (body x) as [ys [e|]]; cbn; [reflexivity |].
  now rewrite app_nil_r.
Qed.

Section Reconciler.
Variable fs : filesystem.
Variable np : numpy.
Variable clipped_path_to_compressed : path -> result path.
Variable read_sync_file : path -> result sync_dataset.
Variable barcodes : Type.
Variable extract_barcodes_from_times :
  list PyFloat.float -> list PyFloat.float -> PyFloat.float -> result barcodes.
Variable get_probe_time_offset :
  barcodes -> barcodes -> Z -> PyFloat.float -> result (PyFloat.float * PyFloat.float).

Lemma reconcile_body_yields (master : barcodes) (info : EphysTimingInfoOnPXI)
    (y : EphysTimingInfoOnSync) :
  y ∈ yielded (reconcile_body barcodes extract_barcodes_from_times
                 get_probe_time_offset master info) ->
  exists probe timeshift rate,
    ephys_barcodes barcodes extract_barcodes_from_times info = Ok probe
    /\ get_probe_time_offset master probe 0%Z (sampling_rate info) = Ok (timeshift, rate)
    /\ y = reconciled info timeshift rate.
Proof.
  unfold reconcile_body.
  intros (probe & Hp & H)%yielded_gen_try.
  apply yielded_gen_try in H as ([timeshift rate] & He & H).
  apply list_elem_of_singleton in H.
  now exists probe, timeshift, rate.
Qed.

Lemma reconcile_body_ok (master probe : barcodes) (info : EphysTimingInfoOnPXI)
    (timeshift rate : PyFloat.float) :
  ephys_barcodes barcodes extract_barcodes_from_times info = Ok probe ->
  get_probe_time_offset master probe 0%Z (sampling_rate info) = Ok (timeshift, rate) ->
  reconcile_body barcodes extract_barcodes_from_times get_probe_time_offset
    master info
  = gen_yield (reconciled info timeshift rate).
Proof. intros Hp He. unfold reconcile_body. rewrite Hp. cbn. now rewrite He. Qed.

Lemma on_sync_devices (sync : sync_path_or_dataset) (ds : sync_dataset)
    (master : barcodes)
    (info : EphysTimingInfoOnPXI) (devices : list EphysTimingInfoOnPXI)
    (only : option string) :
  get_sync_data read_sync_file sync = Ok ds ->
  extract_barcodes_from_times (rising_edges ds) (falling_edges ds)
    (total_seconds ds) = Ok master ->
  get_ephys_timing_on_sync fs np clipped_path_to_compressed read_sync_file
    barcodes extract_barcodes_from_times get_probe_time_offset
    sync None (Some (info :: devices)) only
  = gen_for (Gen (info :: devices) None)
      (reconcile_body barcodes extract_barcodes_from_times get_probe_time_offset
         master).
Proof.
  intros Hs Hm. unfold get_ephys_timing_on_sync. cbn [truthy orb negb andb].
  rewrite Hs. cbn [gen_try]. rewrite Hm. reflexivity.
Qed.

End Reconciler.

End SyncFacts.

(** ** Recording folders *)

Module TopologyFacts.
Import PyPath Topology GenFacts.

Lemma fold_max_spec (rest : list Z) (v : Z) :
  fold_left Z.max rest v ∈ v :: rest
  /\ (forall x, x ∈ v :: rest -> (x <= fold_left Z.max rest v)%Z).
Proof.
  revert v; induction rest as [|w rest IH]; intros v; cbn [fold_left].
  - split; [left |]. intros x ->%list_elem_of_singleton. lia.
  - destruct (IH (Z.max v w)) as [Hin Hle]. split.
    + apply elem_of_cons in Hin as [Hin | Hin].
      * rewrite Hin. destruct (Z.max_spec v w) as [[_ ->] | [_ ->]];
          [right; left | left].
      * right. now right.
    + intros x Hx.
      assert (Hm : (Z.max v w <= fold_left Z.max rest (Z.max v w))%Z)
        by (apply Hle; left).
      apply elem_of_cons in Hx as [-> | Hx]; [lia |].
      apply elem_of_cons in Hx as [-> | Hx]; [lia |].
      apply Hle. now right.
Qed.

Lemma py_max_spec (values : list Z) :
  values <> [] ->
  exists m, py_max values = Ok m /\ m ∈ values
            /\ (forall x, x ∈ values -> (x <= m)%Z).
Proof.
  destruct values as [|v rest]; [congruence | intros _].
  exists (fold_left Z.max rest v). split; [reflexivity |]. apply fold_max_spec.
Qed.

Lemma py_index_spec (m : Z) (values : list Z) :
  m ∈ values ->
  exists i, py_index m values = Ok i /\ values !! i = Some m
            /\ (forall j, j < i -> values !! j <> Some m).
Proof.
  induction values as [|w values IH]; intros Hin; [inversion Hin |].
  cbn [py_index]. destruct (Z.eqb_spec w m) as [-> | Hne].
  - exists 0. split; [reflexivity |]. split; [reflexivity |]. lia.
  - apply elem_of_cons in Hin as [-> | Hin]; [congruence |].
    destruct (IH Hin) as (i & Hi & Hl & Hfirst). exists (S i).
    rewrite Hi. split; [reflexivity |]. split; [exact Hl |].
    intros [|j] Hj; cbn; [congruence | apply Hfirst; lia].
Qed.

Section Scanner.
Variable fs : filesystem.

(** The choice among several manifests: the first one among those whose
    folder is the largest. *)
Lemma select_largest (all : list path) :
  all <> [] ->
  exists i q,
    all !! i = Some q
    /\ (do largest <- py_max (map (fun q => fs_size fs (parent q)) all);
        do i <- py_index largest (map (fun q => fs_size fs (parent q)) all);
        match all !! i with
        | Some q => Ok q
        | None => Err IndexError
        end) = Ok q
    /\ (forall q', q' ∈ all -> (dir_size fs q' <= dir_size fs q)%Z)
    /\ (forall j q', j < i -> all !! j = Some q' -> (dir_size fs q' < dir_size fs q)%Z).
Proof.
  intros Hall.
  assert (Hne : map (fun q => fs_size fs (parent q)) all <> [])
    by (destruct all; [congruence | discriminate]).
  destruct (py_max_spec _ Hne) as (m & Hmax & Hin & Hle).
  destruct (py_index_spec m _ Hin) as (i & Hidx & Hl & Hfirst).
  rewrite Hmax. cbn [rbind]. rewrite Hidx. cbn [rbind].
  rewrite list_lookup_fmap in Hl.
  destruct (all !! i) as [q|] eqn:Eq; [| discriminate].
  cbn in Hl. injection Hl as Hq.
  exists i, q. split; [exact Eq |]. split; [reflexivity |]. split.
  - intros q' Hq'. unfold dir_size. rewrite Hq. apply Hle.
    apply list_elem_of_fmap. now exists q'.
  - intros j q' Hj Hq'. unfold dir_size. rewrite Hq.
    assert (Hle' : (fs_size fs (parent q') <= m)%Z).
    { apply Hle. apply list_elem_of_fmap. exists q'. split; [reflexivity |].
      apply list_elem_of_lookup. now exists j. }
    assert (Hneq : fs_size fs (parent q') <> m).
    { intros E. apply (Hfirst j Hj). rewrite list_lookup_fmap, Hq'. cbn. now f_equal. }
    lia.
Qed.

Lemma get_single_oebin_path_many (p : path) :
  Fs.is_dir fs p = true ->
  2 <= length (Fs.rglob fs p "structure*.oebin") ->
  exists i q,
    Fs.rglob fs p "structure*.oebin" !! i = Some q
    /\ get_single_oebin_path fs p = Ok q
    /\ (forall q', q' ∈ Fs.rglob fs p "structure*.oebin" ->
                   (dir_size fs q' <= dir_size fs q)%Z)
    /\ (forall j q', j < i -> Fs.rglob fs p "structure*.oebin" !! j = Some q' ->
                     (dir_size fs q' < dir_size fs q)%Z).
Proof.
  intros Hdir Hlen. unfold get_single_oebin_path. rewrite Hdir. cbn [negb].
  destruct (Fs.rglob fs p "structure*.oebin") as [|q1 [|q2 rest]];
    cbn in Hlen; try lia.
  now apply select_largest.
Qed.

Lemma get_single_oebin_path_one (p q : path) :
  Fs.is_dir fs p = true ->
  Fs.rglob fs p "structure*.oebin" = [q] ->
  get_single_oebin_path fs p = Ok q.
Proof.
  intros Hdir Hall. unfold get_single_oebin_path. now rewrite Hdir, Hall.
Qed.

Lemma rglob_NoDup (p : path) (pattern : string) :
  NoDup (fs_paths fs) -> NoDup (Fs.rglob fs p pattern).
Proof. intros H. unfold Fs.rglob. now apply NoDup_filter. Qed.

(** Removing one member from the set of a duplicate-free list. *)
Lemma elements_without (all : list path) (q : path) :
  NoDup all -> q ∈ all ->
  let sup := elements ((list_to_set all : gset path) ∖ {[ q ]}) in
  (forall q', q' ∈ sup <-> q' ∈ all /\ q' <> q)
  /\ NoDup sup
  /\ length sup = length all - 1.
Proof.
  intros Hnd Hq sup. split; [| split].
  - intros q'. unfold sup. rewrite elem_of_elements. set_solver.
  - apply NoDup_elements.
  - unfold sup. change (length (elements ?X)) with (size X).
    rewrite size_difference by set_solver.
    rewrite size_singleton, size_list_to_set by exact Hnd. reflexivity.
Qed.

Lemma is_prefix_split (base p : list string) :
  is_prefix base p = true -> p = base ++ drop (length base) p.
Proof.
  revert p; induction base as [|b base IH]; intros [|c p]; cbn; try discriminate;
    try reflexivity.
  intros [Hb Hp]%andb_true_iff. apply String.eqb_eq in Hb as ->.
  f_equal. now apply IH.
Qed.

Lemma is_prefix_app_l (b1 b2 p : list string) :
  is_prefix (b1 ++ b2) p = true -> is_prefix b1 p = true.
Proof.
  revert p; induction b1 as [|b b1 IH]; intros p; [reflexivity |].
  destruct p as [|c p]; cbn; [discriminate |].
  intros [Hb Hp]%andb_true_iff. rewrite Hb. now apply IH.
Qed.

Lemma removelast_last (l : list string) :
  l <> [] -> l = removelast l ++ [List.last l EmptyString].
Proof. intros H. now apply app_removelast_last. Qed.

(** A path beneath a folder, taken relative to the folder's parent, starts
    with the folder's name. *)
Lemma relative_to_parent (rn a r : path) :
  Fs.beneath rn a = true -> parts rn <> [] ->
  relative_to a (parent rn) = Ok r ->
  r = Path EmptyString (name rn :: drop (length (parts rn)) (parts a)).
Proof.
  unfold Fs.beneath, within, relative_to, parent. cbn [anchor parts].
  intros [[Ha Hp]%andb_true_iff _]%andb_true_iff Hne.
  pose proof (is_prefix_split _ _ Hp) as Hsplit.
  pose proof (removelast_last _ Hne) as Hrl.
  assert (Hpre : is_prefix (removelast (parts rn)) (parts a) = true).
  { apply (is_prefix_app_l _ [List.last (parts rn) EmptyString]).
    now rewrite <- Hrl. }
  unfold within. cbn [anchor parts]. rewrite Ha, Hpre. cbn [andb].
  intros [= <-]. f_equal. unfold name.
  rewrite Hsplit at 1. rewrite Hrl at 2. rewrite <- app_assoc.
  rewrite drop_app_length. reflexivity.
Qed.

Lemma is_superfluous_path_false (dirs : list path) (a : path) :
  is_superfluous_path dirs a = false ->
  forall d, d ∈ dirs -> d ∉ parents a.
Proof.
  unfold is_superfluous_path. intros H d Hd Hin.
  assert (Ht : existsb (fun d => bool_decide (d ∈ parents a)) dirs = true).
  { apply existsb_exists. exists d. split; [now apply list_elem_of_In |].
    now apply bool_decide_eq_true. }
  congruence.
Qed.

Lemma record_node_body_yields (record_node a r : path) :
  (a, r) ∈ yielded (record_node_body fs record_node) ->
  exists sup,
    get_superfluous_oebin_paths fs record_node = Ok sup
    /\ a ∈ Fs.rglob fs record_node "*"
    /\ relative_to a (parent record_node) = Ok r
    /\ is_superfluous_path (map parent sup) a = false.
Proof.
  unfold record_node_body.
  intros (sup & Hsup & H)%yielded_gen_try.
  apply yielded_gen_for_list in H as (a' & Ha' & H).
  destruct (is_superfluous_path (map parent sup) a') eqn:Es; [inversion H |].
  apply yielded_gen_try in H as (r' & Hr' & H).
  apply list_elem_of_singleton in H. injection H as -> ->.
  now exists sup.
Qed.

Lemma rglob_beneath (p q : path) (pattern : string) :
  q ∈ Fs.rglob fs p pattern -> Fs.beneath p q = true.
Proof.
  unfold Fs.rglob. intros [H _]%list_elem_of_filter.
  apply Is_true_true in H. now apply andb_true_iff in H as [H _].
Qed.

Lemma beneath_nonempty (p q : path) : Fs.beneath p q = true -> parts q <> [].
Proof.
  unfold Fs.beneath. intros [_ H]%andb_true_iff. apply Nat.ltb_lt in H.
  intros E. rewrite E in H. cbn in H. lia.
Qed.

(** *** Roots of raw recordings *)

Global Instance str_le_total : Total (str_le fs).
Proof. intros p q. unfold str_le. apply (total String.le). Qed.

Lemma below_lt (size : Z) (m : Q) :
  below size m = true -> (inject_Z size < m * inject_Z (1024 ^ 3))%Q.
Proof.
  unfold below. intros H%negb_true_iff.
  apply Qnot_le_lt. intros Hle. apply Qle_bool_iff in Hle. congruence.
Qed.



End Scanner.

End TopologyFacts.

(** ** The order on paths *)

Module PathOrder.
Import PyPath.

Lemma leb_le (a b : string) : String.leb a b = true <-> String.le a b.
Proof. unfold String.le. symmetry. apply Is_true_true. Qed.

Lemma parts_leb_total (p q : list string) :
  parts_leb p q = true \/ parts_leb q p = true.
Proof.
  revert q; induction p as [|a p IH]; intros [|b q]; cbn; auto.
  rewrite (String.eqb_sym b a).
  destruct (String.eqb a b); [apply IH | apply String.leb_total].
Qed.

Lemma parts_leb_antisym (p q : list string) :
  parts_leb p q = true -> parts_leb q p = true -> p = q.
Proof.
  revert q; induction p as [|a p IH]; intros [|b q]; cbn; try discriminate;
    [reflexivity |].
  rewrite (String.eqb_sym b a).
  destruct (String.eqb_spec a b) as [-> | Hne].
  - intros H1 H2. f_equal. now apply IH.
  - intros H1 H2. exfalso. apply Hne. now apply String.leb_antisym.
Qed.

Lemma parts_leb_trans (p q r : list string) :
  parts_leb p q = true -> parts_leb q r = true -> parts_leb p r = true.
Proof.
  revert q r; induction p as [|a p IH]; intros [|b q] [|c r]; cbn;
    try discriminate; try reflexivity.
  destruct (String.eqb_spec a b) as [-> | Hab].
  - destruct (String.eqb_spec b c) as [-> | Hbc]; [apply IH | auto].
  - destruct (String.eqb_spec b c) as [-> | Hbc].
    + intros H _. destruct (String.eqb_spec a c); [congruence | exact H].
    + intros H1 H2.
      assert (Hac : String.leb a c = true).
      { apply leb_le. transitivity b; now apply leb_le. }
      destruct (String.eqb_spec a c) as [-> | _]; [| exact Hac].
      exfalso. apply Hab. now apply String.leb_antisym.
Qed.

Global Instance path_le_total : Total path_le.
Proof. intros p q. apply parts_leb_total. Qed.

Global Instance path_le_trans : Transitive path_le.
Proof. intros p q r. apply parts_leb_trans. Qed.

Global Instance path_le_antisym : AntiSymm (=) path_le.
Proof.
  intros [a p] [b q] H1 H2.
  pose proof (parts_leb_antisym _ _ H1 H2) as E. cbn in E. now injection E as -> ->.
Qed.


End PathOrder.

(** ** Merging manifests *)

Module MergeFacts.
Import PyPath Merge.


Lemma excluded_error (exclude : list string) (item : json) (e : exn) :
  excluded exclude item = Err e -> e = AttributeError.
Proof.
  unfold excluded. destruct exclude; [discriminate |].
  destruct item; try (now intros [= <-]).
  destruct (default (JStr "") (dict_get "folder_name" entries));
    try (now intros [= <-]); discriminate.
Qed.

Lemma merge_items_error (exclude : list string) (key : string)
    (items : list json) (merged : merged_oebin) (e : exn) :
  merge_items exclude key items merged = Err e -> e = AttributeError.
Proof.
  revert merged; induction items as [|item items IH]; intros merged;
    cbn [merge_items]; [discriminate |].
  destruct (Json.py_in item (get_list merged key)); [apply IH |].
  destruct (excluded exclude item) as [[|] | e'] eqn:Ex; cbn [rbind]; try apply IH.
  intros [= <-]. now apply excluded_error in Ex.
Qed.

Lemma merge_keys_error (exclude : list string) (entries : list (string * json))
    (merged : merged_oebin) (e : exn) :
  merge_keys exclude entries merged = Err e -> e = AttributeError.
Proof.
  revert merged; induction entries as [|[key value] entries IH]; intros merged;
    cbn [merge_keys]; [discriminate |].
  destruct (get_equals merged key value); [apply IH |].
  destruct value; try apply IH.
  destruct (merge_items exclude key items merged) as [m | e'] eqn:Em;
    cbn [rbind]; [apply IH |].
  intros [= <-]. now apply merge_items_error in Em.
Qed.

Lemma merge_manifest_error (exclude : list string) (oebin_data : json)
    (merged : merged_oebin) (e : exn) :
  merge_manifest exclude oebin_data merged = Err e -> not_assertion e.
Proof.
  unfold merge_manifest. destruct oebin_data as [| | | s | [|x l] | entries];
    try (now intros [= <-]); try discriminate.
  - destruct s; [discriminate | now intros [= <-]].
  - now intros ->%merge_keys_error.
Qed.

Section Merger.
Variable fs : filesystem.
Variable json_loads : string -> option json.
Variable checksum : list byte -> Z.
Variable get_settings_xml_data : list byte -> settings_data.

Lemma read_bytes_error (p : path) (e : exn) :
  Fs.read_bytes fs p = Err e -> e = FileNotFoundError.
Proof.
  unfold Fs.read_bytes. destruct (Fs.is_file fs p); [| now intros [= <-]].
  destruct (fs_bytes fs p); [discriminate | now intros [= <-]].
Qed.

Lemma get_oebin_data_error (p : path) (e : exn) :
  get_oebin_data fs json_loads p = Err e -> not_assertion e.
Proof.
  unfold get_oebin_data, Fs.read_text.
  destruct (Fs.read_bytes fs p) as [data | e'] eqn:Er; cbn [rbind].
  - destruct (json_loads _); [discriminate | now intros [= <-]].
  - intros [= <-]. now apply read_bytes_error in Er as ->.
Qed.

Lemma merge_paths_error (exclude : list string) (paths : list path)
    (merged : merged_oebin) (e : exn) :
  merge_paths fs json_loads exclude paths merged = Err e -> not_assertion e.
Proof.
  revert merged; induction paths as [|p paths IH]; intros merged;
    cbn [merge_paths]; [discriminate |].
  destruct (get_oebin_data fs json_loads p) as [d | e'] eqn:Ed; cbn [rbind].
  - destruct (merge_manifest exclude d merged) as [m | e''] eqn:Em; cbn [rbind].
    + apply IH.
    + intros [= <-]. now apply merge_manifest_error in Em.
  - intros [= <-]. now apply get_oebin_data_error in Ed.
Qed.

Lemma name_child (p : path) (n : string) : name (child p n) = n.
Proof. unfold name, child. cbn [parts]. apply last_last. Qed.

Lemma settings_path_suffix (o : path) : suffix (settings_path o) = ".xml".
Proof. unfold suffix, settings_path. rewrite name_child. reflexivity. Qed.

Lemma read_all_is_file (paths : list path) (contents : list (list byte)) :
  read_all fs paths = Ok contents -> forallb (Fs.is_file fs) paths = true.
Proof.
  revert contents; induction paths as [|p paths IH]; intros contents; [reflexivity |].
  cbn [read_all forallb].
  destruct (Fs.read_bytes fs p) as [data|] eqn:Er; cbn [rbind]; [| discriminate].
  destruct (read_all fs paths) as [l|]; cbn [rbind]; [| discriminate]. intros _.
  rewrite (IH l eq_refl), andb_true_r.
  unfold Fs.read_bytes in Er. now destruct (Fs.is_file fs p).
Qed.

(** The check of the settings files, once they are all there. *)
Lemma assert_xml_files_match_read (oebin_paths : list path)
    (contents : list (list byte)) :
  read_all fs (map settings_path oebin_paths) = Ok contents ->
  assert_xml_files_match fs checksum get_settings_xml_data
    (map settings_path oebin_paths)
  = if all_equal_first Z.eqb (map checksum contents)
       || all_equal_first settings_match (map get_settings_xml_data contents)
    then Ok tt
    else Err (AssertionError (xml_mismatch_message (map settings_path oebin_paths))).
Proof.
  intros Hr. unfold assert_xml_files_match.
  assert (Hs : forallb (fun p => String.eqb (suffix p) ".xml")
                 (map settings_path oebin_paths) = true).
  { apply forallb_forall. intros p (o & <- & _)%in_map_iff.
    now rewrite settings_path_suffix. }
  rewrite Hs, (read_all_is_file _ _ Hr), Hr. cbn [negb rbind].
  destruct (all_equal_first Z.eqb (map checksum contents)); [reflexivity |].
  cbn [orb].
  now destruct (all_equal_first settings_match (map get_settings_xml_data contents)).
Qed.

Lemma merge_settings_mismatch (paths : list path) (exclude : list string)
    (contents : list (list byte)) :
  2 <= length paths ->
  (forall p, p ∈ paths -> suffix p = ".oebin") ->
  read_all fs (map settings_path paths) = Ok contents ->
  ((exists msg, get_merged_oebin_file fs json_loads checksum get_settings_xml_data
                  paths exclude = Err (AssertionError msg))
   <-> all_equal_first Z.eqb (map checksum contents) = false
       /\ all_equal_first settings_match (map get_settings_xml_data contents) = false)
  /\ (all_equal_first Z.eqb (map checksum contents) = false ->
      all_equal_first settings_match (map get_settings_xml_data contents) = false ->
      get_merged_oebin_file fs json_loads checksum get_settings_xml_data paths exclude
      = Err (AssertionError (xml_mismatch_message (map settings_path paths)))).
Proof.
  intros Hlen Hsuf Hr.
  assert (Hex : existsb (fun p => negb (String.eqb (suffix p) ".oebin")) paths = false).
  { apply Bool.not_true_is_false. intros (p & Hp & Hn)%existsb_exists.
    rewrite (Hsuf p) in Hn by now apply list_elem_of_In. discriminate. }
  assert (E : get_merged_oebin_file fs json_loads checksum get_settings_xml_data
                paths exclude
              = (do _ <- assert_xml_files_match fs checksum get_settings_xml_data
                           (map settings_path paths);
                 do merged <- merge_paths fs json_loads exclude
                                (merge_sort path_le paths) [];
                 match merged with
                 | [] => Err ValueError
                 | _ => Ok (as_json merged)
                 end)).
  { unfold get_merged_oebin_file. rewrite Hex.
    destruct paths as [|p1 [|p2 rest]]; cbn in Hlen; try lia; reflexivity. }
  rewrite E, (assert_xml_files_match_read _ _ Hr).
  destruct (all_equal_first Z.eqb (map checksum contents)) eqn:Hc;
    [| destruct (all_equal_first settings_match
                   (map get_settings_xml_data contents)) eqn:Hd];
    cbn [orb rbind].
  1,2: split; [split; [| intros [? ?]; discriminate] | intros; discriminate].
  1,2: intros [msg Hm];
       destruct (merge_paths fs json_loads exclude (merge_sort path_le paths) [])
         as [[|x m] | e] eqn:Em; cbn [rbind] in Hm; try discriminate;
       injection Hm as ->; now apply merge_paths_error in Em.
  split; [| reflexivity]. split; [auto | eauto].
Qed.

End Merger.

End MergeFacts.

(** ** Equality of parsed JSON *)

Module JsonFacts.
Import Json.

Lemma py_eq_JList (l m : list json) :
  py_eq (JList l) (JList m)
  = match l, m with
    | [], [] => true
    | x :: l', y :: m' => py_eq x y && py_eq (JList l') (JList m')
    | _, _ => false
    end.
Proof. destruct l, m; reflexivity. Qed.

Definition entry_eq (e : list (string * json)) (kv : string * json) : bool :=
  match dict_get (fst kv) e with
  | Some w => py_eq (snd kv) w
  | None => false
  end.

Lemma py_eq_JDict (d e : list (string * json)) :
  py_eq (JDict d) (JDict e) = (length d =? length e)%nat && forallb (entry_eq e) d.
Proof.
  cbn [py_eq]. f_equal. induction d as [|[k v] d IH]; [reflexivity |].
  cbn [forallb]. rewrite <- IH. reflexivity.
Qed.

Lemma well_formed_JDict (d : list (string * json)) :
  well_formed (JDict d) = unique_keys d && forallb (fun e => well_formed (snd e)) d.
Proof.
  cbn [well_formed]. f_equal. induction d as [|[k v] d IH]; [reflexivity |].
  cbn [forallb snd]. now rewrite <- IH.
Qed.

Lemma dict_get_unique (d : list (string * json)) (k : string) (v : json) :
  unique_keys d = true -> In (k, v) d -> dict_get k d = Some v.
Proof.
  induction d as [|[k' v'] d IH]; [intros _ [] |].
  cbn [unique_keys dict_get]. intros [Hk Hd]%andb_true_iff [[= -> ->] | Hin].
  - now rewrite String.eqb_refl.
  - destruct (String.eqb_spec k k') as [-> | _]; [| now apply IH].
    apply negb_true_iff in Hk. exfalso.
    assert (Ht : existsb (fun e => String.eqb k' (fst e)) d = true).
    { apply existsb_exists. exists (k', v). split; [exact Hin |].
      apply String.eqb_refl. }
    congruence.
Qed.

(** On what [json.loads] builds, [==] is reflexive. *)
Lemma py_eq_refl_bounded (n : nat) (v : json) :
  size v < n -> well_formed v = true -> py_eq v v = true.
Proof.
  revert v; induction n as [|n IH]; intros v Hn Hwf; [lia |].
  destruct v as [| b | q | s | l | d].
  - reflexivity.
  - cbn. now destruct b.
  - cbn. apply Qeq_bool_iff. reflexivity.
  - cbn. apply String.eqb_refl.
  - cbn [size] in Hn. cbn [well_formed] in Hwf.
    assert (Hl : forall x, In x l -> py_eq x x = true).
    { intros x Hx. apply IH.
      - clear - Hn Hx. induction l as [|y l IHl]; [destruct Hx |].
        cbn in Hn. destruct Hx as [-> | Hx]; [lia | apply IHl; [lia | exact Hx]].
      - rewrite forallb_forall in Hwf. now apply Hwf. }
    clear - Hl. induction l as [|x l IHl]; [reflexivity |].
    rewrite py_eq_JList, (Hl x) by now left. cbn [andb].
    apply IHl. intros y Hy. apply Hl. now right.
  - cbn [size] in Hn. rewrite well_formed_JDict in Hwf.
    apply andb_true_iff in Hwf as [Hu Hwf].
    rewrite py_eq_JDict, Nat.eqb_refl. cbn [andb].
    apply forallb_forall. intros [k v] Hkv. unfold entry_eq. cbn [fst snd].
    rewrite (dict_get_unique d k v Hu Hkv). apply IH.
    + clear - Hn Hkv. induction d as [|e d IHd]; [destruct Hkv |].
      cbn in Hn. destruct Hkv as [-> | Hkv]; [cbn in *; lia | apply IHd; [lia | exact Hkv]].
    + rewrite forallb_forall in Hwf. exact (Hwf (k, v) Hkv).
Qed.

Lemma py_eq_refl (v : json) : well_formed v = true -> py_eq v v = true.
Proof. apply (py_eq_refl_bounded (S (size v))). lia. Qed.

Lemma well_formed_item (entries : list (string * json)) (key : string)
    (items : list json) (x : json) :
  well_formed (JDict entries) = true ->
  In (key, JList items) entries -> In x items -> well_formed x = true.
Proof.
  rewrite well_formed_JDict. intros [_ Hwf]%andb_true_iff Hin Hx.
  rewrite forallb_forall in Hwf. specialize (Hwf _ Hin). cbn in Hwf.
  rewrite forallb_forall in Hwf. now apply Hwf.
Qed.

(** Lists equal by [==] have the same members, up to [==]. *)
Lemma py_eq_list_in (l items : list json) (x : json) :
  py_eq (JList l) (JList items) = true -> In x items -> py_in x l = true.
Proof.
  revert items; induction l as [|e l IH]; intros [|y items]; rewrite py_eq_JList;
    try discriminate; [intros _ [] |].
  intros [Hey Hrest]%andb_true_iff [-> | Hx]; unfold py_in; cbn [existsb].
  - now rewrite Hey.
  - apply orb_true_iff. right. now apply (IH items).
Qed.

End JsonFacts.

(** ** The merge loop *)

Module MergeLoopFacts.
Import Json JsonFacts Merge.

Lemma get_list_setdefault_append (key key' : string) (item : json)
    (merged : merged_oebin) :
  get_list (setdefault_append key item merged) key'
  = if String.eqb key' key then get_list merged key ++ [item]
    else get_list merged key'.
Proof.
  unfold get_list. induction merged as [|[k items] merged IH].
  - cbn. destruct (String.eqb key' key); reflexivity.
  - cbn [setdefault_append]. destruct (String.eqb_spec key k) as [-> | Hk].
    + cbn [dict_get]. rewrite String.eqb_refl.
      destruct (String.eqb key' k); reflexivity.
    + cbn [dict_get]. destruct (String.eqb_spec key' k) as [-> | Hk'].
      * destruct (String.eqb_spec k key); [congruence | reflexivity].
      * rewrite IH. destruct (String.eqb_spec key k); [congruence | reflexivity].
Qed.

Lemma py_in_app (x : json) (l m : list json) :
  py_in x (l ++ m) = py_in x l || py_in x m.
Proof. unfold py_in. apply existsb_app. Qed.

(** *** What every merged list satisfies *)









(** *** A second pass over the same manifest adds nothing *)

Lemma extends_refl (merged : merged_oebin) : extends merged merged.
Proof. now intros key x. Qed.

Lemma extends_trans (m1 m2 m3 : merged_oebin) :
  extends m1 m2 -> extends m2 m3 -> extends m1 m3.
Proof. intros H12 H23 key x H. now apply H23, H12. Qed.

Lemma extends_setdefault_append (key : string) (item : json) (merged : merged_oebin) :
  extends merged (setdefault_append key item merged).
Proof.
  intros key' x H. rewrite get_list_setdefault_append.
  destruct (String.eqb_spec key' key) as [-> | _]; [| exact H].
  rewrite py_in_app, H. reflexivity.
Qed.

Lemma covered_extends (exclude : list string) (m m' : merged_oebin)
    (key : string) (x : json) :
  extends m m' -> covered exclude m key x -> covered exclude m' key x.
Proof. intros He [H | H]; [left; now apply He | now right]. Qed.

Lemma merge_items_covers (exclude : list string) (key : string)
    (items : list json) (merged merged' : merged_oebin) :
  (forall x, In x items -> py_eq x x = true) ->
  merge_items exclude key items merged = Ok merged' ->
  extends merged merged'
  /\ (forall x, In x items -> covered exclude merged' key x).
Proof.
  revert merged; induction items as [|item items IH]; intros merged Hrefl;
    cbn [merge_items].
  - intros [= <-]. split; [apply extends_refl | intros x []].
  - assert (Hrefl' : forall x, In x items -> py_eq x x = true)
      by (intros x Hx; apply Hrefl; now right).
    destruct (py_in item (get_list merged key)) eqn:Hin.
    + intros H. destruct (IH merged Hrefl' H) as [He Hc]. split; [exact He |].
      intros x [<- | Hx]; [left; now apply He | now apply Hc].
    + destruct (excluded exclude item) as [[|] | e] eqn:Hex; cbn [rbind];
        [| | discriminate].
      * intros H. destruct (IH merged Hrefl' H) as [He Hc]. split; [exact He |].
        intros x [<- | Hx]; [now right | now apply Hc].
      * intros H. destruct (IH _ Hrefl' H) as [He Hc]. split.
        -- eapply extends_trans; [apply extends_setdefault_append | exact He].
        -- intros x [<- | Hx]; [| now apply Hc].
           left. apply He. rewrite get_list_setdefault_append, String.eqb_refl.
           rewrite py_in_app. apply orb_true_iff. right.
           unfold py_in. cbn. rewrite (Hrefl item) by now left. reflexivity.
Qed.


Lemma get_equals_covers (exclude : list string) (merged : merged_oebin)
    (key : string) (items : list json) (x : json) :
  get_equals merged key (JList items) = true -> In x items ->
  covered exclude merged key x.
Proof.
  unfold get_equals. destruct (dict_get key merged) as [l|] eqn:E;
    [| discriminate].
  intros H Hx. left. unfold get_list. rewrite E. cbn [default].
  now apply (py_eq_list_in l items).
Qed.

Lemma merge_keys_covers (exclude : list string) (entries : list (string * json))
    (merged merged' : merged_oebin) :
  items_reflexive entries ->
  merge_keys exclude entries merged = Ok merged' ->
  extends merged merged'
  /\ (forall key items x, In (key, JList items) entries -> In x items ->
                          covered exclude merged' key x).
Proof.
  revert merged; induction entries as [|[key value] entries IH];
    intros merged Hrefl; cbn [merge_keys].
  - intros [= <-]. split; [apply extends_refl | intros ? ? ? []].
  - assert (Hrefl' : items_reflexive entries)
      by (intros k its x Hk Hx; apply (Hrefl k its x); [now right | exact Hx]).
    destruct (get_equals merged key value) eqn:Hg.
    + intros H. destruct (IH merged Hrefl' H) as [He Hc]. split; [exact He |].
      intros k its x [E | Hk] Hx; [| now apply (Hc k its)].
      injection E as <- ->.
      apply (covered_extends exclude merged); [exact He |].
      now apply (get_equals_covers exclude merged key its).
    + destruct value as [| | | | its0 |];
        try (intros H; destruct (IH merged Hrefl' H) as [He Hc];
             split; [exact He |];
             intros k its x [[=] | Hk] Hx; now apply (Hc k its)).
      destruct (merge_items exclude key its0 merged) as [m1|] eqn:Em;
        cbn [rbind]; [| discriminate].
      intros H. destruct (IH m1 Hrefl' H) as [He Hc].
      assert (Hrefl0 : forall x, In x its0 -> py_eq x x = true)
        by (intros x Hx; apply (Hrefl key its0 x); [now left | exact Hx]).
      destruct (merge_items_covers exclude key its0 merged m1 Hrefl0 Em)
        as [He1 Hc1].
      split; [eapply extends_trans; eassumption |].
      intros k its x [E | Hk] Hx; [| now apply (Hc k its)].
      injection E as <- <-.
      apply (covered_extends exclude m1); [exact He | now apply Hc1].
Qed.



End MergeLoopFacts.

(** ** The merged manifest *)

Module MergedFacts.
Import PyPath Json Merge MergeFacts MergeLoopFacts.

Section Merger.
Variable fs : filesystem.
Variable json_loads : string -> option json.
Variable checksum : list byte -> Z.
Variable get_settings_xml_data : list byte -> settings_data.

Lemma read_all_identical (c : list byte) (paths : list path) :
  (forall p, p ∈ paths -> Fs.read_bytes fs (settings_path p) = Ok c) ->
  read_all fs (map settings_path paths) = Ok (map (fun _ => c) paths).
Proof.
  induction paths as [|p paths IH]; intros H; [reflexivity |].
  cbn [map read_all]. rewrite (H p) by left. cbn [rbind].
  rewrite IH by (intros q Hq; apply H; now right). reflexivity.
Qed.

Lemma all_equal_first_constant (c : list byte) (paths : list path) :
  all_equal_first Z.eqb (map checksum (map (fun _ => c) paths)) = true.
Proof.
  destruct paths as [|p paths]; [reflexivity |].
  cbn [map all_equal_first forallb]. rewrite Z.eqb_refl. cbn [andb].
  induction paths as [|q paths IH]; [reflexivity |].
  cbn [map forallb]. now rewrite Z.eqb_refl, IH.
Qed.

(** Identical settings files pass the check, in whatever order. *)
Lemma assert_xml_files_match_identical (c : list byte) (paths : list path) :
  (forall p, p ∈ paths -> Fs.read_bytes fs (settings_path p) = Ok c) ->
  assert_xml_files_match fs checksum get_settings_xml_data
    (map settings_path paths) = Ok tt.
Proof.
  intros H.
  rewrite (assert_xml_files_match_read fs checksum get_settings_xml_data paths
             _ (read_all_identical c paths H)).
  now rewrite all_equal_first_constant.
Qed.

(** With two paths or more, the function is the checks followed by the
    loop. *)
Lemma get_merged_oebin_file_many (paths : list path) (exclude : list string) :
  2 <= length paths ->
  get_merged_oebin_file fs json_loads checksum get_settings_xml_data paths exclude
  = if existsb (fun p => negb (String.eqb (suffix p) ".oebin")) paths
    then Err ValueError
    else
      do _ <- assert_xml_files_match fs checksum get_settings_xml_data
                (map settings_path paths);
      do merged <- merge_paths fs json_loads exclude (merge_sort path_le paths) [];
      match merged with
      | [] => Err ValueError
      | _ => Ok (as_json merged)
      end.
Proof.
  intros Hlen. unfold get_merged_oebin_file.
  destruct paths as [|p1 [|p2 rest]]; cbn in Hlen; try lia; reflexivity.
Qed.






End Merger.

End MergedFacts.

(** ** Validation *)

Module ValidateFacts.
Import PyPath Devices Sync Validate.

Section Validator.
Variable fs : filesystem.
Variable np : numpy.
Variable clipped_path_to_compressed : path -> result path.
Variable json_loads : string -> option json.
Variable read_sync_file : path -> result sync_dataset.
Variable barcodes : Type.
Variable extract_barcodes_from_times :
  list PyFloat.float -> list PyFloat.float -> PyFloat.float -> result barcodes.
Variable get_probe_time_offset :
  barcodes -> barcodes -> Z -> PyFloat.float -> result (PyFloat.float * PyFloat.float).

Let validate_device' :=
  validate_device fs np clipped_path_to_compressed read_sync_file barcodes
    extract_barcodes_from_times get_probe_time_offset.
Let validate_devices' :=
  validate_devices fs np clipped_path_to_compressed read_sync_file barcodes
    extract_barcodes_from_times get_probe_time_offset.
Let find_device' := find_device fs np clipped_path_to_compressed.
Let reconcile_device' :=
  reconcile_device fs np clipped_path_to_compressed read_sync_file barcodes
    extract_barcodes_from_times get_probe_time_offset.

Lemma validate_devices_first_failure (recording_path : path)
    (sync : option sync_dataset) (before after : list json) (device : json)
    (e : exn) :
  Forall (fun d => validate_device' recording_path sync d = Ok tt) before ->
  validate_device' recording_path sync device = Err e ->
  validate_devices' recording_path sync (before ++ device :: after) = Err e.
Proof.
  intros Hb He. induction Hb as [|d before Hd _ IH]; cbn [app].
  - unfold validate_devices'. cbn [validate_devices].
    fold validate_device'. now rewrite He.
  - unfold validate_devices'. cbn [validate_devices].
    fold validate_device' validate_devices'. rewrite Hd. exact IH.
Qed.

Lemma validate_devices_ok (recording_path : path) (sync : option sync_dataset)
    (devices : list json) :
  validate_devices' recording_path sync devices = Ok tt
  <-> Forall (fun d => validate_device' recording_path sync d = Ok tt) devices.
Proof.
  induction devices as [|d devices IH].
  - split; [constructor | reflexivity].
  - unfold validate_devices'. cbn [validate_devices].
    fold validate_device' validate_devices'. rewrite Forall_cons.
    destruct (validate_device' recording_path sync d) as [[]|e]; cbn [rbind].
    + rewrite IH. tauto.
    + split; [discriminate | intros [[=] _]].
Qed.

(** A resolver that ends without a device: the descriptor is not found. *)
Lemma validate_device_not_found (recording_path : path)
    (sync : option sync_dataset) (device : json) (folder_name : string) :
  Json.getitem device "folder_name" = Ok (JStr folder_name) ->
  get_ephys_timing_on_pxi fs np clipped_path_to_compressed [recording_path]
    (Some (PyStr.strip "/" folder_name)) = Gen [] None ->
  validate_device' recording_path sync device
  = Err (AssertionError
           (device_not_found_message (PyStr.strip "/" folder_name) recording_path)).
Proof.
  intros Hf Hg. unfold validate_device', validate_device. rewrite Hf.
  cbn [rbind]. unfold find_device. rewrite Hg. reflexivity.
Qed.

(** A reconciliation that raises, whatever it raises: the device is not
    validated. *)
Lemma validate_device_sync_failed (recording_path : path) (sd : sync_dataset)
    (device : json) (folder_name : string) (info : EphysTimingInfoOnPXI)
    (exc : exn) :
  Json.getitem device "folder_name" = Ok (JStr folder_name) ->
  find_device' recording_path (PyStr.strip "/" folder_name) = Ok info ->
  reconcile_device' sd info = Err exc ->
  validate_device' recording_path (Some sd) device
  = Err (AssertionError (sync_failed_message (name (Devices.device info)))).
Proof.
  intros Hf Hi Hr. unfold validate_device', validate_device. rewrite Hf.
  cbn [rbind]. fold find_device'. rewrite Hi. cbn [rbind].
  fold reconcile_device'. now rewrite Hr.
Qed.

(** What passing means for one descriptor. *)
Lemma validate_device_ok (recording_path : path) (sync : option sync_dataset)
    (device : json) :
  validate_device' recording_path sync device = Ok tt
  <-> exists folder_name info,
        Json.getitem device "folder_name" = Ok (JStr folder_name)
        /\ find_device' recording_path (PyStr.strip "/" folder_name) = Ok info
        /\ (forall sd, sync = Some sd -> exists t, reconcile_device' sd info = Ok t).
Proof.
  unfold validate_device', validate_device. fold find_device' reconcile_device'.
  split.
  - destruct (Json.getitem device "folder_name") as [[| | | s | |]|]; cbn [rbind];
      try discriminate.
    destruct (find_device' recording_path (PyStr.strip "/" s)) as [info|e] eqn:Ef.
    + cbn [rbind]. intros H. exists s, info.
      split; [reflexivity | split; [exact Ef |]].
      intros sd ->. destruct (reconcile_device' sd info) as [t|]; [eauto | discriminate].
    + destruct e; cbn [rbind]; discriminate.
  - intros (s & info & -> & Hi & Hs). cbn [rbind]. rewrite Hi. cbn [rbind].
    destruct sync as [sd|]; [| reflexivity].
    destruct (Hs sd eq_refl) as [t ->]. reflexivity.
Qed.

End Validator.

End ValidateFacts.

(** ** Laws of the generator loops *)

Module GenLaws.

Lemma gen_for_list_ext {A B} (items : list A) (f g : A -> gen B) :
  (forall x, x ∈ items -> f x = g x) ->
  gen_for_list items f = gen_for_list items g.
Proof.
  induction items as [|x items IH]; intros H; [reflexivity |].
  cbn [gen_for_list]. rewrite (H x) by left.
  rewrite IH; [reflexivity |]. intros y Hy. apply H. now right.
Qed.

(** A loop over two stretches of items: the second stretch is reached only
    when the first ends normally. *)
Lemma gen_for_list_app {A B} (l1 l2 : list A) (body : A -> gen B) :
  gen_for_list (l1 ++ l2) body
  = match raised (gen_for_list l1 body) with
    | Some _ => gen_for_list l1 body
    | None => Gen (yielded (gen_for_list l1 body) ++ yielded (gen_for_list l2 body))
                (raised (gen_for_list l2 body))
    end.
Proof.
  induction l1 as [|x l1 IH]; cbn [app gen_for_list].
  - cbn. now destruct (gen_for_list l2 body).
  - destruct (raised (body x)) eqn:Ex.
    + now rewrite Ex.
    + rewrite IH. cbn [raised].
      destruct (raised (gen_for_list l1 body)) eqn:E1; cbn [yielded raised].
      * now rewrite E1.
      * now rewrite app_assoc.
Qed.

Lemma raised_gen_for_list_None {A B} (items : list A) (body : A -> gen B) :
  raised (gen_for_list items body) = None
  <-> forall x, x ∈ items -> raised (body x) = None.
Proof.
  induction items as [|x items IH]; cbn [gen_for_list].
  - split; [| reflexivity]. intros _ x H. inversion H.
  - destruct (raised (body x)) eqn:Ex.
    + rewrite Ex. split; [discriminate |]. intros H.
      specialize (H x ltac:(left)). congruence.
    + cbn [raised]. rewrite IH. split.
      * intros H y [-> | Hy]%elem_of_cons; [exact Ex | now apply H].
      * intros H y Hy. apply H. now right.
Qed.

Lemma raised_gen_for_list_Some {A B} (items : list A) (body : A -> gen B) (e : exn) :
  raised (gen_for_list items body) = Some e ->
  exists x, x ∈ items /\ raised (body x) = Some e.
Proof.
  induction items as [|x items IH]; cbn [gen_for_list].
  - discriminate.
  - destruct (raised (body x)) eqn:Ex.
    + rewrite Ex. intros [= ->]. exists x. split; [left | exact Ex].
    + cbn [raised]. intros H. destruct (IH H) as (y & Hy & Hr).
      exists y. split; [now right | exact Hr].
Qed.

(** The exception that ends a loop is the one of the first body that
    raises. *)
Lemma raised_gen_for_list_first {A B} (items : list A) (body : A -> gen B) (e : exn) :
  raised (gen_for_list items body) = Some e
  <-> exists before x after,
        items = before ++ x :: after
        /\ Forall (fun y => raised (body y) = None) before
        /\ raised (body x) = Some e.
Proof.
  induction items as [|x items IH]; cbn [gen_for_list].
  - split; [discriminate |]. intros (before & y & after & H & _).
    now destruct before.
  - destruct (raised (body x)) eqn:Ex.
    + rewrite Ex. split.
      * intros [= ->]. exists [], x, items. now repeat split.
      * intros ([|b before] & y & after & H & Hb & Hy); cbn [app] in H.
        -- injection H as <- _. congruence.
        -- injection H as <- _. inversion Hb; congruence.
    + cbn [raised]. rewrite IH. split.
      * intros (before & y & after & -> & Hb & Hy).
        exists (x :: before), y, after. repeat split; [| exact Hy].
        now constructor.
      * intros ([|b before] & y & after & H & Hb & Hy); cbn [app] in H.
        -- injection H as <- _. congruence.
        -- injection H as <- ->. exists before, y, after.
           repeat split; [| exact Hy]. now inversion Hb.
Qed.

(** In a loop that ends normally nothing a body yields is lost. *)
Lemma gen_for_list_complete {A B} (items : list A) (body : A -> gen B) (x : A) (y : B) :
  raised (gen_for_list items body) = None ->
  x ∈ items -> y ∈ yielded (body x) ->
  y ∈ yielded (gen_for_list items body).
Proof.
  induction items as [|x' items IH]; cbn [gen_for_list]; intros Hr Hx Hy.
  - inversion Hx.
  - destruct (raised (body x')) eqn:Ex; [rewrite Ex in Hr; discriminate |].
    cbn [raised yielded] in *. apply elem_of_app.
    apply elem_of_cons in Hx as [-> | Hx]; [now left | right].
    now apply IH.
Qed.

Lemma gen_for_list_one {A B} (x : A) (body : A -> gen B) :
  gen_for_list [x] body = body x.
Proof.
  cbn [gen_for_list]. destruct (body x) as [ys [e|]]; cbn; [reflexivity |].
  now rewrite app_nil_r.
Qed.

End GenLaws.

(** ** The resolver, device by device *)

Module ResolverFacts.
Import PyPath Devices GenFacts.

Section Resolver.
Variable fs : filesystem.
Variable np : numpy.
Variable clipped_path_to_compressed : path -> result path.

(** What a device body yields, field by field. *)
Lemma device_body_fields (recording_dir : path) (data : list (string * sync_entry))
    (only : option string) (dev : string) (info : EphysTimingInfoOnPXI) :
  info ∈ yielded (device_body fs np clipped_path_to_compressed
                    recording_dir data only dev) ->
  exists entry raw,
    name (device info) = dev
    /\ dict_get dev data = Some entry
    /\ continuous (device info) = child (child recording_dir "continuous") dev
    /\ events (device info) = child (child recording_dir "events") dev
    /\ read_first_sample fs np (child (continuous (device info)) "sample_numbers.npy")
       = Ok (start_sample info)
    /\ sampling_rate info = PyFloat.of_int (se_rate entry)
    /\ start_time info = PyFloat.of_int 0
    /\ load_array fs np (child (ttl (device info)) "sample_numbers.npy") = Ok raw
    /\ ttl_sample_numbers (device info) = map (fun n => (n - start_sample info)%Z) raw
    /\ load_array fs np (child (ttl (device info)) "states.npy")
       = Ok (ttl_states (device info))
    /\ match compressed (device info) with
       | Some p => clipped_path_to_compressed (continuous (device info)) = Ok p
       | None => clipped_path_to_compressed (continuous (device info)) = Err ValueError
       end.
Proof.
  unfold device_body.
  destruct (filtered_out only dev); [intros H; inversion H |].
  destruct (Fs.exists_ fs (child (child recording_dir "continuous") dev)) eqn:Ex;
    cbn [negb]; [| intros H; inversion H].
  destruct (Fs.glob fs (child (child recording_dir "events") dev) "TTL*")
    as [|t ts] eqn:Eg; [intros H; inversion H |].
  intros (first & Hfirst & H)%yielded_gen_try.
  apply yielded_gen_try in H as ([s r] & He & H).
  apply yielded_gen_try in H as (raw & Hraw & H).
  apply yielded_gen_try in H as (states & Hst & H).
  apply yielded_gen_try in H as (comp & Hc & H).
  apply list_elem_of_singleton in H. subst info. cbn.
  destruct (dict_get dev data) as [entry|] eqn:Ed; [| discriminate].
  injection He as <- <-.
  exists entry, raw. repeat split; try assumption; try reflexivity.
  destruct (clipped_path_to_compressed
              (child (child recording_dir "continuous") dev)) as [p|e] eqn:Ec.
  - injection Hc as <-. reflexivity.
  - destruct e; try discriminate. injection Hc as <-. reflexivity.
Qed.

(** A timing yielded for some recording folders comes from one of them, its
    log read and parsed. *)
Lemma get_ephys_timing_on_pxi_yields_from (dirs : list path) (only : option string)
    (info : EphysTimingInfoOnPXI) :
  info ∈ yielded (get_ephys_timing_on_pxi fs np clipped_path_to_compressed dirs only) ->
  exists recording_dir text data dev,
    recording_dir ∈ dirs
    /\ Fs.read_text fs (child recording_dir "sync_messages.txt") = Ok text
    /\ SyncMessages.get_sync_messages_data text = Ok data
    /\ info ∈ yielded (device_body fs np clipped_path_to_compressed
                         recording_dir data only dev).
Proof.
  unfold get_ephys_timing_on_pxi.
  intros (d & Hd & H)%yielded_gen_for_list.
  unfold recording_body in H.
  apply yielded_gen_try in H as (data & Hdata & H).
  apply yielded_gen_for_list in H as (dev & _ & H).
  destruct (Fs.read_text fs (child d "sync_messages.txt")) as [text|e] eqn:Et;
    cbn [rbind] in Hdata; [| discriminate].
  now exists d, text, data, dev.
Qed.

Lemma filtered_out_empty (dev : string) :
  filtered_out (Some "") dev = filtered_out None dev.
Proof. reflexivity. Qed.

Lemma device_body_empty_filter (recording_dir : path)
    (data : list (string * sync_entry)) (dev : string) :
  device_body fs np clipped_path_to_compressed recording_dir data (Some "") dev
  = device_body fs np clipped_path_to_compressed recording_dir data None dev.
Proof. reflexivity. Qed.

Lemma recording_body_missing_log (only : option string) (d : path) :
  Fs.is_file fs (child d "sync_messages.txt") = false ->
  recording_body fs np clipped_path_to_compressed only d
  = gen_raise FileNotFoundError.
Proof.
  intros H. unfold recording_body, Fs.read_text, Fs.read_bytes. now rewrite H.
Qed.

End Resolver.

End ResolverFacts.

(** ** The reconciler, device by device *)

Module ReconcilerFacts.
Import PyPath Devices Sync GenFacts.

(** A loop whose body yields one item or raises: the items yielded belong
    to a first stretch of the input, the whole of it when the loop ends
    normally. *)
Lemma gen_for_list_prefix {A B} (P : A -> B -> Prop) (items : list A)
    (body : A -> gen B) :
  (forall x, (exists y, body x = gen_yield y /\ P x y) \/ (exists e, body x = gen_raise e)) ->
  exists k, k <= length items
            /\ Forall2 P (take k items) (yielded (gen_for_list items body))
            /\ (raised (gen_for_list items body) = None -> k = length items).
Proof.
  intros Hb. induction items as [|x items IH].
  - exists 0. cbn. split; [lia |]. split; [constructor | reflexivity].
  - destruct IH as (k & Hk & Hf & Hn). cbn [gen_for_list].
    destruct (Hb x) as [(y & -> & Hy) | (e & ->)]; cbn.
    + exists (S k). split; [lia |]. split; [now constructor |].
      intros H. now rewrite Hn.
    + exists 0. cbn. split; [lia |]. split; [constructor | discriminate].
Qed.

Section Reconciler.
Variable barcodes : Type.
Variable extract_barcodes_from_times :
  list PyFloat.float -> list PyFloat.float -> PyFloat.float -> result barcodes.
Variable get_probe_time_offset :
  barcodes -> barcodes -> Z -> PyFloat.float -> result (PyFloat.float * PyFloat.float).

Lemma reconcile_body_shape (master : barcodes) (info : EphysTimingInfoOnPXI) :
  (exists y, reconcile_body barcodes extract_barcodes_from_times
               get_probe_time_offset master info = gen_yield y
             /\ sync_device y = device info)
  \/ (exists e, reconcile_body barcodes extract_barcodes_from_times
                  get_probe_time_offset master info = gen_raise e).
Proof.
  unfold reconcile_body.
  destruct (ephys_barcodes barcodes extract_barcodes_from_times info) as [probe|e];
    cbn [gen_try]; [| right; now exists (escaping e)].
  destruct (get_probe_time_offset master probe 0%Z (sampling_rate info))
    as [[timeshift rate]|e]; cbn [gen_try]; [| right; now exists (escaping e)].
  left. now exists (reconciled info timeshift rate).
Qed.

End Reconciler.

End ReconcilerFacts.

(** ** The reconciler over any source of devices *)

Module ReconcileLoopFacts.
Import PyPath Devices Sync GenFacts.

(** The item a loop yields at a position, when every body up to there yields
    one item. *)
Lemma gen_for_list_lookup {A B} (items : list A) (body : A -> gen B) (i : nat)
    (x : A) (y : B) :
  items !! i = Some x ->
  Forall (fun z => exists w, body z = gen_yield w) (take i items) ->
  body x = gen_yield y ->
  yielded (gen_for_list items body) !! i = Some y.
Proof.
  revert i. induction items as [|z items IH]; intros [|i] Hx Hb Hy; try discriminate.
  - cbn in Hx. injection Hx as ->. cbn [gen_for_list]. now rewrite Hy.
  - cbn in Hx. cbn [take] in Hb. inversion Hb as [|? ? [w Hw] Hb']; subst.
    cbn [gen_for_list]. rewrite Hw. cbn. now apply IH.
Qed.

Lemma raised_gen_for {A B} (g : gen A) (body : A -> gen B) :
  raised (gen_for_list (yielded g) body) = None ->
  raised (gen_for g body) = raised g.
Proof. intros H. unfold gen_for. now rewrite H. Qed.

Lemma raised_gen_for_None {A B} (g : gen A) (body : A -> gen B) :
  raised (gen_for g body) = None ->
  raised (gen_for_list (yielded g) body) = None.
Proof.
  unfold gen_for. destruct (raised (gen_for_list (yielded g) body)) eqn:E;
    [now rewrite E | reflexivity].
Qed.

Section Reconciler.
Variable fs : filesystem.
Variable np : numpy.
Variable clipped_path_to_compressed : path -> result path.
Variable read_sync_file : path -> result sync_dataset.
Variable barcodes : Type.
Variable extract_barcodes_from_times :
  list PyFloat.float -> list PyFloat.float -> PyFloat.float -> result barcodes.
Variable get_probe_time_offset :
  barcodes -> barcodes -> Z -> PyFloat.float -> result (PyFloat.float * PyFloat.float).

(** Once the reference clock is read, the reconciler is the loop over the
    devices, given or discovered. *)
Lemma on_sync_source (sync : sync_path_or_dataset) (ds : sync_dataset)
    (master : barcodes) (recording_dirs : option (list path))
    (devices : option (list EphysTimingInfoOnPXI)) (only : option string) :
  truthy recording_dirs || truthy devices = true ->
  get_sync_data read_sync_file sync = Ok ds ->
  extract_barcodes_from_times (rising_edges ds) (falling_edges ds)
    (total_seconds ds) = Ok master ->
  get_ephys_timing_on_sync fs np clipped_path_to_compressed read_sync_file
    barcodes extract_barcodes_from_times get_probe_time_offset
    sync recording_dirs devices only
  = gen_for (if truthy recording_dirs && negb (truthy devices)
             then get_ephys_timing_on_pxi fs np clipped_path_to_compressed
                    (default [] recording_dirs) only
             else Gen (default [] devices) None)
      (reconcile_body barcodes extract_barcodes_from_times get_probe_time_offset
         master).
Proof.
  intros Ht Hs Hm. unfold get_ephys_timing_on_sync. rewrite Ht. cbn [negb].
  rewrite Hs. cbn [gen_try]. rewrite Hm. reflexivity.
Qed.

Lemma reconcile_body_cases (master : barcodes) (info : EphysTimingInfoOnPXI) :
  (exists probe timeshift rate,
     ephys_barcodes barcodes extract_barcodes_from_times info = Ok probe
     /\ get_probe_time_offset master probe 0%Z (sampling_rate info)
        = Ok (timeshift, rate)
     /\ reconcile_body barcodes extract_barcodes_from_times get_probe_time_offset
          master info
        = gen_yield (reconciled info timeshift rate))
  \/ (exists e, reconcile_body barcodes extract_barcodes_from_times
                  get_probe_time_offset master info = gen_raise e).
Proof.
  unfold reconcile_body.
  destruct (ephys_barcodes barcodes extract_barcodes_from_times info) as [probe|e];
    cbn [gen_try]; [| right; now exists (escaping e)].
  destruct (get_probe_time_offset master probe 0%Z (sampling_rate info))
    as [[timeshift rate]|e] eqn:He; cbn [gen_try]; [| right; now exists (escaping e)].
  left. now exists probe, timeshift, rate.
Qed.

End Reconciler.

End ReconcileLoopFacts.

(** ** The root of a recording: ancestors, nearest first *)

Module RootFacts.
Import PyPath Topology.

(** The first hit among [g (n-1)], ..., [g 0]. *)
Lemma first_descending {A} (f : A -> bool) (g : nat -> A) (n : nat) (q : A) :
  head (List.filter f (map g (rev (seq 0 n)))) = Some q
  <-> exists k, k < n /\ q = g k /\ f (g k) = true
                /\ (forall j, k < j -> j < n -> f (g j) = false).
Proof.
  induction n as [|n IH].
  - cbn. split; [discriminate |]. intros (k & Hk & _). lia.
  - rewrite seq_S, rev_app_distr. cbn [rev app map List.filter plus].
    destruct (f (g n)) eqn:Efn.
    + cbn [head]. split.
      * intros [= <-]. exists n. repeat split; [lia | exact Efn |]. intros j; lia.
      * intros (k & Hk & -> & Hfk & Hno).
        destruct (decide (k = n)) as [-> | Hne]; [reflexivity |].
        rewrite (Hno n) in Efn by lia. discriminate.
    + rewrite IH. split.
      * intros (k & Hk & -> & Hfk & Hno). exists k. repeat split; [lia | exact Hfk |].
        intros j Hj Hjn. destruct (decide (j = n)) as [-> | Hne]; [exact Efn |].
        apply Hno; lia.
      * intros (k & Hk & -> & Hfk & Hno).
        assert (k <> n) by (intros ->; congruence).
        exists k. repeat split; [lia | exact Hfk |]. intros j Hj Hjn. apply Hno; lia.
Qed.

Lemma last_take {A} (l : list A) (i : nat) (d x : A) :
  l !! i = Some x -> List.last (take (S i) l) d = x.
Proof. intros H. rewrite (take_S_r _ _ _ H). apply List.last_last. Qed.

Lemma removelast_take {A} (l : list A) (i : nat) :
  i < length l -> removelast (take (S i) l) = take i l.
Proof.
  intros Hi. destruct (lookup_lt_is_Some_2 l i Hi) as [x Hx].
  rewrite (take_S_r _ _ _ Hx). apply List.removelast_last.
Qed.

Lemma head_filter_None {A} (f : A -> bool) (l : list A) :
  head (List.filter f l) = None -> forall x, x ∈ l -> f x = false.
Proof.
  induction l as [|y l IH]; intros H x Hx; [inversion Hx |].
  cbn [List.filter] in H. destruct (f y) eqn:Ey; [discriminate |].
  apply elem_of_cons in Hx as [-> | Hx]; [exact Ey | now apply IH].
Qed.

Lemma ancestor_in_parents (p : path) (k : nat) :
  k < length (parts p) -> Path (anchor p) (take k (parts p)) ∈ parents p.
Proof.
  intros Hk. unfold parents. apply list_elem_of_fmap. exists k.
  split; [reflexivity |]. apply list_elem_of_In, in_rev. rewrite rev_involutive.
  apply in_seq. lia.
Qed.

(** The test of [get_ephys_root] on the name of an ancestor. *)
Definition node_like (name : string) : bool :=
  PyStr.contains (PyStr.lower "Record Node") (PyStr.lower name).

Lemma node_like_eq (name : string) :
  node_like name = PyStr.contains "record node" (PyStr.lower name).
Proof. reflexivity. Qed.

(** The search of [get_ephys_root] among the proper ancestors. *)
Lemma nearest_record_node (p q : path) :
  head (List.filter (fun q => node_like (name q)) (parents p)) = Some q
  <-> exists i node,
        parts p !! i = Some node /\ S i < length (parts p)
        /\ node_like node = true
        /\ q = Path (anchor p) (take (S i) (parts p))
        /\ (forall j name, i < j -> S j < length (parts p) ->
              parts p !! j = Some name -> node_like name = false).
Proof.
  unfold parents.
  rewrite (first_descending (fun q => node_like (name q))
             (fun k => Path (anchor p) (take k (parts p)))).
  split.
  - intros (k & Hk & -> & Hf & Hno).
    destruct k as [|i]; [cbn in Hf; discriminate |].
    destruct (lookup_lt_is_Some_2 (parts p) i ltac:(lia)) as [node Hnode].
    exists i, node. unfold name in Hf. cbn [parts] in Hf.
    rewrite (last_take _ _ _ _ Hnode) in Hf.
    repeat split; try assumption.
    intros j nm Hij Hj Hnm. specialize (Hno (S j) ltac:(lia) Hj).
    unfold name in Hno. cbn [parts] in Hno.
    now rewrite (last_take _ _ _ _ Hnm) in Hno.
  - intros (i & node & Hnode & Hi & Hf & -> & Hno).
    exists (S i). repeat split; [exact Hi | |].
    + unfold name. cbn [parts]. now rewrite (last_take _ _ _ _ Hnode).
    + intros [|j] Hij Hj; [lia |].
      destruct (lookup_lt_is_Some_2 (parts p) j ltac:(lia)) as [nm Hnm].
      unfold name. cbn [parts]. rewrite (last_take _ _ _ _ Hnm).
      apply (Hno j nm); [lia | exact Hj | exact Hnm].
Qed.

Lemma get_ephys_root_head (p : path) :
  get_ephys_root p
  = if negb (PyStr.contains "Record Node" (as_posix p)) then Err ValueError
    else match head (List.filter (fun q => node_like (name q)) (parents p)) with
         | Some q => Ok (parent q)
         | None => Err StopIteration
         end.
Proof.
  unfold get_ephys_root, node_like.
  destruct (negb _); [reflexivity |].
  now destruct (List.filter _ (parents p)).
Qed.

End RootFacts.

(** ** The set of roots *)

Module RootsFacts.
Import PyPath Topology.

(** A data file the loop passes without an error. *)
Definition passes (f : path) : Prop :=
  processed f = true \/ exists r, get_ephys_root f = Ok r.

Lemma collect_roots_members (files : list path) (acc set : gset path) :
  collect_roots files acc = Ok set ->
  forall q, q ∈ set
            <-> q ∈ acc \/ exists f, f ∈ files /\ processed f = false
                                     /\ get_ephys_root f = Ok q.
Proof.
  revert acc; induction files as [|f files IH]; intros acc; cbn [collect_roots].
  - intros [= <-] q. split; [now left |].
    intros [H | (f & Hf & _)]; [exact H | inversion Hf].
  - destruct (processed f) eqn:Ep.
    + intros H q. rewrite (IH _ H q). split.
      * intros [Hq | (g & Hg & Hpg & Hrg)]; [now left |].
        right. exists g. split; [now right | now split].
      * intros [Hq | (g & [-> | Hg]%elem_of_cons & Hpg & Hrg)];
          [now left | congruence |].
        right. now exists g.
    + destruct (get_ephys_root f) as [root|e] eqn:Er; cbn [rbind]; [| discriminate].
      intros H q. rewrite (IH _ H q). split.
      * intros [Hq | (g & Hg & Hpg & Hrg)].
        -- apply elem_of_union in Hq as [->%elem_of_singleton | Hq]; [| now left].
           right. exists f. split; [left | now split].
        -- right. exists g. split; [now right | now split].
      * intros [Hq | (g & [-> | Hg]%elem_of_cons & Hpg & Hrg)].
        -- left. apply elem_of_union. now right.
        -- left. apply elem_of_union. left. apply elem_of_singleton. congruence.
        -- right. now exists g.
Qed.

Lemma collect_roots_error (files : list path) (acc : gset path) (e : exn) :
  collect_roots files acc = Err e
  <-> exists before f after,
        files = before ++ f :: after /\ Forall passes before
        /\ processed f = false /\ get_ephys_root f = Err e.
Proof.
  revert acc; induction files as [|f files IH]; intros acc; cbn [collect_roots].
  - split; [discriminate |]. intros (before & g & after & H & _).
    now destruct before.
  - destruct (processed f) eqn:Ep.
    + rewrite IH. split.
      * intros (before & g & after & -> & Hb & Hg).
        exists (f :: before), g, after. split; [reflexivity |].
        split; [constructor; [now left | exact Hb] | exact Hg].
      * intros (before & g & after & Hf & Hb & Hpg & Hg).
        destruct before as [|b before]; cbn in Hf; injection Hf as -> ->;
          [congruence |].
        exists before, g, after. split; [reflexivity |].
        split; [now inversion Hb | now split].
    + destruct (get_ephys_root f) as [root|e'] eqn:Er; cbn [rbind].
      * rewrite IH. split.
        -- intros (before & g & after & -> & Hb & Hg).
           exists (f :: before), g, after. split; [reflexivity |].
           split; [constructor; [right; now exists root | exact Hb] | exact Hg].
        -- intros (before & g & after & Hf & Hb & Hpg & Hg).
           destruct before as [|b before]; cbn in Hf; injection Hf as -> ->;
             [congruence |].
           exists before, g, after. split; [reflexivity |].
           split; [now inversion Hb | now split].
      * split.
        -- intros [= <-]. exists [], f, files. repeat split; try assumption.
           constructor.
        -- intros (before & g & after & Hf & Hb & Hpg & Hg).
           destruct before as [|b before]; cbn in Hf; injection Hf as -> ->;
             [congruence |].
           inversion Hb as [|? ? [Hp | [r Hr]] _]; congruence.
Qed.

Lemma below_iff (size : Z) (m : Q) :
  below size m = true <-> (inject_Z size < m * inject_Z (1024 ^ 3))%Q.
Proof.
  split; [apply TopologyFacts.below_lt |].
  unfold below. intros H. apply negb_true_iff.
  destruct (Qle_bool _ _) eqn:E; [| reflexivity].
  apply Qle_bool_iff in E. exfalso. exact (Qlt_not_le _ _ H E).
Qed.

End RootsFacts.

(** ** The kept paths of a record node *)

Module KeptFacts.
Import PyPath Topology GenFacts.

Section Scanner.
Variable fs : filesystem.

Lemma relative_to_beneath (rn a : path) :
  Fs.beneath rn a = true -> exists r, relative_to a (parent rn) = Ok r.
Proof.
  unfold Fs.beneath, within, relative_to, parent.
  intros [[Ha Hp]%andb_true_iff _]%andb_true_iff.
  unfold within. cbn [anchor parts]. rewrite Ha. cbn [andb].
  assert (Hpre : is_prefix (removelast (parts rn)) (parts a) = true).
  { destruct (parts rn) as [|x l] eqn:E; [reflexivity |].
    apply (TopologyFacts.is_prefix_app_l _ [List.last (x :: l) EmptyString]).
    rewrite <- TopologyFacts.removelast_last by discriminate. exact Hp. }
  rewrite Hpre. eauto.
Qed.

(** The body of the inner loop never raises. *)
Lemma kept_body (rn : path) (dirs : list path) (a : path) :
  Fs.beneath rn a = true ->
  exists r,
    relative_to a (parent rn) = Ok r
    /\ (if is_superfluous_path dirs a then gen_pass
        else gen_try (relative_to a (parent rn)) (fun rel => gen_yield (a, rel)))
       = if is_superfluous_path dirs a then gen_pass else gen_yield (a, r).
Proof.
  intros (r & Hr)%relative_to_beneath. exists r. split; [exact Hr |].
  now rewrite Hr.
Qed.

Lemma record_node_body_fail (rn : path) (e : exn) :
  get_superfluous_oebin_paths fs rn = Err e ->
  record_node_body fs rn = gen_raise (escaping e).
Proof. intros H. unfold record_node_body. now rewrite H. Qed.

Lemma record_node_body_run (rn : path) (sup : list path) :
  get_superfluous_oebin_paths fs rn = Ok sup ->
  raised (record_node_body fs rn) = None
  /\ (forall a r,
        (a, r) ∈ yielded (record_node_body fs rn)
        <-> a ∈ Fs.rglob fs rn "*"
            /\ is_superfluous_path (map parent sup) a = false
            /\ relative_to a (parent rn) = Ok r).
Proof.
  intros Hsup.
  assert (Hr : raised (record_node_body fs rn) = None).
  { unfold record_node_body. rewrite Hsup. cbn [gen_try].
    apply GenLaws.raised_gen_for_list_None. intros a Ha.
    destruct (kept_body rn (map parent sup) a (TopologyFacts.rglob_beneath fs _ _ _ Ha))
      as (r & _ & ->).
    now destruct (is_superfluous_path _ a). }
  split; [exact Hr |]. intros a r. split.
  - intros (sup' & Hsup' & H)%TopologyFacts.record_node_body_yields.
    rewrite Hsup in Hsup'. now injection Hsup' as <-.
  - intros (Ha & Hs & Hrel).
    unfold record_node_body in *. rewrite Hsup in *. cbn [gen_try] in *.
    apply (GenLaws.gen_for_list_complete _ _ a); [exact Hr | exact Ha |].
    rewrite Hs, Hrel. cbn. left.
Qed.

(** When the manifests other than the kept one can be told. *)
Lemma get_superfluous_oebin_paths_outcome (rn : path) :
  let manifests := Fs.rglob fs rn "structure*.oebin" in
  (length manifests = 1 -> get_superfluous_oebin_paths fs rn = Ok [])
  /\ (length manifests <> 1 -> Fs.is_dir fs rn = false ->
      get_superfluous_oebin_paths fs rn = Err ValueError)
  /\ (manifests = [] -> Fs.is_dir fs rn = true ->
      get_superfluous_oebin_paths fs rn = Err FileNotFoundError)
  /\ (2 <= length manifests -> Fs.is_dir fs rn = true ->
      exists sup, get_superfluous_oebin_paths fs rn = Ok sup).
Proof.
  intros manifests. unfold get_superfluous_oebin_paths. fold manifests.
  split; [| split; [| split]].
  - intros ->. reflexivity.
  - intros Hn Hd. destruct (Nat.eqb_spec (length manifests) 1); [contradiction |].
    unfold get_single_oebin_path. now rewrite Hd.
  - intros Hm Hd. rewrite Hm. cbn [length Nat.eqb].
    unfold get_single_oebin_path. fold manifests. now rewrite Hd, Hm.
  - intros Hlen Hd. destruct (Nat.eqb_spec (length manifests) 1); [lia |].
    destruct (TopologyFacts.get_single_oebin_path_many fs rn Hd Hlen)
      as (i & q & _ & Hq & _).
    rewrite Hq. cbn [rbind]. eauto.
Qed.

(** The two ways the call fails. *)
Lemma get_superfluous_oebin_paths_error (rn : path) (e : exn) :
  get_superfluous_oebin_paths fs rn = Err e ->
  length (Fs.rglob fs rn "structure*.oebin") <> 1
  /\ (e = ValueError /\ Fs.is_dir fs rn = false
      \/ e = FileNotFoundError /\ Fs.rglob fs rn "structure*.oebin" = []).
Proof.
  intros Es.
  destruct (get_superfluous_oebin_paths_outcome rn) as (H1 & Hv & Hf & Hm).
  destruct (Nat.eq_dec (length (Fs.rglob fs rn "structure*.oebin")) 1) as [E1 | N1];
    [rewrite (H1 E1) in Es; discriminate |].
  split; [exact N1 |].
  destruct (Fs.is_dir fs rn) eqn:Ed.
  - destruct (Fs.rglob fs rn "structure*.oebin") as [|m1 [|m2 ms]] eqn:Em.
    + rewrite (Hf eq_refl eq_refl) in Es. injection Es as <-. now right.
    + cbn in N1. lia.
    + destruct (Hm ltac:(cbn; lia) eq_refl) as [sup Hsup]. congruence.
  - rewrite (Hv N1 eq_refl) in Es. injection Es as <-. now left.
Qed.

(** Neither is changed on its way out of the generator. *)
Lemma record_node_body_raises (rn : path) (e : exn) :
  raised (record_node_body fs rn) = Some e
  <-> get_superfluous_oebin_paths fs rn = Err e.
Proof.
  destruct (get_superfluous_oebin_paths fs rn) as [sup|e'] eqn:Es.
  - destruct (record_node_body_run rn sup Es) as [Hr _]. rewrite Hr.
    split; discriminate.
  - rewrite (record_node_body_fail rn e' Es). cbn [gen_raise raised].
    destruct (get_superfluous_oebin_paths_error rn e' Es) as [_ [[-> _] | [-> _]]];
      cbn [escaping]; split; congruence.
Qed.

End Scanner.

End KeptFacts.

(** ** Where the descriptors of a merged manifest come from *)

Module MergeContentFacts.
Import PyPath Json JsonFacts Merge MergeFacts MergeLoopFacts.

Lemma merge_items_from (exclude : list string) (key : string) (items : list json)
    (merged merged' : merged_oebin) :
  merge_items exclude key items merged = Ok merged' ->
  forall k x, x ∈ get_list merged' k ->
    x ∈ get_list merged k
    \/ (k = key /\ x ∈ items /\ excluded exclude x = Ok false).
Proof.
  revert merged; induction items as [|item items IH]; intros merged;
    cbn [merge_items].
  - intros [= <-] k x H. now left.
  - destruct (py_in item (get_list merged key)).
    + intros H k x Hx. destruct (IH _ H k x Hx) as [H' | (-> & H' & He)];
        [now left | right; repeat split; [now right | exact He]].
    + destruct (excluded exclude item) as [[|] | e] eqn:Ex; cbn [rbind];
        [| | discriminate].
      * intros H k x Hx. destruct (IH _ H k x Hx) as [H' | (-> & H' & He)];
          [now left | right; repeat split; [now right | exact He]].
      * intros H k x Hx. destruct (IH _ H k x Hx) as [H' | (-> & H' & He)];
          [| right; repeat split; [now right | exact He]].
        rewrite get_list_setdefault_append in H'.
        destruct (String.eqb_spec k key) as [-> | Hk]; [| now left].
        apply elem_of_app in H' as [H' | ->%list_elem_of_singleton]; [now left |].
        right. repeat split; [left | exact Ex].
Qed.

Lemma merge_keys_from (exclude : list string) (entries : list (string * json))
    (merged merged' : merged_oebin) :
  merge_keys exclude entries merged = Ok merged' ->
  forall k x, x ∈ get_list merged' k ->
    x ∈ get_list merged k
    \/ exists items, (k, JList items) ∈ entries /\ x ∈ items
                     /\ excluded exclude x = Ok false.
Proof.
  revert merged; induction entries as [|[key value] entries IH]; intros merged;
    cbn [merge_keys].
  - intros [= <-] k x H. now left.
  - assert (Hstep : forall m, merge_keys exclude entries m = Ok merged' ->
              forall k x, x ∈ get_list merged' k ->
                x ∈ get_list m k
                \/ exists items, (k, JList items) ∈ (key, value) :: entries
                                 /\ x ∈ items /\ excluded exclude x = Ok false).
    { intros m H k x Hx. destruct (IH _ H k x Hx) as [H' | (its & Hits & H')];
        [now left | right; exists its; split; [now right | exact H']]. }
    destruct (get_equals merged key value); [apply Hstep |].
    destruct value as [| | | | its0 |]; try apply Hstep.
    destruct (merge_items exclude key its0 merged) as [m1|] eqn:Em; cbn [rbind];
      [| discriminate].
    intros H k x Hx. destruct (Hstep _ H k x Hx) as [H' | H']; [| now right].
    destruct (merge_items_from _ _ _ _ _ Em k x H') as [H'' | (-> & H'' & He)];
      [now left |].
    right. exists its0. split; [left | now split].
Qed.

Lemma merge_manifest_from (exclude : list string) (d : json)
    (merged merged' : merged_oebin) :
  merge_manifest exclude d merged = Ok merged' ->
  forall k x, x ∈ get_list merged' k ->
    x ∈ get_list merged k
    \/ exists entries items,
         d = JDict entries /\ (k, JList items) ∈ entries /\ x ∈ items
         /\ excluded exclude x = Ok false.
Proof.
  unfold merge_manifest. destruct d as [| | | s | [|y l] | entries]; try discriminate.
  - destruct s; [| discriminate]. intros [= <-] k x H. now left.
  - intros [= <-] k x H. now left.
  - intros H k x Hx. destruct (merge_keys_from _ _ _ _ H k x Hx) as [H' | (its & H')];
      [now left | right; now exists entries, its].
Qed.

(** Every list of a merged manifest under construction holds something. *)
Definition no_empty_list (merged : merged_oebin) : Prop :=
  Forall (fun e => snd e <> []) merged.

Lemma setdefault_append_no_empty (key : string) (item : json) (merged : merged_oebin) :
  no_empty_list merged -> no_empty_list (setdefault_append key item merged).
Proof.
  unfold no_empty_list. induction merged as [|[k items] merged IH]; intros H;
    cbn [setdefault_append].
  - constructor; [discriminate | constructor].
  - inversion H as [|? ? H1 H2]; subst. destruct (String.eqb key k).
    + constructor; [| exact H2]. cbn. now destruct items.
    + constructor; [exact H1 | now apply IH].
Qed.

Lemma merge_items_no_empty (exclude : list string) (key : string) (items : list json)
    (merged merged' : merged_oebin) :
  no_empty_list merged -> merge_items exclude key items merged = Ok merged' ->
  no_empty_list merged'.
Proof.
  revert merged; induction items as [|item items IH]; intros merged Hn;
    cbn [merge_items]; [now intros [= <-] |].
  destruct (py_in item (get_list merged key)); [now apply IH |].
  destruct (excluded exclude item) as [[|] | e]; cbn [rbind]; [| | discriminate].
  - now apply IH.
  - apply IH. now apply setdefault_append_no_empty.
Qed.

Lemma merge_keys_no_empty (exclude : list string) (entries : list (string * json))
    (merged merged' : merged_oebin) :
  no_empty_list merged -> merge_keys exclude entries merged = Ok merged' ->
  no_empty_list merged'.
Proof.
  revert merged; induction entries as [|[key value] entries IH]; intros merged Hn;
    cbn [merge_keys]; [now intros [= <-] |].
  destruct (get_equals merged key value); [now apply IH |].
  destruct value; try now apply IH.
  destruct (merge_items exclude key items merged) as [m1|] eqn:Em; cbn [rbind];
    [| discriminate].
  apply IH. now apply (merge_items_no_empty exclude key items merged).
Qed.

Lemma merge_manifest_no_empty (exclude : list string) (d : json)
    (merged merged' : merged_oebin) :
  no_empty_list merged -> merge_manifest exclude d merged = Ok merged' ->
  no_empty_list merged'.
Proof.
  intros Hn. unfold merge_manifest.
  destruct d as [| | | s | [|y l] | entries]; try discriminate.
  - destruct s; [now intros [= <-] | discriminate].
  - now intros [= <-].
  - now apply merge_keys_no_empty.
Qed.

(** The lists of the result, by key. *)
Lemma getitem_as_json (merged : merged_oebin) (key : string) :
  getitem (as_json merged) key
  = match dict_get key merged with
    | Some items => Ok (JList items)
    | None => Err KeyError
    end.
Proof.
  unfold getitem, as_json.
  assert (E : dict_get key (map (fun e => (fst e, JList (snd e))) merged)
              = JList <$> dict_get key merged).
  { induction merged as [|[k items] merged IH]; [reflexivity |].
    cbn [map dict_get fst snd]. now destruct (String.eqb key k). }
  rewrite E. now destruct (dict_get key merged).
Qed.

Lemma dict_get_in {V} (key : string) (d : list (string * V)) (v : V) :
  dict_get key d = Some v -> (key, v) ∈ d.
Proof.
  induction d as [|[k w] d IH]; cbn [dict_get]; [discriminate |].
  destruct (String.eqb_spec key k) as [-> | Hk].
  - intros [= ->]. left.
  - intros H. right. now apply IH.
Qed.

Section Merger.
Variable fs : filesystem.
Variable json_loads : string -> option json.

Lemma merge_paths_from (exclude : list string) (paths : list path)
    (merged merged' : merged_oebin) :
  merge_paths fs json_loads exclude paths merged = Ok merged' ->
  forall k x, x ∈ get_list merged' k ->
    x ∈ get_list merged k
    \/ exists p entries items,
         p ∈ paths /\ get_oebin_data fs json_loads p = Ok (JDict entries)
         /\ (k, JList items) ∈ entries /\ x ∈ items
         /\ excluded exclude x = Ok false.
Proof.
  revert merged; induction paths as [|p paths IH]; intros merged;
    cbn [merge_paths].
  - intros [= <-] k x H. now left.
  - destruct (get_oebin_data fs json_loads p) as [d|] eqn:Ed; cbn [rbind];
      [| discriminate].
    destruct (merge_manifest exclude d merged) as [m1|] eqn:Em; cbn [rbind];
      [| discriminate].
    intros H k x Hx.
    destruct (IH _ H k x Hx) as [H' | (q & entries & its & Hq & H')].
    + destruct (merge_manifest_from _ _ _ _ Em k x H')
        as [H'' | (entries & its & -> & H'')]; [now left |].
      right. exists p, entries, its. split; [left | now split].
    + right. exists q, entries, its. split; [now right | exact H'].
Qed.

Lemma merge_paths_no_empty (exclude : list string) (paths : list path)
    (merged merged' : merged_oebin) :
  no_empty_list merged ->
  merge_paths fs json_loads exclude paths merged = Ok merged' ->
  no_empty_list merged'.
Proof.
  revert merged; induction paths as [|p paths IH]; intros merged Hn;
    cbn [merge_paths]; [now intros [= <-] |].
  destruct (get_oebin_data fs json_loads p) as [d|]; cbn [rbind]; [| discriminate].
  destruct (merge_manifest exclude d merged) as [m1|] eqn:Em; cbn [rbind];
    [| discriminate].
  apply IH. now apply (merge_manifest_no_empty exclude d merged).
Qed.

Lemma merge_paths_covers (exclude : list string) (paths : list path)
    (merged merged' : merged_oebin) :
  (forall p d, p ∈ paths -> get_oebin_data fs json_loads p = Ok d ->
               well_formed d = true) ->
  merge_paths fs json_loads exclude paths merged = Ok merged' ->
  extends merged merged'
  /\ (forall p entries key items x,
        p ∈ paths -> get_oebin_data fs json_loads p = Ok (JDict entries) ->
        (key, JList items) ∈ entries -> x ∈ items ->
        covered exclude merged' key x).
Proof.
  revert merged; induction paths as [|p paths IH]; intros merged Hwf;
    cbn [merge_paths].
  - intros [= <-]. split; [apply extends_refl |].
    intros p entries key items x Hp. inversion Hp.
  - destruct (get_oebin_data fs json_loads p) as [d|] eqn:Ed; cbn [rbind];
      [| discriminate].
    destruct (merge_manifest exclude d merged) as [m1|] eqn:Em; cbn [rbind];
      [| discriminate].
    intros H.
    destruct (IH m1 (fun q dq Hq => Hwf q dq (list_elem_of_further _ _ _ Hq)) H)
      as [He Hc].
    assert (H1 : extends merged m1
                 /\ forall entries key items x,
                      d = JDict entries -> (key, JList items) ∈ entries ->
                      x ∈ items -> covered exclude m1 key x).
    { pose proof (Hwf p d (list_elem_of_here _ _) Ed) as Hd.
      unfold merge_manifest in Em.
      destruct d as [| | | s | [|y l] | entries]; try discriminate.
      - destruct s; [| discriminate]. injection Em as <-.
        split; [apply extends_refl | discriminate].
      - injection Em as <-. split; [apply extends_refl | discriminate].
      - assert (Hrefl : items_reflexive entries).
        { intros key items x Hk Hx. apply py_eq_refl.
          now apply (well_formed_item entries key items). }
        destruct (merge_keys_covers exclude entries merged m1 Hrefl Em) as [He1 Hc1].
        split; [exact He1 |].
        intros entries' key items x [= <-] Hk Hx.
        apply (Hc1 key items x); now apply list_elem_of_In. }
    destruct H1 as [He1 Hc1].
    split; [eapply extends_trans; eassumption |].
    intros q entries key items x [-> | Hq]%elem_of_cons Hdq Hk Hx.
    + rewrite Ed in Hdq. injection Hdq as ->.
      apply (covered_extends exclude m1); [exact He |].
      now apply (Hc1 entries key items x).
    + now apply (Hc q entries key items x).
Qed.

End Merger.

End MergeContentFacts.

(** ** The merged manifest and its sources *)

Module MergedContentFacts.
Import PyPath Json JsonFacts Merge MergeFacts MergeLoopFacts MergeContentFacts.

Section Merger.
Variable fs : filesystem.
Variable json_loads : string -> option json.
Variable checksum : list byte -> Z.
Variable get_settings_xml_data : list byte -> settings_data.

(** A result of the merge of two manifests or more is what the loop over the
    sorted paths has gathered. *)
Lemma get_merged_oebin_file_loop (paths : list path) (exclude : list string)
    (v : json) :
  2 <= length paths ->
  get_merged_oebin_file fs json_loads checksum get_settings_xml_data paths exclude
  = Ok v ->
  exists merged,
    merge_paths fs json_loads exclude (merge_sort path_le paths) [] = Ok merged
    /\ v = as_json merged.
Proof.
  intros Hlen.
  rewrite (MergedFacts.get_merged_oebin_file_many fs json_loads checksum
             get_settings_xml_data paths exclude Hlen).
  destruct (existsb _ paths); [discriminate |].
  destruct (assert_xml_files_match _ _ _ _); cbn [rbind]; [| discriminate].
  destruct (merge_paths fs json_loads exclude (merge_sort path_le paths) [])
    as [merged|]; cbn [rbind]; [| discriminate].
  destruct merged as [|e merged]; [discriminate |]. intros [= <-].
  now exists (e :: merged).
Qed.

End Merger.

End MergedContentFacts.

(** ** Insertion-ordered dictionaries *)

Module DictFacts.

Lemma dict_get_set {V} (key k : string) (v : V) (d : list (string * V)) :
  dict_get key (dict_set k v d)
  = if String.eqb key k then Some v else dict_get key d.
Proof.
  induction d as [|[k' v'] d IH]; cbn [dict_set dict_get].
  - reflexivity.
  - destruct (String.eqb_spec k k') as [<- | Hk]; cbn [dict_get].
    + now destruct (String.eqb key k).
    + rewrite IH. destruct (String.eqb_spec key k') as [-> | Hk'];
        [| reflexivity].
      destruct (String.eqb_spec k' k); [congruence | reflexivity].
Qed.

Lemma keys_dict_set {V} (k : string) (v : V) (d : list (string * V)) :
  map fst (dict_set k v d)
  = if bool_decide (k ∈ map fst d) then map fst d else map fst d ++ [k].
Proof.
  induction d as [|[k' v'] d IH]; cbn [dict_set map fst]; [reflexivity |].
  destruct (String.eqb_spec k k') as [<- | Hk]; cbn [map fst].
  - rewrite bool_decide_eq_true_2 by left. reflexivity.
  - rewrite IH. destruct (bool_decide (k ∈ map fst d)) eqn:E.
    + apply bool_decide_eq_true in E.
      rewrite bool_decide_eq_true_2 by now right. reflexivity.
    + apply bool_decide_eq_false in E.
      rewrite bool_decide_eq_false_2; [reflexivity |].
      intros [? | ?]%elem_of_cons; congruence.
Qed.

Lemma NoDup_dict_set {V} (k : string) (v : V) (d : list (string * V)) :
  NoDup (map fst d) -> NoDup (map fst (dict_set k v d)).
Proof.
  intros H. rewrite keys_dict_set.
  destruct (bool_decide (k ∈ map fst d)) eqn:E; [exact H |].
  apply bool_decide_eq_false in E. apply NoDup_app. split; [exact H |].
  split; [| apply NoDup_singleton].
  intros x Hx ->%list_elem_of_singleton. contradiction.
Qed.

End DictFacts.

(** ** The acquisition log, line by line *)

Module LogFacts.
Import PyStr SyncMessages DictFacts.

Lemma int_error (s : string) (e : exn) : int s = Err e -> e = ValueError.
Proof.
  unfold int. destruct (strip whitespace s) as [|c t]; [now intros [= <-] |].
  destruct (Ascii.eqb c "-"); [| destruct (Ascii.eqb c "+")];
    match goal with |- context [digits_go ?a ?b ?u] => destruct (digits_go a b u) end;
    try discriminate; now intros [= <-].
Qed.

(** The line that gives a key its entry: the last one with that label. *)
Definition defines (lines : list string) (key : string) (entry : sync_entry) : Prop :=
  exists before line after,
    lines = before ++ line :: after
    /\ label line = key
    /\ Forall (fun l => label l <> key) after
    /\ start line = Ok (se_start entry)
    /\ rate line = Ok (se_rate entry).

Lemma comprehend_error (lines : list string) (acc : list (string * sync_entry))
    (e : exn) :
  comprehend lines acc = Err e -> e = ValueError.
Proof.
  revert acc; induction lines as [|line lines IH]; intros acc; [discriminate |].
  rewrite SyncMessagesFacts.comprehend_cons.
  destruct (start line) as [s|e1] eqn:Es; cbn [rbind];
    [| intros [= <-]; now apply (int_error _ _ Es)].
  destruct (rate line) as [r|e2] eqn:Er; cbn [rbind];
    [| intros [= <-]; now apply (int_error _ _ Er)].
  apply IH.
Qed.

Lemma comprehend_ok (lines : list string) (acc : list (string * sync_entry)) :
  (exists data, comprehend lines acc = Ok data)
  <-> Forall (fun line => is_ok (start line) = true /\ is_ok (rate line) = true) lines.
Proof.
  revert acc; induction lines as [|line lines IH]; intros acc.
  - split; [constructor | intros _; now exists acc].
  - rewrite SyncMessagesFacts.comprehend_cons.
    destruct (start line) as [s|e1] eqn:Es; cbn [rbind].
    + destruct (rate line) as [r|e2] eqn:Er; cbn [rbind].
      * rewrite IH. split.
        -- intros H. constructor; [now rewrite Es, Er | exact H].
        -- intros H. now inversion H.
      * split; [intros [? ?]; discriminate |].
        intros H. inversion H as [|? ? [_ H1] _]. rewrite Er in H1. discriminate.
    + split; [intros [? ?]; discriminate |].
      intros H. inversion H as [|? ? [H1 _] _]. rewrite Es in H1. discriminate.
Qed.

Lemma comprehend_lookup (lines : list string) (acc data : list (string * sync_entry)) :
  comprehend lines acc = Ok data ->
  forall key entry,
    dict_get key data = Some entry
    <-> defines lines key entry
        \/ (Forall (fun l => label l <> key) lines /\ dict_get key acc = Some entry).
Proof.
  revert acc; induction lines as [|line lines IH]; intros acc.
  - intros [= <-] key entry. split.
    + intros H. right. split; [constructor | exact H].
    + intros [(before & l & after & H & _) | [_ H]]; [now destruct before | exact H].
  - rewrite SyncMessagesFacts.comprehend_cons.
    destruct (start line) as [s|] eqn:Es; cbn [rbind]; [| discriminate].
    destruct (rate line) as [r|] eqn:Er; cbn [rbind]; [| discriminate].
    intros H key entry. rewrite (IH _ H key entry), dict_get_set. split.
    + intros [(before & l & after & -> & Hl) | [Hall Hget]].
      * left. exists (line :: before), l, after. split; [reflexivity | exact Hl].
      * destruct (String.eqb_spec key (label line)) as [-> | Hk].
        -- injection Hget as <-. left. exists [], line, lines.
           repeat split; try assumption.
        -- right. split; [constructor; [congruence | exact Hall] | exact Hget].
    + intros [(before & l & after & Hsplit & Hlab & Hafter & Hs & Hr) | [Hall Hget]].
      * destruct before as [|b before]; cbn in Hsplit; injection Hsplit as <- ->.
        -- right. split; [exact Hafter |]. rewrite <- Hlab, String.eqb_refl.
           rewrite Es in Hs. rewrite Er in Hr. injection Hs as ->. injection Hr as ->.
           now destruct entry.
        -- left. now exists before, l, after.
      * inversion Hall as [|? ? Hne Hrest]; subst. right. split; [exact Hrest |].
        destruct (String.eqb_spec key (label line)); [congruence | exact Hget].
Qed.

Lemma comprehend_keys (lines : list string) (acc data : list (string * sync_entry)) :
  NoDup (map fst acc) -> comprehend lines acc = Ok data -> NoDup (map fst data).
Proof.
  revert acc; induction lines as [|line lines IH]; intros acc Hn.
  - now intros [= <-].
  - rewrite SyncMessagesFacts.comprehend_cons.
    destruct (start line) as [s|]; cbn [rbind]; [| discriminate].
    destruct (rate line) as [r|]; cbn [rbind]; [| discriminate].
    apply IH. now apply NoDup_dict_set.
Qed.

End LogFacts.

(** ** The array container, outside the element range *)

Module NpyEdgeFacts.
Import Npy NpyFacts.

Lemma read_bytes_within (a b : list byte) (lo hi : Z) :
  (0 <= lo <= hi)%Z -> (hi <= Z.of_nat (length a))%Z ->
  read_bytes (a ++ b) lo hi = read_bytes a lo hi.
Proof.
  intros Hlo Hhi. unfold read_bytes.
  rewrite drop_app_le by lia. rewrite take_app_le; [reflexivity |].
  rewrite length_drop. lia.
Qed.

(** Bytes read before the first element are bytes of the header. *)
Lemma read_before_payload (major minor : byte) (header payload : list byte)
    (lo hi : Z) :
  (0 <= lo <= hi)%Z -> (hi <= Z.of_nat (length header))%Z ->
  read_bytes (container major minor header payload)
    (8 + Z.of_nat (length_width major) + lo) (8 + Z.of_nat (length_width major) + hi)
  = read_bytes header lo hi.
Proof.
  intros Hlo Hhi. unfold container.
  rewrite <- (container_prefix_length major minor header).
  set (pre := magic ++ [major; minor]
              ++ le_bytes (length_width major) (Z.of_nat (length header))).
  replace (magic ++ [major; minor]
           ++ le_bytes (length_width major) (Z.of_nat (length header))
           ++ header ++ payload)
    with (pre ++ header ++ payload)
    by (unfold pre; now rewrite <- !app_assoc).
  rewrite read_bytes_app by lia. now apply read_bytes_within.
Qed.

Lemma length_read_bytes (data : list byte) (lo hi : Z) :
  (0 <= lo <= hi)%Z -> (hi <= Z.of_nat (length data))%Z ->
  length (read_bytes data lo hi) = Z.to_nat (hi - lo).
Proof.
  intros Hlo Hhi. unfold read_bytes. rewrite length_take, length_drop. lia.
Qed.

(** The reader up to the header: what it makes of the header text decides
    the rest. *)
Lemma read_to_header (eval_header : string -> result npy_header)
    (itemsize : string -> result nat)
    (major minor : byte) (header payload : list byte) (_range : range) :
  (Z.of_nat (length header) < 256 ^ Z.of_nat (length_width major))%Z ->
  read_array_range_from_npy eval_header itemsize
    (container major minor header payload) _range
  = let '(start, stop) :=
      match _range with
      | Index i => (i, (i + 1)%Z)
      | Slice start stop => (start, stop)
      end in
    let array_start := (8 + Z.of_nat (length_width major)
                        + Z.of_nat (length header))%Z in
    do h <- eval_header (header_text_of header);
    if (length (shape h) =? 1)%nat then
      do num_bytes_per_value <- itemsize (descr h);
      frombuffer (descr h) num_bytes_per_value
        (read_bytes (container major minor header payload)
           (array_start + start * Z.of_nat num_bytes_per_value)
           (array_start + stop * Z.of_nat num_bytes_per_value))
    else Err (AssertionError "Currently supporting 1-D array only").
Proof.
  intros Hf. unfold read_array_range_from_npy.
  rewrite header_len_stop_eq, read_length_field.
  rewrite int_from_bytes_le_bytes by lia.
  rewrite Z.mod_small by lia.
  rewrite (read_header major minor header payload _ eq_refl).
  reflexivity.
Qed.

End NpyEdgeFacts.

(** ** Letter case and containment *)

Module LowerFacts.
Import PyStr.

Lemma startswith_lower (p s : string) :
  startswith p s = true -> startswith (lower p) (lower s) = true.
Proof.
  revert s; induction p as [|a p IH]; intros s; [reflexivity |].
  destruct s as [|b s]; cbn [startswith lower]; [discriminate |].
  destruct (Ascii.eqb_spec a b) as [-> | Hab]; [| discriminate].
  rewrite Ascii.eqb_refl. apply IH.
Qed.

(** [sep in s]: [sep] starts at some position of [s]. *)
Lemma contains_iff (sep s : string) :
  contains sep s = true
  <-> exists k, k <= String.length s /\ startswith sep (slice_from k s) = true.
Proof.
  unfold contains. induction s as [|c s IH].
  - cbn [find]. destruct (startswith sep "") eqn:E.
    + split; [| reflexivity]. intros _. exists 0. now split.
    + split; [discriminate |]. intros (k & Hk & H). cbn in Hk.
      assert (k = 0) as -> by lia. cbn in H. congruence.
  - rewrite PyStrFacts.find_cons.
    destruct (startswith sep (String c s)) eqn:E.
    + split; [| reflexivity]. intros _. exists 0. split; [lia | exact E].
    + split.
      * intros H. destruct (find sep s) as [i|]; [| discriminate].
        destruct (proj1 IH eq_refl) as (k & Hk & Hs).
        exists (S k). split; [cbn; lia | exact Hs].
      * intros ([|k] & Hk & Hs); [cbn in Hs; congruence |].
        cbn [slice_from] in Hs. cbn in Hk.
        assert (Hc : match find sep s with Some _ => true | None => false end = true)
          by (apply IH; exists k; split; [lia | exact Hs]).
        now destruct (find sep s).
Qed.

Lemma lower_slice_from (k : nat) (s : string) :
  lower (slice_from k s) = slice_from k (lower s).
Proof.
  revert s; induction k as [|k IH]; intros [|c s]; try reflexivity.
  cbn [slice_from lower]. apply IH.
Qed.

Lemma length_lower (s : string) : String.length (lower s) = String.length s.
Proof. induction s as [|c s IH]; [reflexivity |]. cbn. now rewrite IH. Qed.

Lemma contains_lower (p s : string) :
  contains p s = true -> contains (lower p) (lower s) = true.
Proof.
  rewrite !contains_iff. intros (k & Hk & H). exists k.
  rewrite length_lower, <- lower_slice_from. split; [exact Hk |].
  now apply startswith_lower.
Qed.

End LowerFacts.

(** ** Hallmarks *)

Module HallmarksFacts.
Import PyPath Hallmarks.

Lemma found_iff (fs : filesystem) (p : path) (glob : string) :
  found fs p glob = true <-> exists q, q ∈ Fs.rglob fs p glob.
Proof.
  unfold found. destruct (Fs.rglob fs p glob) as [|q l].
  - split; [discriminate |]. intros [q Hq]. inversion Hq.
  - split; [| reflexivity]. intros _. exists q. left.
Qed.

Lemma is_new_ephys_folder_eq (fs : filesystem) (p : path) :
  is_new_ephys_folder fs p
  = PyStr.contains "record node" (PyStr.lower (as_posix p))
    || PyStr.contains "structure.oebin" (PyStr.lower (as_posix p))
    || found fs p "Record Node*" || found fs p "structure*.oebin".
Proof.
  unfold is_new_ephys_folder.
  change components with ["Record Node"; "structure.oebin"].
  cbn [existsb globs].
  change (PyStr.lower "Record Node") with "record node".
  change (PyStr.lower "structure.oebin") with "structure.oebin".
  rewrite !orb_false_r.
  destruct (PyStr.contains "record node" _); [reflexivity |].
  destruct (PyStr.contains "structure.oebin" _); [reflexivity |].
  reflexivity.
Qed.

End HallmarksFacts.

(** ** The compressed copy *)

Module CompressedFacts.
Import PyStr PyPath Compressed.

Lemma slice_from_all (s : string) (k : nat) :
  String.length s <= k -> slice_from k s = EmptyString.
Proof.
  revert k; induction s as [|c s IH]; intros [|k] H; cbn in *; try reflexivity;
    try lia.
  apply IH. lia.
Qed.

Lemma backtrack_some {A} (x : string -> option A) (s : string) (k : nat) (a : A) :
  backtrack x s k = Some a -> exists j, x (slice_from j s) = Some a.
Proof.
  induction k as [|k IH]; cbn [backtrack];
    destruct (x (slice_from _ s)) eqn:E; try discriminate.
  - intros [= <-]. eauto.
  - intros [= <-]. eauto.
  - exact IH.
Qed.

(** What a search has found was found at some position of the text. *)
Lemma search_dot_star_some {A} (x : string -> option A) (s : string) (a : A) :
  search_dot_star x s = Some a ->
  exists k, k <= String.length s /\ x (slice_from k s) = Some a.
Proof.
  induction s as [|c s IH]; cbn [search_dot_star].
  - destruct (match_dot_star x "") eqn:E; [| discriminate].
    intros [= <-]. apply backtrack_some in E as [j Hj].
    exists 0. split; [lia |]. now destruct j.
  - destruct (match_dot_star x (String c s)) eqn:E.
    + intros [= <-]. apply backtrack_some in E as [j Hj].
      destruct (le_lt_dec j (String.length (String c s))) as [Hle | Hgt];
        [now exists j |].
      exists (String.length (String c s)). split; [lia |].
      rewrite slice_from_all in Hj by lia. now rewrite slice_from_all by lia.
    + intros H. destruct (IH H) as (k & Hk & Hx). exists (S k).
      split; [cbn; lia | exact Hx].
Qed.

Lemma match_dot_star_some {A} (x : string -> option A) (s : string) (a : A) :
  match_dot_star x s = Some a ->
  exists k, k <= String.length s /\ x (slice_from k s) = Some a.
Proof.
  intros [j Hj]%backtrack_some.
  destruct (le_lt_dec j (String.length s)) as [Hle | Hgt]; [now exists j |].
  exists (String.length s). split; [lia |].
  rewrite slice_from_all in Hj by lia. now rewrite slice_from_all by lia.
Qed.

Lemma span_digits_all (s : string) : all_digits (fst (span_digits s)) = true.
Proof.
  induction s as [|c s IH]; [reflexivity |]. cbn [span_digits].
  destruct (digit_of c) eqn:Ed; [| reflexivity].
  destruct (span_digits s) as [d r]. cbn [fst all_digits] in *. now rewrite Ed.
Qed.

Lemma word_digits_some (word t group : string) :
  word_digits word t = Some group ->
  exists digits,
    group = (word ++ digits)%string /\ digits <> EmptyString
    /\ all_digits digits = true /\ startswith word t = true.
Proof.
  unfold word_digits. destruct (startswith word t); [| discriminate].
  pose proof (span_digits_all (slice_from (String.length word) t)) as Hd.
  destruct (fst (span_digits (slice_from (String.length word) t))) as [|c d];
    [discriminate |].
  intros [= <-]. exists (String c d). repeat split; [discriminate | exact Hd].
Qed.

Lemma device_tail_some (record_node experiment t device : string) :
  device_tail record_node experiment t = Some device ->
  startswith (record_node ++ "/" ++ experiment ++ "/recording") t = true.
Proof.
  unfold device_tail.
  now destruct (startswith (record_node ++ "/" ++ experiment ++ "/recording") t).
Qed.

Lemma head_filter_some {A} (f : A -> bool) (l : list A) (x : A) (rest : list A) :
  List.filter f l = x :: rest -> x ∈ l /\ f x = true.
Proof.
  intros H.
  assert (Hin : In x (List.filter f l)) by (rewrite H; now left).
  apply filter_In in Hin as [Hin Hf]. split; [now apply list_elem_of_In | exact Hf].
Qed.

(** An entry right beneath a folder has the folder as its parent. *)
Lemma parent_of_entry (p q : path) :
  Fs.beneath p q = true -> length (parts q) = S (length (parts p)) -> parent q = p.
Proof.
  unfold Fs.beneath, within.
  intros [[Ha Hp]%andb_true_iff _]%andb_true_iff Hlen.
  apply String.eqb_eq in Ha.
  pose proof (TopologyFacts.is_prefix_split _ _ Hp) as Hsplit.
  destruct p as [pa pp], q as [qa qp]. cbn [anchor parts] in *. subst qa.
  unfold parent. cbn [anchor parts]. f_equal.
  assert (Hd : length (drop (length pp) qp) = 1) by (rewrite length_drop; lia).
  destruct (drop (length pp) qp) as [|x [|y l]]; cbn in Hd; try lia.
  rewrite Hsplit. apply removelast_last.
Qed.

Section Finder.
Variable fs : filesystem.

Lemma iterdir_entry (p q : path) :
  q ∈ iterdir fs p -> q ∈ fs_paths fs /\ parent q = p.
Proof.
  unfold iterdir. intros [Hin Hf]%list_elem_of_In%filter_In.
  apply andb_true_iff in Hf as [Hb Hl]. apply Nat.eqb_eq in Hl.
  split; [now apply list_elem_of_In | now apply parent_of_entry].
Qed.

(** What a compressed path returned looks like. *)
Lemma clipped_path_to_compressed_shape (p c : path) :
  clipped_path_to_compressed fs p = Ok c ->
  exists root experiment_number record_node_number device,
    let experiment := ("experiment" ++ experiment_number)%string in
    let record_node := ("Record Node " ++ record_node_number)%string in
    root ∈ parents p /\ name root = "ecephys_clipped"
    /\ c ∈ fs_paths fs
    /\ parent c = child (parent root) "ecephys_compressed"
    /\ name c = (experiment ++ "_" ++ record_node ++ "#" ++ device ++ ".zarr")%string
    /\ experiment_number <> EmptyString /\ all_digits experiment_number = true
    /\ record_node_number <> EmptyString /\ all_digits record_node_number = true
    /\ contains (record_node ++ "/" ++ experiment ++ "/recording") (as_posix p) = true.
Proof.
  unfold clipped_path_to_compressed.
  destruct (contains "ecephys_clipped" (as_posix p)); cbn [negb]; [| discriminate].
  destruct (search_dot_star (word_digits "experiment") (as_posix p))
    as [experiment|] eqn:Ee; [| discriminate].
  destruct (search_dot_star (word_digits "Record Node ") (as_posix p))
    as [record_node|] eqn:Er; [| discriminate].
  destruct (match_dot_star (device_tail record_node experiment) (as_posix p))
    as [device|] eqn:Ed; [| discriminate].
  destruct (List.filter (fun q => String.eqb (name q) "ecephys_clipped") (parents p))
    as [|root roots] eqn:Eroot; [discriminate |].
  cbn zeta.
  destruct (Fs.is_file fs (child (parent root) "ecephys_compressed"));
    [discriminate |].
  destruct (List.filter _ (iterdir fs (child (parent root) "ecephys_compressed")))
    as [|found rest] eqn:Ef; [discriminate |].
  intros [= <-].
  apply search_dot_star_some in Ee as (ke & _ & Hwe).
  apply word_digits_some in Hwe as (en & -> & Hen & Hden & _).
  apply search_dot_star_some in Er as (kr & _ & Hwr).
  apply word_digits_some in Hwr as (rn & -> & Hrn & Hdrn & _).
  apply match_dot_star_some in Ed as (kd & Hkd & Hd).
  apply device_tail_some in Hd.
  apply head_filter_some in Eroot as [Hroot Hname]. apply String.eqb_eq in Hname.
  apply head_filter_some in Ef as [Hfound Hfname]. apply String.eqb_eq in Hfname.
  apply iterdir_entry in Hfound as [Hin Hpar].
  exists root, en, rn, device. cbn zeta.
  repeat split; try assumption.
  apply LowerFacts.contains_iff. now exists kd.
Qed.

Lemma clipped_path_to_compressed_guard (p : path) :
  contains "ecephys_clipped" (as_posix p) = false ->
  clipped_path_to_compressed fs p = Err ValueError.
Proof. intros H. unfold clipped_path_to_compressed. now rewrite H. Qed.

End Finder.

End CompressedFacts.

(** ** The compressed copy, for the documented layout *)

Module LayoutFacts.
Import PyStr PyStrFacts PyPath Compressed.

(** No occurrence of [sep] starts anywhere in [s]. *)
Definition absent (sep s : string) : Prop :=
  forall k, startswith sep (slice_from k s) = false.

Lemma absent_cons (sep : string) (c : ascii) (s : string) :
  startswith sep (String c s) = false -> absent sep s -> absent sep (String c s).
Proof. intros H Hs [|k]; [exact H | apply Hs]. Qed.

Lemma absent_of_contains (sep s : string) :
  sep <> EmptyString -> contains sep s = false -> absent sep s.
Proof.
  intros Hne Hc k.
  destruct (le_lt_dec k (String.length s)) as [Hle | Hgt].
  - destruct (startswith sep (slice_from k s)) eqn:E; [| reflexivity].
    assert (contains sep s = true) by (apply LowerFacts.contains_iff; now exists k).
    congruence.
  - rewrite CompressedFacts.slice_from_all by lia. now destruct sep.
Qed.

Lemma absent_digits (c : ascii) (sep digits rest : string) :
  digit_of c = None -> all_digits digits = true ->
  absent (String c sep) rest -> absent (String c sep) (digits ++ rest).
Proof.
  intros Hc. induction digits as [|d digits IH]; intros Hd Hr; sapp; [exact Hr |].
  cbn [all_digits] in Hd. destruct (digit_of d) eqn:Ed; [| discriminate].
  apply absent_cons; [| now apply IH].
  cbn [startswith]. destruct (Ascii.eqb_spec c d) as [-> | _]; [congruence | reflexivity].
Qed.

Lemma startswith_app_l (a b t : string) :
  startswith (a ++ b) t = true -> startswith a t = true.
Proof.
  revert t; induction a as [|x a IH]; intros t; sapp; [reflexivity |].
  destruct t as [|y t]; cbn [startswith]; [discriminate |].
  destruct (Ascii.eqb x y); [apply IH | discriminate].
Qed.

(** [x] captures nothing at any position of [s]. *)
Definition never {A} (x : string -> option A) (s : string) : Prop :=
  forall k, x (slice_from k s) = None.

Lemma never_word_digits (word s : string) :
  absent word s -> never (word_digits word) s.
Proof. intros H k. unfold word_digits. now rewrite (H k). Qed.

Lemma never_device_tail (word number experiment s : string) :
  absent word s -> never (device_tail (word ++ number) experiment) s.
Proof.
  intros H k. unfold device_tail.
  destruct (startswith _ (slice_from k s)) eqn:E; [| reflexivity].
  rewrite app_assoc_s in E. apply startswith_app_l in E. rewrite (H k) in E.
  discriminate.
Qed.

Lemma backtrack_found {A} (x : string -> option A) (s : string) (j : nat) (a : A) :
  x (slice_from j s) = Some a ->
  forall d, (forall k, j < k -> k <= j + d -> x (slice_from k s) = None) ->
            backtrack x s (j + d) = Some a.
Proof.
  intros Hj. induction d as [|d IH]; intros Hno.
  - rewrite Nat.add_0_r. destruct j; cbn [backtrack]; now rewrite Hj.
  - rewrite Nat.add_succ_r. cbn [backtrack].
    rewrite (Hno (S (j + d))) by lia. apply IH. intros k Hk Hkd. apply Hno; lia.
Qed.

Lemma line_length_one_line (s : string) :
  contains newline_chars s = false -> line_length s = String.length s.
Proof.
  unfold contains, line_length. now destruct (find newline_chars s).
Qed.

(** The last position at which [x] captures something is the one a greedy
    star leaves to it. *)
Lemma match_dot_star_last {A} (x : string -> option A) (before : string)
    (c : ascii) (after : string) (a : A) :
  contains newline_chars (before ++ String c after) = false ->
  x (String c after) = Some a -> never x after ->
  match_dot_star x (before ++ String c after) = Some a.
Proof.
  intros Hnl Hx Hno. unfold match_dot_star.
  rewrite (line_length_one_line _ Hnl), length_app_s.
  apply backtrack_found.
  - now rewrite slice_from_app.
  - intros k Hk _.
    replace k with (String.length before + S (k - String.length before - 1)) by lia.
    rewrite slice_from_add, slice_from_app. cbn [slice_from]. apply Hno.
Qed.

Lemma search_dot_star_first {A} (x : string -> option A) (s : string) (a : A) :
  match_dot_star x s = Some a -> search_dot_star x s = Some a.
Proof. intros H. destruct s; cbn [search_dot_star]; now rewrite H. Qed.

Lemma contains_suffix (sep a b : string) :
  contains sep b = true -> contains sep (a ++ b) = true.
Proof.
  rewrite !LowerFacts.contains_iff. intros (k & Hk & H).
  exists (String.length a + k). rewrite length_app_s, slice_from_add, slice_from_app.
  split; [lia | exact H].
Qed.

Lemma contains_prefix (sep a b : string) :
  startswith sep a = true -> contains sep (a ++ b) = true.
Proof.
  intros H. apply LowerFacts.contains_iff. exists 0. split; [lia |].
  cbn [slice_from]. revert a H. induction sep as [|x sep IH]; intros a H;
    [reflexivity |].
  destruct a as [|y a]; cbn [startswith] in *; [discriminate |]. sapp.
  cbn [startswith]. destruct (Ascii.eqb x y); [now apply IH | discriminate].
Qed.

Lemma span_digits_app (digits : string) (c : ascii) (rest : string) :
  all_digits digits = true -> digit_of c = None ->
  span_digits (digits ++ String c rest) = (digits, String c rest).
Proof.
  intros Hd Hc. induction digits as [|d digits IH]; sapp.
  - cbn [span_digits]. now rewrite Hc.
  - cbn [all_digits] in Hd. cbn [span_digits].
    destruct (digit_of d); [| discriminate]. now rewrite IH.
Qed.

Lemma span_no_slash_app (run rest : string) :
  mem_char "/" run = false ->
  span_no_slash (run ++ String "/" rest) = (run, String "/" rest).
Proof.
  induction run as [|x run IH]; intros H; sapp; [reflexivity |].
  rewrite mem_char_cons in H. apply orb_false_iff in H as [Hx Hr].
  cbn [span_no_slash]. rewrite Ascii.eqb_sym, Hx. now rewrite IH.
Qed.

Lemma slice_to_all (s : string) : slice_to (String.length s) s = s.
Proof. induction s as [|c s IH]; [reflexivity |]. cbn. now rewrite IH. Qed.

(** The text of a path that ends with some components. *)
Fixpoint prefix_text (above : list string) : string :=
  match above with
  | [] => EmptyString
  | x :: rest => (x ++ "/" ++ prefix_text rest)%string
  end.

Lemma join_app (above : list string) (x : string) (l : list string) :
  join "/" (above ++ x :: l) = (prefix_text above ++ join "/" (x :: l))%string.
Proof.
  induction above as [|y above IH]; [reflexivity |].
  cbn [app prefix_text]. rewrite !app_assoc_s.
  replace (join "/" (y :: above ++ x :: l))
    with (y ++ "/" ++ join "/" (above ++ x :: l))%string
    by (destruct above; reflexivity).
  now rewrite IH.
Qed.

Lemma is_prefix_app (l k : list string) : is_prefix l (l ++ k) = true.
Proof. induction l as [|x l IH]; [reflexivity |]. cbn. now rewrite String.eqb_refl. Qed.

Lemma name_last (drive : string) (l : list string) (x : string) :
  name (Path drive (l ++ [x])) = x.
Proof. unfold name. cbn [parts]. apply last_last. Qed.

(** The entries of a folder with a given name: the child of that name. *)
Lemma entry_named (fs : filesystem) (dir : path) (nm : string) (q : path) :
  q ∈ List.filter (fun q => String.eqb (name q) nm) (iterdir fs dir) ->
  q = child dir nm /\ q ∈ fs_paths fs.
Proof.
  intros [Hq Hn]%list_elem_of_In%filter_In. apply String.eqb_eq in Hn.
  pose proof Hq as Hq'. unfold iterdir in Hq'.
  apply filter_In in Hq' as [_ [Hb _]%andb_true_iff].
  apply list_elem_of_In, CompressedFacts.iterdir_entry in Hq as [Hin Hpar].
  split; [| exact Hin].
  pose proof (TopologyFacts.beneath_nonempty _ _ Hb) as Hne.
  destruct q as [qa qp]. unfold parent in Hpar. cbn [anchor parts] in *.
  subst dir. unfold child, name in *. cbn [anchor parts] in *.
  f_equal. rewrite <- Hn. now apply app_removelast_last.
Qed.

Lemma child_entry (fs : filesystem) (dir : path) (nm : string) :
  child dir nm ∈ fs_paths fs ->
  child dir nm ∈ List.filter (fun q => String.eqb (name q) nm) (iterdir fs dir).
Proof.
  intros H. apply list_elem_of_In, filter_In. split.
  - unfold iterdir. apply filter_In. split; [now apply list_elem_of_In |].
    unfold Fs.beneath, within, child. cbn [anchor parts].
    rewrite String.eqb_refl, is_prefix_app, length_app. cbn [length andb].
    apply andb_true_iff. split; [apply Nat.ltb_lt | apply Nat.eqb_eq]; lia.
  - unfold name, child. cbn [parts]. rewrite last_last. apply String.eqb_refl.
Qed.

Ltac literal := repeat (apply absent_cons; [reflexivity |]).

Lemma word_digits_match (word digits : string) (c : ascii) (rest : string) :
  all_digits digits = true -> digits <> EmptyString -> digit_of c = None ->
  word_digits word (word ++ digits ++ String c rest) = Some (word ++ digits)%string.
Proof.
  intros Hd Hne Hc. unfold word_digits.
  rewrite startswith_app, slice_from_app, (span_digits_app digits c rest Hd Hc).
  cbn [fst]. now destruct digits.
Qed.

Lemma device_tail_match (record_node experiment number kind device : string) :
  all_digits number = true -> number <> EmptyString ->
  kind <> EmptyString -> mem_char "/" kind = false ->
  contains newline_chars device = false ->
  device_tail record_node experiment
    ((record_node ++ "/" ++ experiment ++ "/recording")
     ++ number ++ String "/" (kind ++ String "/" device))
  = Some device.
Proof.
  intros Hd Hne Hk Hp Hnl. unfold device_tail.
  rewrite startswith_app, slice_from_app.
  rewrite (span_digits_app number "/" _ Hd eq_refl).
  destruct number as [|d ds]; [contradiction |].
  rewrite Ascii.eqb_refl, (span_no_slash_app kind device Hp).
  destruct kind as [|k ks]; [contradiction |].
  now rewrite (line_length_one_line _ Hnl), slice_to_all.
Qed.

Section Layout.
Variable fs : filesystem.
Variables (drive : string) (above : list string).
Variables (node_number experiment_number recording_number kind device : string).
Hypothesis node_digits : all_digits node_number = true.
Hypothesis node_given : node_number <> EmptyString.
Hypothesis experiment_digits : all_digits experiment_number = true.
Hypothesis experiment_given : experiment_number <> EmptyString.
Hypothesis recording_digits : all_digits recording_number = true.
Hypothesis recording_given : recording_number <> EmptyString.
Hypothesis kind_given : kind <> EmptyString.
Hypothesis kind_plain : mem_char "/" kind = false.
Hypothesis kind_other : kind <> "ecephys_clipped".
Hypothesis no_experiment : contains "experiment" (kind ++ "/" ++ device) = false.
Hypothesis no_record_node : contains "Record Node " (kind ++ "/" ++ device) = false.

Let record_node : string := ("Record Node " ++ node_number)%string.
Let experiment : string := ("experiment" ++ experiment_number)%string.
Let p : path :=
  Path drive (above ++ ["ecephys_clipped"; record_node; experiment;
                        ("recording" ++ recording_number)%string; kind; device]).
Let before : string := (drive ++ prefix_text above ++ "ecephys_clipped/")%string.

Hypothesis one_line : contains newline_chars (as_posix p) = false.
Hypothesis folder_no_file :
  Fs.is_file fs (Path drive (above ++ ["ecephys_compressed"])) = false.

Lemma layout_text :
  as_posix p
  = (before ++ "Record Node " ++ node_number ++ "/experiment" ++ experiment_number
     ++ "/recording" ++ recording_number ++ "/" ++ kind ++ "/" ++ device)%string.
Proof.
  unfold as_posix, p, before, record_node, experiment. cbn [anchor parts].
  rewrite join_app. cbn [join]. rewrite !app_assoc_s. sapp. reflexivity.
Qed.

Lemma device_one_line : contains newline_chars device = false.
Proof.
  destruct (contains newline_chars device) eqn:E; [| reflexivity].
  pose proof one_line as Hnl. rewrite layout_text in Hnl.
  rewrite <- Hnl. symmetry.
  do 10 apply contains_suffix. exact E.
Qed.

Lemma after_recording (sep : string) (c : ascii) :
  digit_of c = None ->
  startswith (String c sep) (String "/" (kind ++ "/" ++ device)) = false ->
  contains (String c sep) (kind ++ "/" ++ device) = false ->
  absent (String c sep) (recording_number ++ "/" ++ kind ++ "/" ++ device).
Proof.
  intros Hc Hs Hno. apply absent_digits; [exact Hc | exact recording_digits |].
  sapp. apply absent_cons; [exact Hs |].
  now apply absent_of_contains.
Qed.

Lemma search_experiment :
  search_dot_star (word_digits "experiment") (as_posix p) = Some experiment.
Proof.
  apply search_dot_star_first.
  pose proof one_line as Hnl. rewrite layout_text in Hnl |- *.
  set (rest := ("/recording" ++ recording_number ++ "/" ++ kind ++ "/" ++ device)%string)
    in *.
  assert (E : (before ++ "Record Node " ++ node_number ++ "/experiment"
               ++ experiment_number ++ rest)%string
              = ((before ++ "Record Node " ++ node_number ++ "/")
                 ++ String "e" ("xperiment" ++ experiment_number ++ rest))%string).
  { rewrite !app_assoc_s. sapp. reflexivity. }
  rewrite E in Hnl |- *.
  apply match_dot_star_last; [exact Hnl | |].
  - replace (String "e" ("xperiment" ++ experiment_number ++ rest))%string
      with ("experiment" ++ experiment_number
            ++ String "/" ("recording" ++ recording_number ++ "/" ++ kind
                           ++ "/" ++ device))%string
      by (unfold rest; sapp; reflexivity).
    exact (word_digits_match "experiment" experiment_number "/" _
             experiment_digits experiment_given eq_refl).
  - apply never_word_digits. sapp. literal.
    apply absent_digits; [reflexivity | exact experiment_digits |].
    unfold rest. sapp. literal.
    now apply after_recording.
Qed.

Lemma search_record_node :
  search_dot_star (word_digits "Record Node ") (as_posix p) = Some record_node.
Proof.
  apply search_dot_star_first.
  pose proof one_line as Hnl. rewrite layout_text in Hnl |- *.
  set (rest := ("/experiment" ++ experiment_number ++ "/recording"
                ++ recording_number ++ "/" ++ kind ++ "/" ++ device)%string) in *.
  assert (E : (before ++ "Record Node " ++ node_number ++ rest)%string
              = (before ++ String "R" ("ecord Node " ++ node_number ++ rest))%string).
  { sapp. reflexivity. }
  rewrite E in Hnl |- *.
  apply match_dot_star_last; [exact Hnl | |].
  - replace (String "R" ("ecord Node " ++ node_number ++ rest))%string
      with ("Record Node " ++ node_number
            ++ String "/" ("experiment" ++ experiment_number ++ "/recording"
                           ++ recording_number ++ "/" ++ kind ++ "/" ++ device))%string
      by (unfold rest; sapp; reflexivity).
    exact (word_digits_match "Record Node " node_number "/" _
             node_digits node_given eq_refl).
  - apply never_word_digits. sapp. literal.
    apply absent_digits; [reflexivity | exact node_digits |].
    unfold rest. sapp. literal.
    apply absent_digits; [reflexivity | exact experiment_digits |].
    sapp. literal.
    now apply after_recording.
Qed.

Lemma match_device :
  match_dot_star (device_tail record_node experiment) (as_posix p) = Some device.
Proof.
  pose proof one_line as Hnl. rewrite layout_text in Hnl |- *.
  set (rest := ("/experiment" ++ experiment_number ++ "/recording"
                ++ recording_number ++ "/" ++ kind ++ "/" ++ device)%string) in *.
  assert (E : (before ++ "Record Node " ++ node_number ++ rest)%string
              = (before ++ String "R" ("ecord Node " ++ node_number ++ rest))%string).
  { sapp. reflexivity. }
  rewrite E in Hnl |- *.
  apply match_dot_star_last; [exact Hnl | |].
  - assert (Et : String "R" ("ecord Node " ++ node_number ++ rest)
                 = ((record_node ++ "/" ++ experiment ++ "/recording")
                    ++ recording_number ++ String "/" (kind ++ String "/" device))%string).
    { unfold rest, record_node, experiment. rewrite !app_assoc_s. sapp.
      reflexivity. }
    rewrite Et.
    apply device_tail_match; try assumption. exact device_one_line.
  - unfold record_node. apply never_device_tail. sapp. literal.
    apply absent_digits; [reflexivity | exact node_digits |].
    unfold rest. sapp. literal.
    apply absent_digits; [reflexivity | exact experiment_digits |].
    sapp. literal.
    now apply after_recording.
Qed.

Lemma guard : contains "ecephys_clipped" (as_posix p) = true.
Proof.
  rewrite layout_text. unfold before. rewrite !app_assoc_s.
  apply contains_suffix, contains_suffix, contains_prefix. reflexivity.
Qed.

Let root : path := Path drive (above ++ ["ecephys_clipped"]).
Let compressed_name : string :=
  (experiment ++ "_" ++ record_node ++ "#" ++ device ++ ".zarr")%string.
Let compressed : path :=
  Path drive (above ++ ["ecephys_compressed"; compressed_name]).

Lemma nearest_clipped :
  head (List.filter (fun q => String.eqb (name q) "ecephys_clipped") (parents p))
  = Some root.
Proof.
  unfold parents.
  apply (RootFacts.first_descending
           (fun q => String.eqb (name q) "ecephys_clipped")
           (fun k => Path (anchor p) (take k (parts p)))).
  exists (length above + 1). unfold p. cbn [anchor parts].
  rewrite length_app. cbn [length]. split; [lia |].
  rewrite take_app_add. cbn [take]. split; [reflexivity |]. split.
  - now rewrite name_last.
  - intros j Hj Hn.
    assert (Hcase : j = length above + 2 \/ j = length above + 3
                    \/ j = length above + 4 \/ j = length above + 5) by lia.
    destruct Hcase as [-> | [-> | [-> | ->]]]; rewrite take_app_add; cbn [take].
    + change (above ++ ["ecephys_clipped"; record_node])
        with (above ++ ["ecephys_clipped"] ++ [record_node]).
      rewrite app_assoc, name_last. reflexivity.
    + change (above ++ ["ecephys_clipped"; record_node; experiment])
        with (above ++ ["ecephys_clipped"; record_node] ++ [experiment]).
      rewrite app_assoc, name_last. reflexivity.
    + change (above ++ ["ecephys_clipped"; record_node; experiment;
                        ("recording" ++ recording_number)%string])
        with (above ++ ["ecephys_clipped"; record_node; experiment]
              ++ [("recording" ++ recording_number)%string]).
      rewrite app_assoc, name_last. reflexivity.
    + change (above ++ ["ecephys_clipped"; record_node; experiment;
                        ("recording" ++ recording_number)%string; kind])
        with (above ++ ["ecephys_clipped"; record_node; experiment;
                        ("recording" ++ recording_number)%string] ++ [kind]).
      rewrite app_assoc, name_last. now apply String.eqb_neq.
Qed.

Lemma clipped_layout :
  (compressed ∈ fs_paths fs -> clipped_path_to_compressed fs p = Ok compressed)
  /\ (compressed ∉ fs_paths fs ->
      clipped_path_to_compressed fs p = Err FileNotFoundError).
Proof.
  unfold clipped_path_to_compressed.
  rewrite guard, search_experiment, search_record_node, match_device.
  cbn [negb]. fold compressed_name.
  pose proof nearest_clipped as Hroot.
  destruct (List.filter (fun q => String.eqb (name q) "ecephys_clipped") (parents p))
    as [|r rs]; [discriminate |].
  cbn [head] in Hroot. injection Hroot as ->.
  assert (Hdir : child (parent root) "ecephys_compressed"
                 = Path drive (above ++ ["ecephys_compressed"])).
  { unfold root, parent, child. cbn [anchor parts]. now rewrite removelast_last. }
  cbn zeta. rewrite Hdir, folder_no_file.
  assert (Hc : compressed
               = child (Path drive (above ++ ["ecephys_compressed"])) compressed_name).
  { unfold compressed, child. cbn [anchor parts]. now rewrite <- app_assoc. }
  destruct (List.filter _ (iterdir fs (Path drive (above ++ ["ecephys_compressed"]))))
    as [|q qs] eqn:Ef.
  - split; [| reflexivity]. intros Hin. rewrite Hc in Hin.
    apply child_entry in Hin. rewrite Ef in Hin. inversion Hin.
  - assert (Hq : q ∈ q :: qs) by left. rewrite <- Ef in Hq.
    apply entry_named in Hq as [-> Hin]. rewrite <- Hc in *.
    split; [reflexivity | contradiction].
Qed.

End Layout.

End LayoutFacts.

(** * The claims *)

Import PyStr SyncMessages.

(** C1.  On a valid one-dimensional array stored in the container (magic,
    major and minor version, a little-endian header length of 2 bytes for
    major version 1 and of 4 bytes otherwise, the header text, the element
    bytes), reading the element range [slice(i, j)] with [0 <= i <= j <= len]
    returns exactly the elements [full_array[i:j]]; and a container of any
    other version holding the same header and elements gives the same
    result. *)
Theorem read_array_range_from_npy_slice
    (eval_header : string -> result Npy.npy_header)
    (itemsize : string -> result nat)
    (major minor : byte) (header : list byte) (dt : string) (size : nat)
    (elems : list (list byte)) (i j : Z) :
  Npy.valid_array eval_header itemsize major header dt size elems ->
  (0 <= i <= j)%Z -> (j <= Z.of_nat (length elems))%Z ->
  Npy.read_array_range_from_npy eval_header itemsize
    (Npy.container major minor header (concat elems)) (Npy.Slice i j)
  = Ok (Npy.NdArray dt (take (Z.to_nat (j - i)) (drop (Z.to_nat i) elems)))
  /\ (forall major' minor',
        Npy.valid_array eval_header itemsize major' header dt size elems ->
        Npy.read_array_range_from_npy eval_header itemsize
          (Npy.container major' minor' header (concat elems)) (Npy.Slice i j)
        = Npy.read_array_range_from_npy eval_header itemsize
            (Npy.container major minor header (concat elems)) (Npy.Slice i j)).
Proof.
  intros Hv Hij _. split.
  - now apply (NpyFacts.read_valid _ _ major minor header dt size).
  - intros major' minor' Hv'.
    rewrite (NpyFacts.read_valid _ _ major' minor' _ _ _ _ _ _ Hv' Hij).
    now rewrite (NpyFacts.read_valid _ _ major minor _ _ _ _ _ _ Hv Hij).
Qed.

Lemma sample_valid (major : byte) :
  (major = x01 \/ major = x02)%byte ->
  Npy.valid_array Npy.eval_header_numpy Npy.itemsize_numpy major
    Samples.sample_header "<i2" 2 Samples.sample_elems.
Proof.
  intros Hm. split.
  - vm_compute. reflexivity.
  - vm_compute. reflexivity.
  - lia.
  - repeat constructor.
  - destruct Hm as [-> | ->]; vm_compute; reflexivity.
Qed.

Lemma read_array_range_from_npy_slice_witness :
  Npy.read_array_range_from_npy Npy.eval_header_numpy Npy.itemsize_numpy
    (Npy.container x01 x00 Samples.sample_header (concat Samples.sample_elems)) (Npy.Slice 1 3)
  = Ok (Npy.NdArray "<i2" [[x02; x00]; [xff; xff]]%byte)
  /\ Npy.read_array_range_from_npy Npy.eval_header_numpy Npy.itemsize_numpy
       (Npy.container x02 x00 Samples.sample_header (concat Samples.sample_elems)) (Npy.Slice 1 3)
     = Npy.read_array_range_from_npy Npy.eval_header_numpy Npy.itemsize_numpy
         (Npy.container x01 x00 Samples.sample_header (concat Samples.sample_elems)) (Npy.Slice 1 3).
Proof.
  pose proof (read_array_range_from_npy_slice Npy.eval_header_numpy
                Npy.itemsize_numpy x01 x00 Samples.sample_header "<i2" 2 Samples.sample_elems 1 3
                (sample_valid x01 (or_introl eq_refl))
                ltac:(lia) ltac:(simpl; lia)) as [H1 H2].
  split.
  - exact H1.
  - exact (H2 x02 x00 (sample_valid x02 (or_intror eq_refl))).
Defined.

(** C7 (amended).  [get_sync_messages_data] ignores the header line and maps
    every following line [Start Time for <label> @ <rate> Hz: <int>] (label
    free of [@], [:] and of a second line prefix, rate and first sample
    written in digits) to the normalised label, the integer first sample and
    the integer rate, later lines overwriting earlier ones with the same
    label.  The normalisation replaces every [") - "] by ["."] and then every
    [" ("] by ["-"]: a label [name (id) - rest] becomes [name-id.rest], and a
    label without parentheses, whatever its [" - "], is kept unchanged. *)
Theorem get_sync_messages_data_log (header : string)
    (fields : list (string * string * string)) :
  no_linebreak header = true ->
  forallb plain_fields fields = true ->
  get_sync_messages_data (log_text header fields) = Ok (dict_of fields)
  /\ (forall name id rest,
        mem_char "(" name = false -> mem_char ")" name = false ->
        mem_char "(" id = false -> mem_char ")" id = false ->
        mem_char "(" rest = false -> mem_char ")" rest = false ->
        normalize (name ++ " (" ++ id ++ ") - " ++ rest)
        = (name ++ "-" ++ id ++ "." ++ rest)%string)
  /\ (forall device,
        mem_char "(" device = false -> mem_char ")" device = false ->
        normalize device = device).
Proof.
  intros Hh Hf. split; [| split].
  - unfold get_sync_messages_data, log_text.
    rewrite SyncMessagesFacts.splitlines_line by exact Hh.
    cbn [List.tl]. rewrite SyncMessagesFacts.splitlines_log_body by exact Hf.
    now apply SyncMessagesFacts.comprehend_fields.
  - apply SyncMessagesFacts.normalize_documented.
  - apply SyncMessagesFacts.normalize_plain.
Qed.

(** The log of the docstring: one NI-DAQmx line after the header. *)
Lemma get_sync_messages_data_log_witness :
  get_sync_messages_data
    (log_text "Software Time (milliseconds since midnight Jan 1st 1970 UTC): 1691089461311"
       [("NI-DAQmx-105.PXI-6133", "30000", "257417001")])
  = Ok [("NI-DAQmx-105.PXI-6133", SyncEntry 257417001 30000)].
Proof.
  exact (proj1 (get_sync_messages_data_log
    "Software Time (milliseconds since midnight Jan 1st 1970 UTC): 1691089461311"
    [("NI-DAQmx-105.PXI-6133", "30000", "257417001")] eq_refl eq_refl)).
Defined.

(** C7, as stated, fails: a [" - "] that no [")"] precedes stays in the
    label, where the worded normalisation turns it into ["."]. *)
Lemma get_sync_messages_data_keeps_dash :
  get_sync_messages_data
    (log_text "Software Time: 1" [("NI-DAQmx - PXI-6133", "30000", "257417001")])
  = Ok [("NI-DAQmx - PXI-6133", SyncEntry 257417001 30000)]
  /\ normalize_as_worded "NI-DAQmx - PXI-6133" = "NI-DAQmx.PXI-6133"
  /\ normalize_as_worded "NI-DAQmx (109)" = "NI-DAQmx-109"
  /\ normalize "NI-DAQmx (109)" = "NI-DAQmx-109)".
Proof. repeat split; vm_compute; reflexivity. Qed.

(** C2, a defect of the code.  A device listed in the acquisition log whose
    continuous-data folder exists but whose events folder holds no [TTL*]
    subfolder is not skipped by [get_ephys_timing_on_pxi]:
    [next(events.glob("TTL*"))] has no default, and the iteration ends at
    this device with a [RuntimeError], after the timings of the devices
    listed before it.  The devices listed after it and the recording
    folders that follow are never reached.  The guard two lines above skips
    a device whose continuous-data folder is missing. *)
Theorem get_ephys_timing_on_pxi_missing_ttl (fs : filesystem) (np : numpy)
    (clipped_path_to_compressed : PyPath.path -> result PyPath.path)
    (only_devices_including : option string)
    (recording_dir : PyPath.path) (later : list PyPath.path) (text : string)
    (data : list (string * sync_entry))
    (before : list string) (device : string) (after : list string) :
  let body := Devices.device_body fs np clipped_path_to_compressed recording_dir
                data only_devices_including in
  Fs.read_text fs (PyPath.child recording_dir "sync_messages.txt") = Ok text ->
  get_sync_messages_data text = Ok data ->
  map fst data = before ++ device :: after ->
  raised (gen_for_list before body) = None ->
  Devices.filtered_out only_devices_including device = false ->
  Fs.exists_ fs (PyPath.child (PyPath.child recording_dir "continuous") device)
  = true ->
  Fs.glob fs (PyPath.child (PyPath.child recording_dir "events") device) "TTL*"
  = [] ->
  Devices.get_ephys_timing_on_pxi fs np clipped_path_to_compressed
    (recording_dir :: later) only_devices_including
  = Gen (yielded (gen_for_list before body)) (Some RuntimeError).
Proof.
  intros body Ht Hd Hsplit Hb Hf Hex Hglob.
  assert (Hdev : body device = gen_raise RuntimeError).
  { unfold body, Devices.device_body. now rewrite Hf, Hex, Hglob. }
  unfold Devices.get_ephys_timing_on_pxi. cbn [gen_for_list].
  unfold Devices.recording_body. rewrite Ht. cbn [rbind]. rewrite Hd.
  cbn [gen_try]. rewrite Hsplit. fold body.
  rewrite GenLaws.gen_for_list_app, Hb. cbn [gen_for_list].
  rewrite Hdev. cbn. now rewrite app_nil_r.
Qed.

(** A recording whose log lists a probe and the digitizer; the probe has its
    continuous-data folder and an events folder without [TTL*] subfolder.
    Nothing is yielded, the digitizer, which lacks nothing, included. *)
Lemma get_ephys_timing_on_pxi_missing_ttl_witness :
  let fs := Fs.of_tree Samples.probe_without_ttl_tree in
  Fs.exists_ fs (Samples.descend Samples.recording ["continuous"; "ProbeA-AP"]) = true
  /\ Fs.is_dir fs (Samples.descend Samples.recording ["events"; "ProbeA-AP"]) = true
  /\ Fs.glob fs (Samples.descend Samples.recording ["events"; "ProbeA-AP"]) "TTL*" = []
  /\ Devices.get_ephys_timing_on_pxi fs numpy_model Samples.no_compressed
       [Samples.recording] None
     = Gen [] (Some RuntimeError).
Proof.
  intros fs. split; [vm_compute; reflexivity |]. split; [vm_compute; reflexivity |].
  split; [vm_compute; reflexivity |].
  refine (get_ephys_timing_on_pxi_missing_ttl fs numpy_model Samples.no_compressed
            None Samples.recording [] (string_of_list_byte Samples.log)
            [("ProbeA-AP", SyncEntry 100 30000);
             ("NI-DAQmx-105.PXI-6133", SyncEntry 257417001 30000)]
            [] "ProbeA-AP" ["NI-DAQmx-105.PXI-6133"] _ _ eq_refl eq_refl eq_refl _ _);
    vm_compute; reflexivity.
Defined.

(** C6.  Once the reference clock is read, the reconciler goes through the
    devices it processes, those given or, when none is given, those the
    resolver finds in the recording folders.  The timings yielded are, in
    order, those of a first stretch of these devices: each has the device of
    its timing, a [start_time] equal to the negation of the time offset the
    external estimator returns when called with acquisition start index 0,
    and a [sampling_rate] equal to the estimator's rate, unless that rate is
    NaN or not finite: then it is the device's nominal rate.  A device for
    which the estimator returns, with whatever rate, is yielded at its
    position when the devices before it are, without an exception; when the
    estimator returns for every device all of them are yielded, and the
    iteration ends as the stream of devices does. *)
Theorem get_ephys_timing_on_sync_reconciles (fs : filesystem) (np : numpy)
    (clipped_path_to_compressed : PyPath.path -> result PyPath.path)
    (read_sync_file : PyPath.path -> result Sync.sync_dataset)
    (barcodes : Type)
    (extract_barcodes_from_times :
       list PyFloat.float -> list PyFloat.float -> PyFloat.float -> result barcodes)
    (get_probe_time_offset :
       barcodes -> barcodes -> Z -> PyFloat.float
       -> result (PyFloat.float * PyFloat.float))
    (sync : Sync.sync_path_or_dataset) (ds : Sync.sync_dataset) (master : barcodes)
    (recording_dirs : option (list PyPath.path))
    (devices : option (list Devices.EphysTimingInfoOnPXI))
    (only_devices_including : option string) :
  let on_sync :=
    Sync.get_ephys_timing_on_sync fs np clipped_path_to_compressed
      read_sync_file barcodes extract_barcodes_from_times get_probe_time_offset
      sync recording_dirs devices only_devices_including in
  let source :=
    if Sync.truthy recording_dirs && negb (Sync.truthy devices)
    then Devices.get_ephys_timing_on_pxi fs np clipped_path_to_compressed
           (default [] recording_dirs) only_devices_including
    else Gen (default [] devices) None in
  let processed := yielded source in
  let estimate := fun info probe timeshift rate =>
    Sync.ephys_barcodes barcodes extract_barcodes_from_times info = Ok probe
    /\ get_probe_time_offset master probe 0%Z (Devices.sampling_rate info)
       = Ok (timeshift, rate) in
  let estimated := fun info =>
    exists probe timeshift rate, estimate info probe timeshift rate in
  let reconciles := fun info y =>
    exists probe timeshift rate,
      estimate info probe timeshift rate
      /\ y = Sync.reconciled info timeshift rate
      /\ Sync.sync_device y = Devices.device info
      /\ Sync.sync_start_time y = PyFloat.neg timeshift
      /\ Sync.sync_sampling_rate y
         = (if PyFloat.isnan rate || negb (PyFloat.isfinite rate)
            then Devices.sampling_rate info else rate) in
  Sync.truthy recording_dirs || Sync.truthy devices = true ->
  Sync.get_sync_data read_sync_file sync = Ok ds ->
  extract_barcodes_from_times (Sync.rising_edges ds) (Sync.falling_edges ds)
    (Sync.total_seconds ds) = Ok master ->
  (length (yielded on_sync) <= length processed
   /\ Forall2 reconciles (take (length (yielded on_sync)) processed)
        (yielded on_sync))
  /\ (forall i info probe timeshift rate,
        processed !! i = Some info ->
        Forall estimated (take i processed) ->
        estimate info probe timeshift rate ->
        yielded on_sync !! i = Some (Sync.reconciled info timeshift rate)
        /\ Sync.sync_start_time (Sync.reconciled info timeshift rate)
           = PyFloat.neg timeshift
        /\ Sync.sync_sampling_rate (Sync.reconciled info timeshift rate)
           = (if PyFloat.isnan rate || negb (PyFloat.isfinite rate)
              then Devices.sampling_rate info else rate))
  /\ (Forall estimated processed ->
      length (yielded on_sync) = length processed
      /\ raised on_sync = raised source)
  /\ (raised on_sync = None -> length (yielded on_sync) = length processed).
Proof.
  intros on_sync source processed estimate estimated reconciles Ht Hs Hm.
  set (body := Sync.reconcile_body barcodes extract_barcodes_from_times
                 get_probe_time_offset master).
  assert (E : on_sync = gen_for source body).
  { unfold on_sync, source, body.
    now apply ReconcileLoopFacts.on_sync_source with (ds := ds). }
  assert (Ey : yielded on_sync = yielded (gen_for_list processed body)).
  { rewrite E. apply SyncFacts.yielded_gen_for. }
  assert (Hok : forall info, estimated info ->
                  exists w, body info = gen_yield w).
  { intros info (probe & timeshift & rate & Hp & He).
    exists (Sync.reconciled info timeshift rate).
    now apply SyncFacts.reconcile_body_ok with (probe := probe). }
  destruct (ReconcilerFacts.gen_for_list_prefix reconciles processed body)
    as (k & Hk & Hf & Hn).
  { intros info.
    destruct (ReconcileLoopFacts.reconcile_body_cases barcodes
                extract_barcodes_from_times get_probe_time_offset master info)
      as [(probe & timeshift & rate & Hp & He & Hb) | Hr]; [left | now right].
    exists (Sync.reconciled info timeshift rate). split; [exact Hb |].
    exists probe, timeshift, rate. now repeat split. }
  assert (Hlen : length (yielded on_sync) = k).
  { rewrite Ey. apply Forall2_length in Hf. rewrite length_take in Hf. lia. }
  assert (Hall : Forall estimated processed ->
                 raised (gen_for_list processed body) = None).
  { intros Hall. apply GenLaws.raised_gen_for_list_None. intros info Hin.
    rewrite Forall_forall in Hall.
    destruct (Hok info (Hall info Hin)) as [w ->]. reflexivity. }
  split; [| split; [| split]].
  - rewrite Hlen. split; [exact Hk |]. now rewrite Ey.
  - intros i info probe timeshift rate Hi Hb [Hp He].
    split; [| split; reflexivity]. rewrite Ey.
    apply (ReconcileLoopFacts.gen_for_list_lookup processed body i info).
    + exact Hi.
    + eapply Forall_impl; [exact Hb | exact Hok].
    + now apply SyncFacts.reconcile_body_ok with (probe := probe).
  - intros Hest. specialize (Hall Hest). split.
    + rewrite Hlen. now apply Hn.
    + rewrite E. now apply ReconcileLoopFacts.raised_gen_for.
  - intros Hr. rewrite Hlen. apply Hn.
    rewrite E in Hr. now apply ReconcileLoopFacts.raised_gen_for_None.
Qed.

(** The call of the docstring, on the sample recording: the devices come
    from the recording folder, where the resolver finds the digitizer.  The
    estimator returns a NaN rate: the digitizer is yielded all the same, with
    its nominal rate, 30000 Hz, and a start time of -20 s. *)
Lemma get_ephys_timing_on_sync_reconciles_witness :
  yielded
    (Sync.get_ephys_timing_on_sync (Fs.of_tree Samples.recorded_tree) numpy_model
       Samples.no_compressed Samples.no_sync_file (list PyFloat.float)
       Samples.keep_rising Samples.estimate_nothing
       (Sync.SyncDataset Samples.empty_dataset) (Some [Samples.recording])
       None None) !! 0
  = Some {| Sync.sync_device := Devices.device Samples.digitizer;
            Sync.sync_sampling_rate := PyFloat.of_int 30000;
            Sync.sync_start_time := PyFloat.neg (PyFloat.of_int 20) |}.
Proof.
  refine (proj1 (proj1 (proj2 (get_ephys_timing_on_sync_reconciles
    (Fs.of_tree Samples.recorded_tree) numpy_model Samples.no_compressed
    Samples.no_sync_file (list PyFloat.float) Samples.keep_rising
    Samples.estimate_nothing (Sync.SyncDataset Samples.empty_dataset)
    Samples.empty_dataset [] (Some [Samples.recording]) None None
    eq_refl eq_refl eq_refl))
    0 Samples.digitizer
    [PyFloat.div (PyFloat.of_int 10) (PyFloat.of_int 30000)]
    (PyFloat.of_int 20) S754_nan _ _ _)).
  - vm_compute. reflexivity.
  - constructor.
  - split; vm_compute; reflexivity.
Defined.

(** C3.  Under a directory with exactly one [structure*.oebin] manifest,
    [get_single_oebin_path] returns it (and nothing is superfluous); with two
    or more, it returns the manifest whose containing folder has the largest
    total size, the first one met among equals, and
    [get_superfluous_oebin_paths] returns exactly the other manifests, each
    once. *)
Theorem get_single_oebin_path_selects (fs : filesystem) (p : PyPath.path) :
  Fs.is_dir fs p = true ->
  NoDup (fs_paths fs) ->
  (forall q, Fs.rglob fs p "structure*.oebin" = [q] ->
     Topology.get_single_oebin_path fs p = Ok q
     /\ Topology.get_superfluous_oebin_paths fs p = Ok [])
  /\ (2 <= length (Fs.rglob fs p "structure*.oebin") ->
      exists i q sup,
        Fs.rglob fs p "structure*.oebin" !! i = Some q
        /\ Topology.get_single_oebin_path fs p = Ok q
        /\ (forall q', q' ∈ Fs.rglob fs p "structure*.oebin" ->
              (Topology.dir_size fs q' <= Topology.dir_size fs q)%Z)
        /\ (forall j q', j < i ->
              Fs.rglob fs p "structure*.oebin" !! j = Some q' ->
              (Topology.dir_size fs q' < Topology.dir_size fs q)%Z)
        /\ Topology.get_superfluous_oebin_paths fs p = Ok sup
        /\ (forall q', q' ∈ sup <->
              q' ∈ Fs.rglob fs p "structure*.oebin" /\ q' <> q)
        /\ NoDup sup
        /\ length sup = length (Fs.rglob fs p "structure*.oebin") - 1).
Proof.
  intros Hdir Hnd. split.
  - intros q Hq. split.
    + now apply TopologyFacts.get_single_oebin_path_one.
    + unfold Topology.get_superfluous_oebin_paths. now rewrite Hq.
  - intros Hlen.
    destruct (TopologyFacts.get_single_oebin_path_many fs p Hdir Hlen)
      as (i & q & Hi & Hsingle & Hmax & Hfirst).
    assert (Hin : q ∈ Fs.rglob fs p "structure*.oebin")
      by (apply list_elem_of_lookup; now exists i).
    pose proof (TopologyFacts.elements_without _ q
                  (TopologyFacts.rglob_NoDup fs p _ Hnd) Hin) as (Hsup & Hnds & Hls).
    exists i, q,
      (elements ((list_to_set (Fs.rglob fs p "structure*.oebin") : gset PyPath.path)
                 ∖ {[ q ]})).
    repeat split; try assumption.
    + unfold Topology.get_superfluous_oebin_paths.
      destruct (Nat.eqb_spec (length (Fs.rglob fs p "structure*.oebin")) 1); [lia |].
      rewrite Hsingle. reflexivity.
    + now apply Hsup.
    + now apply Hsup.
    + now apply Hsup.
Qed.

(** The sample record node: the manifest of [recording1], the larger
    folder, is chosen and the one of [recording2] is superfluous. *)
Lemma get_single_oebin_path_selects_witness :
  exists i q sup,
    Fs.rglob (Fs.of_tree Samples.session_tree) Samples.node "structure*.oebin" !! i
    = Some q
    /\ q = Samples.descend Samples.node ["experiment1"; "recording1"; "structure.oebin"]
    /\ Topology.get_single_oebin_path (Fs.of_tree Samples.session_tree) Samples.node
       = Ok q
    /\ Topology.get_superfluous_oebin_paths (Fs.of_tree Samples.session_tree)
         Samples.node = Ok sup
    /\ length sup = 1.
Proof.
  assert (Hdir : Fs.is_dir (Fs.of_tree Samples.session_tree) Samples.node = true)
    by (vm_compute; reflexivity).
  assert (Hnd : NoDup (fs_paths (Fs.of_tree Samples.session_tree)))
    by (apply (bool_decide_unpack _); vm_compute; exact I).
  destruct (proj2 (get_single_oebin_path_selects
                     (Fs.of_tree Samples.session_tree) Samples.node Hdir Hnd))
    as (i & q & sup & Hi & Hq & _ & _ & Hsup & _ & _ & Hlen).
  - vm_compute. lia.
  - exists i, q, sup. repeat split; try assumption.
    assert (E : Topology.get_single_oebin_path (Fs.of_tree Samples.session_tree)
                  Samples.node
                = Ok (Samples.descend Samples.node
                        ["experiment1"; "recording1"; "structure.oebin"]))
      by (vm_compute; reflexivity).
    rewrite E in Hq. now injection Hq.
Defined.

(** C8.  Every pair the kept-path enumerator yields comes from a record node
    under the top-level folder: the relative path is the absolute path made
    relative to the node's parent, so it starts with the node's folder name;
    and no folder of a superfluous manifest of that node is among the
    ancestors of the absolute path. *)
Theorem kept_paths_are_anchored_and_kept (fs : filesystem)
    (toplevel_ephys_path abs_path rel_path : PyPath.path) :
  (abs_path, rel_path)
    ∈ yielded (Topology.get_filtered_ephys_paths_relative_to_record_node_parents
                 fs toplevel_ephys_path) ->
  exists record_node superfluous,
    record_node ∈ Fs.rglob fs toplevel_ephys_path "Record Node*"
    /\ Fs.beneath record_node abs_path = true
    /\ Topology.get_superfluous_oebin_paths fs record_node = Ok superfluous
    /\ PyPath.relative_to abs_path (PyPath.parent record_node) = Ok rel_path
    /\ rel_path
       = PyPath.Path ""
           (PyPath.name record_node
            :: drop (length (PyPath.parts record_node)) (PyPath.parts abs_path))
    /\ (forall q, q ∈ superfluous ->
          PyPath.parent q ∉ PyPath.parents abs_path).
Proof.
  unfold Topology.get_filtered_ephys_paths_relative_to_record_node_parents.
  intros (rn & Hrn & H)%GenFacts.yielded_gen_for_list.
  apply TopologyFacts.record_node_body_yields in H as (sup & Hsup & Ha & Hrel & Hs).
  pose proof (TopologyFacts.rglob_beneath fs _ _ _ Ha) as Hb.
  exists rn, sup. repeat split; try assumption.
  - apply (TopologyFacts.relative_to_parent rn abs_path rel_path Hb); [| exact Hrel].
    exact (TopologyFacts.beneath_nonempty _ _ (TopologyFacts.rglob_beneath fs _ _ _ Hrn)).
  - intros q Hq. apply (TopologyFacts.is_superfluous_path_false _ _ Hs).
    apply list_elem_of_fmap. now exists q.
Qed.

(** In the sample session the bulk file of [recording1] is kept, relative to
    the session folder. *)
Lemma kept_paths_are_anchored_and_kept_witness :
  exists record_node superfluous,
    record_node = Samples.node
    /\ Topology.get_superfluous_oebin_paths (Fs.of_tree Samples.session_tree)
         record_node = Ok superfluous
    /\ (forall q, q ∈ superfluous ->
          PyPath.parent q
          ∉ PyPath.parents
              (Samples.descend Samples.node
                 ["experiment1"; "recording1"; "continuous"; "ProbeA-AP";
                  "continuous.dat"])).
Proof.
  destruct (kept_paths_are_anchored_and_kept (Fs.of_tree Samples.session_tree)
              Samples.session
              (Samples.descend Samples.node
                 ["experiment1"; "recording1"; "continuous"; "ProbeA-AP";
                  "continuous.dat"])
              (PyPath.Path ""
                 ["Record Node 101"; "experiment1"; "recording1"; "continuous";
                  "ProbeA-AP"; "continuous.dat"]))
    as (rn & sup & Hrn & _ & Hsup & _ & _ & Hkept).
  - apply (bool_decide_unpack _). vm_compute. exact I.
  - exists rn, sup. repeat split; try assumption.
    assert (E : Fs.rglob (Fs.of_tree Samples.session_tree) Samples.session
                  "Record Node*" = [Samples.node]) by (vm_compute; reflexivity).
    rewrite E in Hrn. now apply list_elem_of_singleton in Hrn.
Defined.






(** C5.  For two or more manifest paths with the manifest extension whose
    settings files are there, [get_merged_oebin_file] raises the settings
    mismatch, an [AssertionError], exactly when the checksums of the settings
    files differ and their parsed contents, the creation date left out, differ
    too; the mismatch is then the outcome of the call, and nothing merged is
    returned. *)
Theorem get_merged_oebin_file_settings_mismatch (fs : filesystem)
    (json_loads : string -> option json) (checksum : list byte -> Z)
    (get_settings_xml_data : list byte -> Merge.settings_data)
    (paths : list PyPath.path) (exclude_probe_names : list string)
    (contents : list (list byte)) :
  let merge := Merge.get_merged_oebin_file fs json_loads checksum
                 get_settings_xml_data in
  2 <= length paths ->
  (forall p, p ∈ paths -> PyPath.suffix p = ".oebin") ->
  Merge.read_all fs (map Merge.settings_path paths) = Ok contents ->
  ((exists msg, merge paths exclude_probe_names = Err (AssertionError msg))
   <-> Merge.all_equal_first Z.eqb (map checksum contents) = false
       /\ Merge.all_equal_first Merge.settings_match
            (map get_settings_xml_data contents) = false)
  /\ (Merge.all_equal_first Z.eqb (map checksum contents) = false ->
      Merge.all_equal_first Merge.settings_match
        (map get_settings_xml_data contents) = false ->
      merge paths exclude_probe_names
      = Err (AssertionError
               (Merge.xml_mismatch_message (map Merge.settings_path paths)))).
Proof.
  intros merge Hlen Hsuf Hr.
  now apply MergeFacts.merge_settings_mismatch.
Qed.

(** Two halves recorded with different settings: the merge is refused.  *)
Lemma get_merged_oebin_file_settings_mismatch_witness :
  exists msg,
    Merge.get_merged_oebin_file
      (Fs.of_tree (Samples.split_tree "1a" "2b" "manifest ABC" "manifest DEF"))
      Samples.loads Samples.checksum Samples.parse_settings
      [Samples.oebin_abc; Samples.oebin_def] []
    = Err (AssertionError msg).
Proof.
  refine (proj2 (proj1 (get_merged_oebin_file_settings_mismatch
    (Fs.of_tree (Samples.split_tree "1a" "2b" "manifest ABC" "manifest DEF"))
    Samples.loads Samples.checksum Samples.parse_settings
    [Samples.oebin_abc; Samples.oebin_def] []
    [list_byte_of_string "1a"; list_byte_of_string "2b"] _ _ _)) _).
  - cbn. lia.
  - intros p Hp. apply elem_of_cons in Hp as [-> | Hp];
      [| apply list_elem_of_singleton in Hp as ->]; vm_compute; reflexivity.
  - vm_compute. reflexivity.
  - split; vm_compute; reflexivity.
Defined.

(** C9.  [validate_recording_folder] goes through the continuous-stream
    descriptors of the recording's manifest in order.  At the first
    descriptor for which the local resolver ends without a device, it raises
    an [AssertionError] naming the device and the recording path; at the
    first resolved device whose reconciliation with the supplied reference
    clock raises anything, it raises an [AssertionError] naming that device;
    and it returns normally exactly when every descriptor has a resolved
    device that, with a reference clock, is reconciled. *)
Theorem validate_recording_folder_outcomes (fs : filesystem) (np : numpy)
    (clipped_path_to_compressed : PyPath.path -> result PyPath.path)
    (json_loads : string -> option json)
    (read_sync_file : PyPath.path -> result Sync.sync_dataset)
    (barcodes : Type)
    (extract_barcodes_from_times :
       list PyFloat.float -> list PyFloat.float -> PyFloat.float -> result barcodes)
    (get_probe_time_offset :
       barcodes -> barcodes -> Z -> PyFloat.float
       -> result (PyFloat.float * PyFloat.float))
    (recording_path : PyPath.path)
    (sync_path_or_dataset : option Sync.sync_path_or_dataset)
    (sync : option Sync.sync_dataset) (oebin : json) (devices : list json) :
  let validate :=
    Validate.validate_recording_folder fs np clipped_path_to_compressed json_loads
      read_sync_file barcodes extract_barcodes_from_times get_probe_time_offset
      recording_path sync_path_or_dataset in
  let passes :=
    fun device =>
      Validate.validate_device fs np clipped_path_to_compressed read_sync_file
        barcodes extract_barcodes_from_times get_probe_time_offset
        recording_path sync device = Ok tt in
  let find_device := Validate.find_device fs np clipped_path_to_compressed in
  let reconcile_device :=
    Validate.reconcile_device fs np clipped_path_to_compressed read_sync_file
      barcodes extract_barcodes_from_times get_probe_time_offset in
  match sync_path_or_dataset with
  | Some s => do d <- Sync.get_sync_data read_sync_file s; Ok (Some d)
  | None => Ok None
  end = Ok sync ->
  Merge.get_oebin_data fs json_loads (PyPath.child recording_path "structure.oebin")
  = Ok oebin ->
  Json.getitem oebin "continuous" = Ok (JList devices) ->
  (forall before device after folder_name,
     devices = before ++ device :: after -> Forall passes before ->
     Json.getitem device "folder_name" = Ok (JStr folder_name) ->
     Devices.get_ephys_timing_on_pxi fs np clipped_path_to_compressed
       [recording_path] (Some (PyStr.strip "/" folder_name)) = Gen [] None ->
     validate
     = Err (AssertionError
              (Validate.device_not_found_message (PyStr.strip "/" folder_name)
                 recording_path)))
  /\ (forall before device after folder_name info sd exc,
        devices = before ++ device :: after -> Forall passes before ->
        Json.getitem device "folder_name" = Ok (JStr folder_name) ->
        find_device recording_path (PyStr.strip "/" folder_name) = Ok info ->
        sync = Some sd ->
        reconcile_device sd info = Err exc ->
        validate
        = Err (AssertionError
                 (Validate.sync_failed_message
                    (Devices.name (Devices.device info)))))
  /\ (validate = Ok tt
      <-> Forall
            (fun device =>
               exists folder_name info,
                 Json.getitem device "folder_name" = Ok (JStr folder_name)
                 /\ find_device recording_path (PyStr.strip "/" folder_name)
                    = Ok info
                 /\ (forall sd, sync = Some sd ->
                       exists t, reconcile_device sd info = Ok t))
            devices).
Proof.
  intros validate passes find_device reconcile_device Hs Ho Hc.
  assert (E : validate
              = Validate.validate_devices fs np clipped_path_to_compressed
                  read_sync_file barcodes extract_barcodes_from_times
                  get_probe_time_offset recording_path sync devices).
  { unfold validate, Validate.validate_recording_folder.
    rewrite Hs. cbn [rbind]. rewrite Ho. cbn [rbind]. now rewrite Hc. }
  rewrite E. split; [| split].
  - intros before device after folder_name -> Hb Hf Hg.
    apply ValidateFacts.validate_devices_first_failure; [exact Hb |].
    now apply ValidateFacts.validate_device_not_found.
  - intros before device after folder_name info sd exc -> Hb Hf Hi -> Hr.
    apply ValidateFacts.validate_devices_first_failure; [exact Hb |].
    now apply (ValidateFacts.validate_device_sync_failed _ _ _ _ _ _ _
                 recording_path sd device folder_name info exc).
  - rewrite ValidateFacts.validate_devices_ok. apply Forall_iff.
    intros device. apply ValidateFacts.validate_device_ok.
Qed.

(** The sample manifest names the digitizer and a probe; the digitizer is
    found, the probe, which was not recorded here, is not. *)
Lemma validate_recording_folder_outcomes_witness :
  Validate.validate_recording_folder
    (Fs.of_tree (Samples.recorded_tree_with "manifest of the digitizer and a probe"))
    numpy_model Samples.no_compressed Samples.loads Samples.no_sync_file
    (list PyFloat.float) Samples.keep_rising Samples.estimate_nothing
    Samples.recording None
  = Err (AssertionError
           "Could not find ProbeA-AP data in s3://session/Record Node 102/experiment1/recording1").
Proof.
  refine (proj1 (validate_recording_folder_outcomes
    (Fs.of_tree (Samples.recorded_tree_with "manifest of the digitizer and a probe"))
    numpy_model Samples.no_compressed Samples.loads Samples.no_sync_file
    (list PyFloat.float) Samples.keep_rising Samples.estimate_nothing
    Samples.recording None None
    (JDict [("continuous", JList [Samples.stream "NI-DAQmx-105.PXI-6133/" 8;
                                  Samples.stream "ProbeA-AP/" 384])])
    [Samples.stream "NI-DAQmx-105.PXI-6133/" 8; Samples.stream "ProbeA-AP/" 384]
    eq_refl _ eq_refl)
    [Samples.stream "NI-DAQmx-105.PXI-6133/" 8] (Samples.stream "ProbeA-AP/" 384)
    [] "ProbeA-AP/" eq_refl _ eq_refl _).
  - vm_compute. reflexivity.
  - constructor; [vm_compute; reflexivity | constructor].
  - vm_compute. reflexivity.
Defined.

(** * Further properties of the code *)

(** [get_ephys_timing_on_pxi], the name filter (lines 187-192).  Every device
    yielded under a non-empty [only_devices_including] has a name that
    contains it, letter case apart; an empty filter is no filter at all. *)
Theorem get_ephys_timing_on_pxi_name_filter (fs : filesystem) (np : numpy)
    (clipped_path_to_compressed : PyPath.path -> result PyPath.path)
    (recording_dirs : list PyPath.path) (only_devices_including : string) :
  (forall info,
     only_devices_including <> "" ->
     info ∈ yielded (Devices.get_ephys_timing_on_pxi fs np clipped_path_to_compressed
                       recording_dirs (Some only_devices_including)) ->
     PyStr.contains (PyStr.lower only_devices_including)
       (PyStr.lower (Devices.name (Devices.device info))) = true)
  /\ Devices.get_ephys_timing_on_pxi fs np clipped_path_to_compressed
       recording_dirs (Some "")
     = Devices.get_ephys_timing_on_pxi fs np clipped_path_to_compressed
         recording_dirs None.
Proof.
  split.
  - intros info Hne H.
    apply ResolverFacts.get_ephys_timing_on_pxi_yields_from in H
      as (d & text & data & dev & _ & _ & _ & H).
    apply DevicesFacts.device_body_yields in H as (Hn & _ & _ & Hf & _).
    rewrite Hn. unfold Devices.filtered_out in Hf.
    destruct (String.eqb_spec only_devices_including ""); [contradiction |].
    cbn [negb andb] in Hf. now apply negb_false_iff in Hf.
  - unfold Devices.get_ephys_timing_on_pxi. apply GenLaws.gen_for_list_ext.
    intros d _. unfold Devices.recording_body.
    destruct (do text <- Fs.read_text fs (PyPath.child d "sync_messages.txt");
              get_sync_messages_data text) as [data|e]; [| reflexivity].
    cbn [gen_try]. apply GenLaws.gen_for_list_ext. intros dev _.
    apply ResolverFacts.device_body_empty_filter.
Qed.

(** [get_ephys_timing_on_pxi], what is yielded (lines 182-237).  A timing
    yielded belongs to a device listed in the log of one of the recording
    folders.  Its first sample is the first entry of the device's
    [continuous/.../sample_numbers.npy], not the start the log reports; the
    pulse sample numbers are those of the file less that first sample; its
    rate is the log's rate as a float and its start time is 0; and the
    compressed path is absent exactly when [clipped_path_to_compressed]
    raised a [ValueError]. *)
Theorem get_ephys_timing_on_pxi_yields (fs : filesystem) (np : numpy)
    (clipped_path_to_compressed : PyPath.path -> result PyPath.path)
    (recording_dirs : list PyPath.path) (only_devices_including : option string)
    (info : Devices.EphysTimingInfoOnPXI) :
  info ∈ yielded (Devices.get_ephys_timing_on_pxi fs np clipped_path_to_compressed
                    recording_dirs only_devices_including) ->
  exists recording_dir text data entry raw,
    let device := Devices.device info in
    recording_dir ∈ recording_dirs
    /\ Fs.read_text fs (PyPath.child recording_dir "sync_messages.txt") = Ok text
    /\ get_sync_messages_data text = Ok data
    /\ dict_get (Devices.name device) data = Some entry
    /\ Devices.continuous device
       = PyPath.child (PyPath.child recording_dir "continuous") (Devices.name device)
    /\ Devices.events device
       = PyPath.child (PyPath.child recording_dir "events") (Devices.name device)
    /\ Devices.read_first_sample fs np
         (PyPath.child (Devices.continuous device) "sample_numbers.npy")
       = Ok (Devices.start_sample info)
    /\ Devices.sampling_rate info = PyFloat.of_int (se_rate entry)
    /\ Devices.start_time info = PyFloat.of_int 0
    /\ Devices.load_array fs np (PyPath.child (Devices.ttl device) "sample_numbers.npy")
       = Ok raw
    /\ Devices.ttl_sample_numbers device
       = map (fun n => (n - Devices.start_sample info)%Z) raw
    /\ Devices.load_array fs np (PyPath.child (Devices.ttl device) "states.npy")
       = Ok (Devices.ttl_states device)
    /\ match Devices.compressed device with
       | Some p => clipped_path_to_compressed (Devices.continuous device) = Ok p
       | None => clipped_path_to_compressed (Devices.continuous device) = Err ValueError
       end.
Proof.
  intros H.
  apply ResolverFacts.get_ephys_timing_on_pxi_yields_from in H
    as (d & text & data & dev & Hd & Ht & Hdata & H).
  apply ResolverFacts.device_body_fields in H
    as (entry & raw & Hn & He & Hc & Hev & Hf & Hr & Hs & Hraw & Httl & Hst & Hcomp).
  exists d, text, data, entry, raw. cbn zeta. rewrite Hn.
  repeat split; assumption.
Qed.

(** The sample digitizer: the log and the file agree on its first sample,
    257417001, and the pulses at 257417011 and 257417021 become 10 and 20. *)
Lemma get_ephys_timing_on_pxi_yields_witness :
  exists recording_dir text data entry raw,
    recording_dir ∈ [Samples.recording]
    /\ Fs.read_text (Fs.of_tree Samples.recorded_tree)
         (PyPath.child recording_dir "sync_messages.txt") = Ok text
    /\ get_sync_messages_data text = Ok data
    /\ dict_get "NI-DAQmx-105.PXI-6133" data = Some entry
    /\ PyFloat.of_int 30000 = PyFloat.of_int (se_rate entry)
    /\ Devices.load_array (Fs.of_tree Samples.recorded_tree) numpy_model
         (PyPath.child (Devices.ttl (Devices.device Samples.digitizer))
            "sample_numbers.npy") = Ok raw
    /\ [10; 20]%Z = map (fun n => (n - 257417001)%Z) raw.
Proof.
  destruct (get_ephys_timing_on_pxi_yields (Fs.of_tree Samples.recorded_tree)
              numpy_model Samples.no_compressed [Samples.recording] None
              Samples.digitizer)
    as (d & text & data & entry & raw & Hd & Ht & Hdata & He & _ & _ & _ & Hr & _
        & Hraw & Httl & _).
  - assert (E : yielded (Devices.get_ephys_timing_on_pxi
                           (Fs.of_tree Samples.recorded_tree) numpy_model
                           Samples.no_compressed [Samples.recording] None)
                = [Samples.digitizer]) by (vm_compute; reflexivity).
    rewrite E. left.
  - exists d, text, data, entry, raw. repeat split; assumption.
Defined.

(** [get_ephys_timing_on_pxi], a recording folder without its log (lines
    182-186).  The devices of the folders before it are yielded, then the
    iteration ends with a [FileNotFoundError]: nothing is yielded for the
    folders after it. *)
Theorem get_ephys_timing_on_pxi_missing_log (fs : filesystem) (np : numpy)
    (clipped_path_to_compressed : PyPath.path -> result PyPath.path)
    (before after : list PyPath.path) (recording_dir : PyPath.path)
    (only_devices_including : option string) :
  let resolve := Devices.get_ephys_timing_on_pxi fs np clipped_path_to_compressed in
  raised (resolve before only_devices_including) = None ->
  Fs.exists_ fs (PyPath.child recording_dir "sync_messages.txt") = false ->
  resolve (before ++ recording_dir :: after) only_devices_including
  = Gen (yielded (resolve before only_devices_including)) (Some FileNotFoundError).
Proof.
  intros resolve Hb He.
  assert (Hf : Fs.is_file fs (PyPath.child recording_dir "sync_messages.txt") = false)
    by (unfold Fs.is_file; now rewrite He).
  unfold resolve, Devices.get_ephys_timing_on_pxi in *.
  rewrite GenLaws.gen_for_list_app, Hb. cbn [gen_for_list].
  rewrite (ResolverFacts.recording_body_missing_log _ _ _ _ _ Hf).
  cbn [gen_raise raised yielded]. now rewrite app_nil_r.
Qed.

(** The sample recording, then a folder that does not exist. *)
Lemma get_ephys_timing_on_pxi_missing_log_witness :
  Devices.get_ephys_timing_on_pxi (Fs.of_tree Samples.recorded_tree) numpy_model
    Samples.no_compressed
    [Samples.recording; Samples.descend Samples.recording ["recording2"]] None
  = Gen [Samples.digitizer] (Some FileNotFoundError).
Proof.
  exact (get_ephys_timing_on_pxi_missing_log (Fs.of_tree Samples.recorded_tree)
           numpy_model Samples.no_compressed [Samples.recording] []
           (Samples.descend Samples.recording ["recording2"]) None
           eq_refl eq_refl).
Defined.

(** [get_pxi_nidaq_info] (lines 344-367).  It returns a device exactly when
    the resolver, filtered on [NI-DAQmx-], yields that single device and ends
    normally; the device's name then contains [ni-daqmx-], letter case
    apart, and its continuous-data folder exists.  No device or several
    devices are a [FileNotFoundError], and an exception of the resolver is the
    outcome of the call. *)
Theorem get_pxi_nidaq_info_single (fs : filesystem) (np : numpy)
    (clipped_path_to_compressed : PyPath.path -> result PyPath.path)
    (recording_dir : list PyPath.path) :
  let found := Devices.get_ephys_timing_on_pxi fs np clipped_path_to_compressed
                 recording_dir (Some "NI-DAQmx-") in
  let nidaq := Nidaq.get_pxi_nidaq_info fs np clipped_path_to_compressed
                 recording_dir in
  (forall info, nidaq = Ok info <-> found = Gen [info] None)
  /\ (forall info, nidaq = Ok info ->
        PyStr.contains "ni-daqmx-" (PyStr.lower (Devices.name (Devices.device info)))
        = true
        /\ Fs.exists_ fs (Devices.continuous (Devices.device info)) = true)
  /\ (raised found = None -> length (yielded found) <> 1 ->
      nidaq = Err FileNotFoundError)
  /\ (forall e, raised found = Some e -> nidaq = Err e).
Proof.
  intros found nidaq.
  assert (Hiff : forall info, nidaq = Ok info <-> found = Gen [info] None).
  { intros info. unfold nidaq, Nidaq.get_pxi_nidaq_info, Nidaq.tuple_of.
    fold found. destruct found as [[|x [|y ys]] [e|]]; cbn;
      split; intros H; try discriminate; congruence. }
  split; [exact Hiff |]. split; [| split].
  - intros info Hinfo. apply Hiff in Hinfo.
    assert (Hin : info ∈ yielded found) by (rewrite Hinfo; left).
    unfold found in Hin.
    apply ResolverFacts.get_ephys_timing_on_pxi_yields_from in Hin
      as (d & text & data & dev & _ & _ & _ & H).
    apply DevicesFacts.device_body_yields in H as (Hn & _ & Hex & Hf & _).
    split; [| exact Hex]. rewrite Hn. unfold Devices.filtered_out in Hf.
    cbn [String.eqb Ascii.eqb negb andb] in Hf.
    now apply negb_false_iff in Hf.
  - unfold nidaq, Nidaq.get_pxi_nidaq_info, Nidaq.tuple_of. fold found.
    intros ->. cbn [rbind]. destruct (yielded found) as [|x [|y ys]]; cbn; congruence.
  - unfold nidaq, Nidaq.get_pxi_nidaq_info, Nidaq.tuple_of. fold found.
    now intros e ->.
Qed.

(** [get_ephys_timing_on_sync], its arguments (lines 389-413).  With neither
    recording folders nor devices the iteration ends with a [ValueError]
    before the reference clock is opened; devices, when given, are the ones
    reconciled, whatever the recording folders and the name filter; and the
    timings yielded are those of a first stretch of the devices, one each and
    in their order, of all of them when the iteration ends normally. *)
Theorem get_ephys_timing_on_sync_arguments (fs : filesystem) (np : numpy)
    (clipped_path_to_compressed : PyPath.path -> result PyPath.path)
    (read_sync_file : PyPath.path -> result Sync.sync_dataset)
    (barcodes : Type)
    (extract_barcodes_from_times :
       list PyFloat.float -> list PyFloat.float -> PyFloat.float -> result barcodes)
    (get_probe_time_offset :
       barcodes -> barcodes -> Z -> PyFloat.float
       -> result (PyFloat.float * PyFloat.float))
    (sync : Sync.sync_path_or_dataset)
    (recording_dirs : option (list PyPath.path))
    (only_devices_including : option string) :
  let on_sync :=
    Sync.get_ephys_timing_on_sync fs np clipped_path_to_compressed
      read_sync_file barcodes extract_barcodes_from_times get_probe_time_offset in
  (forall devices,
     Sync.truthy recording_dirs = false -> Sync.truthy devices = false ->
     on_sync sync recording_dirs devices only_devices_including
     = gen_raise ValueError)
  /\ (forall info rest,
        on_sync sync recording_dirs (Some (info :: rest)) only_devices_including
        = on_sync sync None (Some (info :: rest)) None)
  /\ (forall info rest,
        let g := on_sync sync recording_dirs (Some (info :: rest))
                   only_devices_including in
        exists k,
          k <= length (info :: rest)
          /\ map Sync.sync_device (yielded g)
             = map Devices.device (take k (info :: rest))
          /\ (raised g = None -> k = length (info :: rest))).
Proof.
  intros on_sync.
  assert (Hdev : forall info rest,
            on_sync sync recording_dirs (Some (info :: rest)) only_devices_including
            = on_sync sync None (Some (info :: rest)) None).
  { intros info rest. unfold on_sync, Sync.get_ephys_timing_on_sync.
    cbn [Sync.truthy negb andb orb]. rewrite !orb_true_r, !andb_false_r.
    reflexivity. }
  split; [| split; [exact Hdev |]].
  - intros devices Hr Hd. unfold on_sync, Sync.get_ephys_timing_on_sync.
    now rewrite Hr, Hd.
  - intros info rest g. unfold g. rewrite Hdev.
    unfold on_sync, Sync.get_ephys_timing_on_sync. cbn [Sync.truthy negb andb orb].
    destruct (Sync.get_sync_data read_sync_file sync) as [ds|e]; cbn [gen_try];
      [| exists 0; cbn; split; [lia | split; [reflexivity | discriminate]]].
    destruct (extract_barcodes_from_times _ _ _) as [master|e]; cbn [gen_try];
      [| exists 0; cbn; split; [lia | split; [reflexivity | discriminate]]].
    set (body := Sync.reconcile_body barcodes extract_barcodes_from_times
                   get_probe_time_offset master).
    change (gen_for _ body) with (gen_for (Gen (info :: rest) None) body).
    assert (E : gen_for (Gen (info :: rest) None) body
                = gen_for_list (info :: rest) body).
    { unfold gen_for. cbn [yielded raised].
      destruct (gen_for_list (info :: rest) body) as [ys [e|]]; reflexivity. }
    rewrite E.
    destruct (ReconcilerFacts.gen_for_list_prefix
                (fun x y => Sync.sync_device y = Devices.device x)
                (info :: rest) body) as (k & Hk & Hf & Hn).
    { intros x. apply ReconcilerFacts.reconcile_body_shape. }
    exists k. split; [exact Hk |]. split; [| exact Hn].
    clear -Hf. induction Hf as [|x y xs ys Hxy _ IH]; [reflexivity |].
    cbn [map]. now rewrite Hxy, IH.
Qed.

(** [get_ephys_root], the root returned (lines 492-506).  The call returns
    exactly when the path's text holds [Record Node] and some component
    before the last one holds [record node], letter case apart; the root is
    then the path above the innermost such component.  The last component
    is never looked at. *)
Theorem get_ephys_root_innermost (p r : PyPath.path) :
  Topology.get_ephys_root p = Ok r
  <-> PyStr.contains "Record Node" (PyPath.as_posix p) = true
      /\ exists i node,
           PyPath.parts p !! i = Some node
           /\ S i < length (PyPath.parts p)
           /\ PyStr.contains "record node" (PyStr.lower node) = true
           /\ r = PyPath.Path (PyPath.anchor p) (take i (PyPath.parts p))
           /\ (forall j name,
                 i < j -> S j < length (PyPath.parts p) ->
                 PyPath.parts p !! j = Some name ->
                 PyStr.contains "record node" (PyStr.lower name) = false).
Proof.
  rewrite RootFacts.get_ephys_root_head.
  destruct (PyStr.contains "Record Node" (PyPath.as_posix p)); cbn [negb];
    [| split; [discriminate | intros [? _]; discriminate]].
  destruct (head _) as [q|] eqn:Eh.
  - apply RootFacts.nearest_record_node in Eh
      as (i & node & Hnode & Hi & Hf & -> & Hno).
    assert (Hpar : PyPath.parent (PyPath.Path (PyPath.anchor p)
                                    (take (S i) (PyPath.parts p)))
                   = PyPath.Path (PyPath.anchor p) (take i (PyPath.parts p))).
    { unfold PyPath.parent. cbn [PyPath.anchor PyPath.parts].
      rewrite RootFacts.removelast_take by lia. reflexivity. }
    rewrite Hpar. split.
    + intros [= <-]. split; [reflexivity |]. now exists i, node.
    + intros [_ (i' & node' & Hnode' & Hi' & Hf' & -> & Hno')]. f_equal. f_equal.
      destruct (Nat.lt_trichotomy i i') as [Hlt | [-> | Hgt]]; [| reflexivity |].
      * specialize (Hno i' node' Hlt Hi' Hnode').
        rewrite RootFacts.node_like_eq in Hno. congruence.
      * specialize (Hno' i node Hgt Hi Hnode).
        rewrite RootFacts.node_like_eq in Hf. congruence.
  - split; [discriminate |]. intros [_ (i & node & Hnode & Hi & Hf & -> & Hno)].
    assert (Hh : head (List.filter (fun q => RootFacts.node_like (PyPath.name q))
                         (PyPath.parents p))
                 = Some (PyPath.Path (PyPath.anchor p) (take (S i) (PyPath.parts p)))).
    { apply RootFacts.nearest_record_node. exists i, node.
      repeat split; assumption. }
    congruence.
Qed.

(** The example of the docstring, and the innermost of two nested record
    nodes. *)
Lemma get_ephys_root_innermost_witness :
  Topology.get_ephys_root (PyPath.Path "A:/" ["test"; "Record Node 0"; "Record Node test"])
  = Ok (PyPath.Path "A:/" ["test"])
  /\ Topology.get_ephys_root
       (PyPath.Path "A:/" ["Record Node 1"; "x"; "Record Node 2"; "y"; "continuous.dat"])
     = Ok (PyPath.Path "A:/" ["Record Node 1"; "x"]).
Proof.
  split.
  - apply (proj2 (get_ephys_root_innermost
                    (PyPath.Path "A:/" ["test"; "Record Node 0"; "Record Node test"])
                    (PyPath.Path "A:/" ["test"]))).
    split; [reflexivity |]. exists 1, "Record Node 0".
    repeat split; try reflexivity; [cbn; lia |].
    intros j name Hj Hlen. cbn in Hlen. lia.
  - apply (proj2 (get_ephys_root_innermost
                    (PyPath.Path "A:/" ["Record Node 1"; "x"; "Record Node 2"; "y";
                                        "continuous.dat"])
                    (PyPath.Path "A:/" ["Record Node 1"; "x"]))).
    split; [reflexivity |]. exists 2, "Record Node 2".
    repeat split; try reflexivity; [cbn; lia |].
    intros j name Hj Hlen Hname. cbn in Hlen.
    assert (j = 3) as -> by lia. injection Hname as <-. reflexivity.
Defined.

(** [get_ephys_root], its failures (lines 500-506).  A [ValueError] is raised
    exactly when the path's text does not hold [Record Node], in this very
    letter case; a [StopIteration] exactly when it does but no component
    before the last holds [record node], as for the path of a record node
    folder itself; and there is no other failure. *)
Theorem get_ephys_root_failures (p : PyPath.path) :
  (Topology.get_ephys_root p = Err ValueError
   <-> PyStr.contains "Record Node" (PyPath.as_posix p) = false)
  /\ (Topology.get_ephys_root p = Err StopIteration
      <-> PyStr.contains "Record Node" (PyPath.as_posix p) = true
          /\ (forall i name,
                S i < length (PyPath.parts p) -> PyPath.parts p !! i = Some name ->
                PyStr.contains "record node" (PyStr.lower name) = false))
  /\ (forall e, Topology.get_ephys_root p = Err e ->
        e = ValueError \/ e = StopIteration).
Proof.
  rewrite RootFacts.get_ephys_root_head.
  destruct (PyStr.contains "Record Node" (PyPath.as_posix p)); cbn [negb].
  - destruct (head _) as [q|] eqn:Eh.
    + split; [split; discriminate |]. split; [| discriminate].
      split; [discriminate |]. intros [_ Hno].
      apply RootFacts.nearest_record_node in Eh
        as (i & node & Hnode & Hi & Hf & _).
      specialize (Hno i node Hi Hnode).
      rewrite RootFacts.node_like_eq in Hf. congruence.
    + split; [split; discriminate |]. split; [| intros e [= <-]; now right].
      split; [| reflexivity]. intros _. split; [reflexivity |].
      intros i name Hi Hname.
      pose proof (RootFacts.head_filter_None _ _ Eh _
                    (RootFacts.ancestor_in_parents p (S i) Hi)) as Hf.
      unfold PyPath.name in Hf. cbn [PyPath.parts] in Hf.
      now rewrite (RootFacts.last_take _ _ _ _ Hname) in Hf.
  - split; [split; reflexivity |]. split; [| intros e [= <-]; now left].
    split; [discriminate | intros [? _]; discriminate].
Qed.

(** [get_raw_ephys_subfolders], the roots returned (lines 584-605).  When
    the call returns, a folder is among the roots exactly when it is the
    root, as [get_ephys_root] finds it, of some [continuous.dat] beneath the
    path whose text holds none of [sorted], [extracted], [curated] and, with
    a threshold, its size is below it.  The call raises exactly when
    [get_ephys_root] raises on such a file, with the error of the first
    one. *)
Theorem get_raw_ephys_subfolders_members (fs : filesystem) (p : PyPath.path)
    (min_size_gb : option Q) :
  let files := Fs.rglob fs p "continuous.dat" in
  (forall roots,
     Topology.get_raw_ephys_subfolders fs p min_size_gb = Ok roots ->
     forall q,
       q ∈ roots
       <-> (exists f, f ∈ files /\ Topology.processed f = false
                      /\ Topology.get_ephys_root f = Ok q)
           /\ (forall m, min_size_gb = Some m ->
                 (inject_Z (fs_size fs q) < m * inject_Z (1024 ^ 3))%Q))
  /\ (forall e,
        Topology.get_raw_ephys_subfolders fs p min_size_gb = Err e
        <-> exists before f after,
              files = before ++ f :: after
              /\ Forall (fun g => Topology.processed g = true
                                  \/ exists r, Topology.get_ephys_root g = Ok r) before
              /\ Topology.processed f = false
              /\ Topology.get_ephys_root f = Err e).
Proof.
  intros files. unfold Topology.get_raw_ephys_subfolders. fold files. split.
  - intros roots.
    destruct (Topology.collect_roots files ∅) as [set|e] eqn:Ec; cbn [rbind];
      [| discriminate].
    intros [= <-] q. rewrite merge_sort_Permutation.
    pose proof (RootsFacts.collect_roots_members files ∅ set Ec q) as Hm.
    assert (Hset : q ∈ set
                   <-> exists f, f ∈ files /\ Topology.processed f = false
                                 /\ Topology.get_ephys_root f = Ok q).
    { rewrite Hm. split; [intros [H | H]; [set_solver | exact H] | now right]. }
    destruct min_size_gb as [m|].
    + rewrite list_elem_of_In, filter_In, <- list_elem_of_In, elem_of_elements, Hset,
        RootsFacts.below_iff.
      split.
      * intros [Hf Hb]. split; [exact Hf |]. now intros m' [= <-].
      * intros [Hf Hb]. split; [exact Hf | now apply Hb].
    + rewrite elem_of_elements, Hset. split; [| now intros [? _]].
      intros Hf. split; [exact Hf | discriminate].
  - intros e. rewrite <- (RootsFacts.collect_roots_error files ∅ e).
    destruct (Topology.collect_roots files ∅) as [set|e']; cbn [rbind];
      split; congruence.
Qed.

(** The sample session: the root of its two bulk files is the session
    folder. *)
Lemma get_raw_ephys_subfolders_members_witness :
  exists f,
    f ∈ Fs.rglob (Fs.of_tree Samples.session_tree) (PyPath.Path "A:/" [])
          "continuous.dat"
    /\ Topology.processed f = false
    /\ Topology.get_ephys_root f = Ok Samples.session.
Proof.
  apply (proj1 (get_raw_ephys_subfolders_members (Fs.of_tree Samples.session_tree)
                  (PyPath.Path "A:/" []) None) [Samples.session]
           ltac:(vm_compute; reflexivity) Samples.session).
  left.
Defined.

(** [get_filtered_ephys_paths_relative_to_record_node_parents], a whole run
    (lines 553-572).  The iteration ends normally exactly when, for every
    [Record Node*] match beneath the top-level folder,
    [get_superfluous_oebin_paths] returns; it ends with an exception exactly
    when that call raises it on a match and returns on every match listed
    before: the exception is the one of the first failing match, a
    [ValueError] when this match is not a directory and a
    [FileNotFoundError] when it has no manifest beneath it.  When it ends
    normally, the
    pairs yielded are exactly the paths beneath a match that have no folder
    of a superfluous manifest among their ancestors, each with its path
    relative to the parent of the match. *)
Theorem get_filtered_ephys_paths_complete (fs : filesystem)
    (toplevel_ephys_path : PyPath.path) :
  let g := Topology.get_filtered_ephys_paths_relative_to_record_node_parents
             fs toplevel_ephys_path in
  let record_nodes := Fs.rglob fs toplevel_ephys_path "Record Node*" in
  (raised g = None
   <-> forall record_node, record_node ∈ record_nodes ->
         exists sup, Topology.get_superfluous_oebin_paths fs record_node = Ok sup)
  /\ (forall e,
        raised g = Some e
        <-> exists before record_node after,
              record_nodes = before ++ record_node :: after
              /\ Forall (fun earlier =>
                           exists sup,
                             Topology.get_superfluous_oebin_paths fs earlier = Ok sup)
                   before
              /\ Topology.get_superfluous_oebin_paths fs record_node = Err e
              /\ length (Fs.rglob fs record_node "structure*.oebin") <> 1
              /\ (e = ValueError /\ Fs.is_dir fs record_node = false
                  \/ e = FileNotFoundError
                     /\ Fs.rglob fs record_node "structure*.oebin" = []))
  /\ (raised g = None ->
      forall abs_path rel_path,
        (abs_path, rel_path) ∈ yielded g
        <-> exists record_node sup,
              record_node ∈ record_nodes
              /\ Topology.get_superfluous_oebin_paths fs record_node = Ok sup
              /\ abs_path ∈ Fs.rglob fs record_node "*"
              /\ Topology.is_superfluous_path (map PyPath.parent sup) abs_path = false
              /\ PyPath.relative_to abs_path (PyPath.parent record_node)
                 = Ok rel_path).
Proof.
  intros g record_nodes.
  assert (Hbody : forall rn,
            raised (Topology.record_node_body fs rn) = None
            <-> exists sup, Topology.get_superfluous_oebin_paths fs rn = Ok sup).
  { intros rn.
    destruct (Topology.get_superfluous_oebin_paths fs rn) as [sup|e] eqn:Es.
    - split; [eauto |]. intros _. now apply (KeptFacts.record_node_body_run fs rn sup).
    - rewrite (KeptFacts.record_node_body_fail fs rn e Es). cbn.
      split; [discriminate | intros [? ?]; discriminate]. }
  assert (Hnone : raised g = None
                  <-> forall record_node, record_node ∈ record_nodes ->
                        exists sup,
                          Topology.get_superfluous_oebin_paths fs record_node = Ok sup).
  { unfold g, Topology.get_filtered_ephys_paths_relative_to_record_node_parents.
    rewrite GenLaws.raised_gen_for_list_None. fold record_nodes.
    split; intros H rn Hrn; apply Hbody; now apply H. }
  split; [exact Hnone |]. split.
  - intros e.
    unfold g, Topology.get_filtered_ephys_paths_relative_to_record_node_parents.
    fold record_nodes. rewrite GenLaws.raised_gen_for_list_first. split.
    + intros (before & rn & after & Hsplit & Hb & He).
      exists before, rn, after. split; [exact Hsplit |]. split.
      { eapply Forall_impl; [exact Hb |]. intros earlier. apply Hbody. }
      apply KeptFacts.record_node_body_raises in He. split; [exact He |].
      now apply KeptFacts.get_superfluous_oebin_paths_error.
    + intros (before & rn & after & Hsplit & Hb & He & _).
      exists before, rn, after. split; [exact Hsplit |]. split.
      * eapply Forall_impl; [exact Hb |]. intros earlier. apply Hbody.
      * now apply KeptFacts.record_node_body_raises.
  - intros Hr abs_path rel_path.
    unfold g, Topology.get_filtered_ephys_paths_relative_to_record_node_parents in Hr |- *.
    fold record_nodes in Hr |- *. split.
    + intros (rn & Hrn & H)%GenFacts.yielded_gen_for_list.
      apply TopologyFacts.record_node_body_yields in H
        as (sup & Hsup & Ha & Hrel & Hs).
      now exists rn, sup.
    + intros (rn & sup & Hrn & Hsup & Ha & Hs & Hrel).
      apply (GenLaws.gen_for_list_complete _ _ rn); [exact Hr | exact Hrn |].
      now apply (KeptFacts.record_node_body_run fs rn sup Hsup).
Qed.

(** [get_merged_oebin_file], where the merged descriptors come from (lines
    697-725).  In a manifest merged from two paths or more every entry is a
    list that is not empty, and every descriptor of it is a descriptor of
    the list under the same key in the manifest of one of the paths, one
    that the exclusion test lets through: the merge invents nothing. *)
Theorem get_merged_oebin_file_provenance (fs : filesystem)
    (json_loads : string -> option json) (checksum : list byte -> Z)
    (get_settings_xml_data : list byte -> Merge.settings_data)
    (paths : list PyPath.path) (exclude_probe_names : list string)
    (v : json) (key : string) (w : json) :
  2 <= length paths ->
  Merge.get_merged_oebin_file fs json_loads checksum get_settings_xml_data
    paths exclude_probe_names = Ok v ->
  Json.getitem v key = Ok w ->
  exists items,
    w = JList items /\ items <> []
    /\ (forall x, x ∈ items ->
          exists p entries items0,
            p ∈ paths
            /\ Merge.get_oebin_data fs json_loads p = Ok (JDict entries)
            /\ (key, JList items0) ∈ entries /\ x ∈ items0
            /\ Merge.excluded exclude_probe_names x = Ok false).
Proof.
  intros Hlen Hv Hw.
  destruct (MergedContentFacts.get_merged_oebin_file_loop fs json_loads checksum
              get_settings_xml_data paths exclude_probe_names v Hlen Hv)
    as (merged & Hm & ->).
  rewrite MergeContentFacts.getitem_as_json in Hw.
  destruct (dict_get key merged) as [items|] eqn:Ek; [| discriminate].
  injection Hw as <-. exists items. split; [reflexivity |]. split.
  - pose proof (MergeContentFacts.merge_paths_no_empty fs json_loads
                  exclude_probe_names _ [] merged (Forall_nil_2 _) Hm) as Hn.
    unfold MergeContentFacts.no_empty_list in Hn. rewrite Forall_forall in Hn.
    exact (Hn _ (MergeContentFacts.dict_get_in _ _ _ Ek)).
  - intros x Hx.
    destruct (MergeContentFacts.merge_paths_from fs json_loads exclude_probe_names
                _ [] merged Hm key x) as [H | (p & entries & its & Hp & H)].
    + unfold Merge.get_list. now rewrite Ek.
    + inversion H.
    + exists p, entries, its. split; [| exact H].
      now rewrite merge_sort_Permutation in Hp.
Qed.

(** The two halves of the sample recording, probe D excluded: the probe A
    stream of the result is the one of the first half. *)
Lemma get_merged_oebin_file_provenance_witness :
  exists items,
    JList [Samples.stream "Neuropix-PXI-100.ProbeA-AP/" 384;
           Samples.stream "NI-DAQmx-105.PXI-6133/" 8] = JList items
    /\ items <> []
    /\ (forall x, x ∈ items ->
          exists p entries items0,
            p ∈ [Samples.oebin_abc; Samples.oebin_def]
            /\ Merge.get_oebin_data
                 (Fs.of_tree (Samples.split_tree "1a" "1a" "manifest ABC" "manifest DEF"))
                 Samples.loads p = Ok (JDict entries)
            /\ ("continuous", JList items0) ∈ entries /\ x ∈ items0
            /\ Merge.excluded ["ProbeD"] x = Ok false).
Proof.
  apply (get_merged_oebin_file_provenance
           (Fs.of_tree (Samples.split_tree "1a" "1a" "manifest ABC" "manifest DEF"))
           Samples.loads Samples.checksum Samples.parse_settings
           [Samples.oebin_abc; Samples.oebin_def] ["ProbeD"]
           (JDict
              [("continuous",
                JList [Samples.stream "Neuropix-PXI-100.ProbeA-AP/" 384;
                       Samples.stream "NI-DAQmx-105.PXI-6133/" 8]);
               ("events", JList [Samples.stream "NI-DAQmx-105.PXI-6133/TTL/" 8])])
           "continuous").
  - cbn. lia.
  - vm_compute. reflexivity.
  - reflexivity.
Defined.

(** [get_merged_oebin_file], nothing is lost (lines 698-721).  When two
    manifests or more are merged, every descriptor of every list of every
    manifest is either excluded by name or equal, by [==], to a descriptor
    of the list under the same key in the result. *)
Theorem get_merged_oebin_file_complete (fs : filesystem)
    (json_loads : string -> option json) (checksum : list byte -> Z)
    (get_settings_xml_data : list byte -> Merge.settings_data)
    (paths : list PyPath.path) (exclude_probe_names : list string)
    (v : json) :
  2 <= length paths ->
  (forall p d, p ∈ paths -> Merge.get_oebin_data fs json_loads p = Ok d ->
               Json.well_formed d = true) ->
  Merge.get_merged_oebin_file fs json_loads checksum get_settings_xml_data
    paths exclude_probe_names = Ok v ->
  forall p entries key items x,
    p ∈ paths -> Merge.get_oebin_data fs json_loads p = Ok (JDict entries) ->
    (key, JList items) ∈ entries -> x ∈ items ->
    Merge.excluded exclude_probe_names x = Ok true
    \/ exists kept, Json.getitem v key = Ok (JList kept)
                    /\ Json.py_in x kept = true.
Proof.
  intros Hlen Hwf Hv p entries key items x Hp Hd Hk Hx.
  destruct (MergedContentFacts.get_merged_oebin_file_loop fs json_loads checksum
              get_settings_xml_data paths exclude_probe_names v Hlen Hv)
    as (merged & Hm & ->).
  destruct (MergeContentFacts.merge_paths_covers fs json_loads exclude_probe_names
              (merge_sort PyPath.path_le paths) [] merged) as [_ Hc].
  - intros q dq Hq. apply Hwf. now rewrite merge_sort_Permutation in Hq.
  - exact Hm.
  - destruct (Hc p entries key items x) as [Hin | Hex]; try assumption.
    + now rewrite merge_sort_Permutation.
    + right. unfold Merge.get_list in Hin.
      rewrite MergeContentFacts.getitem_as_json.
      destruct (dict_get key merged) as [kept|]; [| discriminate].
      now exists kept.
    + now left.
Qed.

(** In the sample recording the digitizer is listed by both halves and kept
    once; it is found in the result. *)
Lemma get_merged_oebin_file_complete_witness :
  Merge.excluded ["ProbeD"] (Samples.stream "NI-DAQmx-105.PXI-6133/" 8) = Ok true
  \/ exists kept,
       Json.getitem
         (JDict
            [("continuous",
              JList [Samples.stream "Neuropix-PXI-100.ProbeA-AP/" 384;
                     Samples.stream "NI-DAQmx-105.PXI-6133/" 8]);
             ("events", JList [Samples.stream "NI-DAQmx-105.PXI-6133/TTL/" 8])])
         "continuous" = Ok (JList kept)
       /\ Json.py_in (Samples.stream "NI-DAQmx-105.PXI-6133/" 8) kept = true.
Proof.
  apply (get_merged_oebin_file_complete
           (Fs.of_tree (Samples.split_tree "1a" "1a" "manifest ABC" "manifest DEF"))
           Samples.loads Samples.checksum Samples.parse_settings
           [Samples.oebin_abc; Samples.oebin_def] ["ProbeD"] _
           ltac:(cbn; lia))
    with (p := Samples.oebin_def)
         (entries := [("GUI version", JStr "0.6.4");
                      ("continuous", JList [Samples.stream "Neuropix-PXI-100.ProbeD-AP/" 384;
                                            Samples.stream "NI-DAQmx-105.PXI-6133/" 8]);
                      ("events", JList [Samples.stream "NI-DAQmx-105.PXI-6133/TTL/" 8]);
                      ("spikes", JList [])])
         (items := [Samples.stream "Neuropix-PXI-100.ProbeD-AP/" 384;
                    Samples.stream "NI-DAQmx-105.PXI-6133/" 8]).
  - intros p d Hp Hd.
    apply elem_of_cons in Hp as [-> | Hp];
      [| apply list_elem_of_singleton in Hp as ->];
      vm_compute in Hd; injection Hd as <-; reflexivity.
  - vm_compute. reflexivity.
  - right. left.
  - vm_compute. reflexivity.
  - right. left.
  - right. left.
Defined.

(** [get_merged_oebin_file], what it refuses (lines 685-691, 723-724).  Two
    paths or more one of which lacks the [.oebin] extension are a
    [ValueError], whatever the storage holds; and so are two manifests or
    more that all are empty objects, their settings files being identical:
    there is nothing to merge. *)
Theorem get_merged_oebin_file_refusals (fs : filesystem)
    (json_loads : string -> option json) (checksum : list byte -> Z)
    (get_settings_xml_data : list byte -> Merge.settings_data)
    (exclude_probe_names : list string) :
  let merge := Merge.get_merged_oebin_file fs json_loads checksum
                 get_settings_xml_data in
  (forall paths p,
     2 <= length paths -> p ∈ paths -> PyPath.suffix p <> ".oebin" ->
     merge paths exclude_probe_names = Err ValueError)
  /\ (forall paths settings,
        2 <= length paths ->
        (forall p, p ∈ paths -> PyPath.suffix p = ".oebin") ->
        (forall p, p ∈ paths ->
           Fs.read_bytes fs (Merge.settings_path p) = Ok settings) ->
        (forall p, p ∈ paths ->
           Merge.get_oebin_data fs json_loads p = Ok (JDict [])) ->
        merge paths exclude_probe_names = Err ValueError).
Proof.
  intros merge. split.
  - intros paths p Hlen Hp Hs. unfold merge.
    rewrite MergedFacts.get_merged_oebin_file_many by exact Hlen.
    assert (E : existsb (fun p => negb (String.eqb (PyPath.suffix p) ".oebin")) paths
                = true).
    { apply existsb_exists. exists p. split; [now apply list_elem_of_In |].
      apply negb_true_iff. now apply String.eqb_neq. }
    now rewrite E.
  - intros paths settings Hlen Hs Hset Hd. unfold merge.
    rewrite MergedFacts.get_merged_oebin_file_many by exact Hlen.
    assert (E : existsb (fun p => negb (String.eqb (PyPath.suffix p) ".oebin")) paths
                = false).
    { apply Bool.not_true_is_false. intros (p & Hp & Hn)%existsb_exists.
      rewrite (Hs p) in Hn by now apply list_elem_of_In. discriminate. }
    rewrite E.
    rewrite (MergedFacts.assert_xml_files_match_identical fs checksum
               get_settings_xml_data settings paths Hset).
    cbn [rbind].
    assert (Hloop : forall l, (forall p, p ∈ l -> p ∈ paths) ->
              Merge.merge_paths fs json_loads exclude_probe_names l [] = Ok []).
    { induction l as [|q l IH]; intros Hl; [reflexivity |].
      cbn [Merge.merge_paths]. rewrite (Hd q) by (apply Hl; left).
      cbn [rbind Merge.merge_manifest Merge.merge_keys].
      apply IH. intros p Hp. apply Hl. now right. }
    rewrite Hloop; [reflexivity |].
    intros p Hp. now rewrite merge_sort_Permutation in Hp.
Qed.

(** [assert_xml_files_match], the checks in their order (lines 660-670).  A
    path without the [.xml] extension is a [ValueError], whether the files
    exist or not; with the extension right, a path that is no file is a
    [FileNotFoundError]; one file or more with the same bytes pass, whatever
    the checksum and the settings parser are; and the call raises nothing but
    these two errors and the mismatch. *)
Theorem assert_xml_files_match_checks (fs : filesystem)
    (checksum : list byte -> Z)
    (get_settings_xml_data : list byte -> Merge.settings_data)
    (paths : list PyPath.path) :
  let check := Merge.assert_xml_files_match fs checksum get_settings_xml_data
                 paths in
  (forall p, p ∈ paths -> PyPath.suffix p <> ".xml" -> check = Err ValueError)
  /\ (forall p,
        (forall q, q ∈ paths -> PyPath.suffix q = ".xml") ->
        p ∈ paths -> Fs.is_file fs p = false -> check = Err FileNotFoundError)
  /\ (forall content,
        paths <> [] ->
        (forall q, q ∈ paths -> PyPath.suffix q = ".xml") ->
        (forall q, q ∈ paths -> Fs.read_bytes fs q = Ok content) ->
        check = Ok tt)
  /\ (forall e, check = Err e ->
        e = ValueError \/ e = FileNotFoundError
        \/ e = AssertionError (Merge.xml_mismatch_message paths)).
Proof.
  intros check. unfold check, Merge.assert_xml_files_match.
  assert (Hsuf : (forall q, q ∈ paths -> PyPath.suffix q = ".xml") ->
                 forallb (fun p => String.eqb (PyPath.suffix p) ".xml") paths = true).
  { intros H. apply forallb_forall. intros q Hq%list_elem_of_In.
    now rewrite (H q Hq). }
  split; [| split; [| split]].
  - intros p Hp Hs.
    assert (E : forallb (fun p => String.eqb (PyPath.suffix p) ".xml") paths = false).
    { apply Bool.not_true_is_false. intros H. rewrite forallb_forall in H.
      specialize (H p ltac:(now apply list_elem_of_In)).
      now apply String.eqb_eq in H. }
    now rewrite E.
  - intros p Hs Hp Hf. rewrite (Hsuf Hs). cbn [negb].
    assert (E : forallb (Fs.is_file fs) paths = false).
    { apply Bool.not_true_is_false. intros H. rewrite forallb_forall in H.
      specialize (H p ltac:(now apply list_elem_of_In)). congruence. }
    now rewrite E.
  - intros content _ Hs Hc. rewrite (Hsuf Hs). cbn [negb].
    assert (Hfile : forallb (Fs.is_file fs) paths = true).
    { apply forallb_forall. intros q Hq%list_elem_of_In.
      specialize (Hc q Hq). unfold Fs.read_bytes in Hc.
      now destruct (Fs.is_file fs q). }
    rewrite Hfile. cbn [negb].
    assert (Hr : Merge.read_all fs paths = Ok (map (fun _ => content) paths)).
    { clear -Hc. induction paths as [|q paths IH]; [reflexivity |].
      cbn [Merge.read_all map]. rewrite (Hc q) by left. cbn [rbind].
      rewrite IH by (intros r Hr; apply Hc; now right). reflexivity. }
    rewrite Hr. cbn [rbind].
    now rewrite (MergedFacts.all_equal_first_constant checksum content paths).
  - intros e.
    destruct (negb (forallb _ paths)); [intros [= <-]; now left |].
    destruct (negb (forallb (Fs.is_file fs) paths)); [intros [= <-]; right; now left |].
    destruct (Merge.read_all fs paths) as [contents|e'] eqn:Er; cbn [rbind].
    + destruct (Merge.all_equal_first Z.eqb _); [discriminate |].
      destruct (Merge.all_equal_first Merge.settings_match _); [discriminate |].
      intros [= <-]. right. now right.
    + intros [= <-]. right. left.
      clear -Er. revert e' Er. induction paths as [|q paths IH]; intros e;
        cbn [Merge.read_all]; [discriminate |].
      destruct (Fs.read_bytes fs q) as [data|e1] eqn:Eq; cbn [rbind].
      * destruct (Merge.read_all fs paths) as [l|e2]; cbn [rbind]; [discriminate |].
        intros [= <-]. now apply IH.
      * intros [= <-]. now apply (MergeFacts.read_bytes_error fs q).
Qed.

(** [get_sync_messages_data], any text (lines 42-64).  The call raises
    nothing but a [ValueError], and returns exactly when the first sample
    and the rate of every line after the first are read as integers; a text
    of one line or none gives the empty dictionary.  In the dictionary
    returned no key comes twice, and a key has an entry exactly when some
    line after the first has that label: the entry then holds the first
    sample and the rate of the last such line. *)
Theorem get_sync_messages_data_entries (text : string) :
  let lines := List.tl (splitlines text) in
  (forall e, get_sync_messages_data text = Err e -> e = ValueError)
  /\ ((exists data, get_sync_messages_data text = Ok data)
      <-> Forall (fun line => is_ok (start line) = true
                              /\ is_ok (rate line) = true) lines)
  /\ (lines = [] -> get_sync_messages_data text = Ok [])
  /\ (forall data,
        get_sync_messages_data text = Ok data ->
        NoDup (map fst data)
        /\ (forall key entry,
              dict_get key data = Some entry
              <-> exists before line after,
                    lines = before ++ line :: after
                    /\ label line = key
                    /\ Forall (fun l => label l <> key) after
                    /\ start line = Ok (se_start entry)
                    /\ rate line = Ok (se_rate entry))).
Proof.
  intros lines. unfold get_sync_messages_data. fold lines.
  split; [| split; [| split]].
  - intros e. apply LogFacts.comprehend_error.
  - apply LogFacts.comprehend_ok.
  - now intros ->.
  - intros data Hd. split.
    + apply (LogFacts.comprehend_keys lines [] data); [constructor | exact Hd].
    + intros key entry.
      rewrite (LogFacts.comprehend_lookup lines [] data Hd key entry).
      unfold LogFacts.defines. split; [| now left].
      intros [H | [_ H]]; [exact H | discriminate].
Qed.

(** A log that lists a device twice: the later line wins. *)
Lemma get_sync_messages_data_entries_witness :
  dict_get "ProbeA-AP"
    [("ProbeA-AP", SyncEntry 200 2500)] = Some (SyncEntry 200 2500)
  <-> exists before line after,
        List.tl (splitlines (log_text "Software Time: 1"
                               [("ProbeA-AP", "30000", "100");
                                ("ProbeA-AP", "2500", "200")]))
        = before ++ line :: after
        /\ label line = "ProbeA-AP"
        /\ Forall (fun l => label l <> "ProbeA-AP") after
        /\ start line = Ok 200%Z
        /\ rate line = Ok 2500%Z.
Proof.
  apply (proj2 (proj2 (proj2 (proj2 (get_sync_messages_data_entries
           (log_text "Software Time: 1"
              [("ProbeA-AP", "30000", "100"); ("ProbeA-AP", "2500", "200")]))))
           [("ProbeA-AP", SyncEntry 200 2500)] ltac:(vm_compute; reflexivity))
           "ProbeA-AP" (SyncEntry 200 2500)).
Defined.

(** [read_array_range_from_npy], an integer index (lines 146-147).  On a
    valid one-dimensional array an index [i >= 0] within the array gives the
    array of the single element [i], as the slice [i:i+1] does. *)
Theorem read_array_range_from_npy_index
    (eval_header : string -> result Npy.npy_header)
    (itemsize : string -> result nat)
    (major minor : byte) (header : list byte) (dt : string) (size : nat)
    (elems : list (list byte)) (i : Z) (e : list byte) :
  Npy.valid_array eval_header itemsize major header dt size elems ->
  (0 <= i)%Z -> elems !! Z.to_nat i = Some e ->
  Npy.read_array_range_from_npy eval_header itemsize
    (Npy.container major minor header (concat elems)) (Npy.Index i)
  = Ok (Npy.NdArray dt [e])
  /\ Npy.read_array_range_from_npy eval_header itemsize
       (Npy.container major minor header (concat elems)) (Npy.Index i)
     = Npy.read_array_range_from_npy eval_header itemsize
         (Npy.container major minor header (concat elems)) (Npy.Slice i (i + 1)).
Proof.
  intros Hv Hi He.
  assert (E : Npy.read_array_range_from_npy eval_header itemsize
                (Npy.container major minor header (concat elems)) (Npy.Index i)
              = Npy.read_array_range_from_npy eval_header itemsize
                  (Npy.container major minor header (concat elems))
                  (Npy.Slice i (i + 1))) by reflexivity.
  split; [| exact E]. rewrite E.
  rewrite (NpyFacts.read_valid eval_header itemsize major minor header dt size
             elems i (i + 1) Hv) by lia.
  replace (Z.to_nat (i + 1 - i)) with 1 by lia.
  rewrite (drop_S _ _ _ He). reflexivity.
Qed.

(** The first of the three sample integers. *)
Lemma read_array_range_from_npy_index_witness :
  Npy.read_array_range_from_npy Npy.eval_header_numpy Npy.itemsize_numpy
    (Npy.container x01 x00 Samples.sample_header (concat Samples.sample_elems))
    (Npy.Index 0)
  = Ok (Npy.NdArray "<i2" [[x01; x00]]%byte).
Proof.
  refine (proj1 (read_array_range_from_npy_index Npy.eval_header_numpy
                   Npy.itemsize_numpy x01 x00 Samples.sample_header "<i2" 2
                   Samples.sample_elems 0 [x01; x00]%byte _ _ _)).
  - split.
    + vm_compute. reflexivity.
    + vm_compute. reflexivity.
    + lia.
    + repeat constructor.
    + vm_compute. reflexivity.
  - lia.
  - reflexivity.
Defined.

(** [read_array_range_from_npy], arrays that are not one-dimensional (lines
    156-157).  When the header of a container describes a shape of any
    length other than one, every read ends with the [AssertionError] of the
    reader, whatever the range asked for and whatever the payload; and a
    header that cannot be evaluated ends the read with its own error. *)
Theorem read_array_range_from_npy_not_1d
    (eval_header : string -> result Npy.npy_header)
    (itemsize : string -> result nat)
    (major minor : byte) (header payload : list byte) (_range : Npy.range) :
  (Z.of_nat (length header) < 256 ^ Z.of_nat (Npy.length_width major))%Z ->
  (forall h,
     eval_header (Npy.header_text_of header) = Ok h ->
     length (Npy.shape h) <> 1 ->
     Npy.read_array_range_from_npy eval_header itemsize
       (Npy.container major minor header payload) _range
     = Err (AssertionError "Currently supporting 1-D array only"))
  /\ (forall e,
        eval_header (Npy.header_text_of header) = Err e ->
        Npy.read_array_range_from_npy eval_header itemsize
          (Npy.container major minor header payload) _range
        = Err e).
Proof.
  intros Hf. split.
  - intros h Hh Hs.
    rewrite (NpyEdgeFacts.read_to_header eval_header itemsize major minor header
               payload _range Hf).
    destruct _range; cbn zeta; rewrite Hh; cbn [rbind];
      destruct (Nat.eqb_spec (length (Npy.shape h)) 1); congruence.
  - intros e He.
    rewrite (NpyEdgeFacts.read_to_header eval_header itemsize major minor header
               payload _range Hf).
    destruct _range; cbn zeta; now rewrite He.
Qed.

(** A table of three rows and two columns. *)
Lemma read_array_range_from_npy_not_1d_witness :
  Npy.read_array_range_from_npy Npy.eval_header_numpy Npy.itemsize_numpy
    (Npy.container x01 x00
       (list_byte_of_string
          ("{'descr': '<i2', 'fortran_order': False, 'shape': (3, 2), }"
           ++ PyStr.newline_chars))
       (concat (Samples.sample_elems ++ Samples.sample_elems)))
    (Npy.Index 0)
  = Err (AssertionError "Currently supporting 1-D array only").
Proof.
  refine (proj1 (read_array_range_from_npy_not_1d Npy.eval_header_numpy
                   Npy.itemsize_numpy x01 x00 _ _ (Npy.Index 0) _)
            (Npy.NpyHeader [3; 2]%Z "<i2") _ _).
  - vm_compute. reflexivity.
  - vm_compute. reflexivity.
  - cbn. lia.
Defined.

(** [read_array_range_from_npy], a negative index (lines 146-167).  An index
    [i < 0] does not count from the end of the array: on a valid
    one-dimensional array whose header is long enough, the read returns one
    element made of header bytes, those that lie [-i] element sizes before
    the first element, and raises nothing. *)
Theorem read_array_range_from_npy_negative_index
    (eval_header : string -> result Npy.npy_header)
    (itemsize : string -> result nat)
    (major minor : byte) (header : list byte) (dt : string) (size : nat)
    (elems : list (list byte)) (i : Z) :
  Npy.valid_array eval_header itemsize major header dt size elems ->
  (i < 0)%Z -> (- i * Z.of_nat size <= Z.of_nat (length header))%Z ->
  Npy.read_array_range_from_npy eval_header itemsize
    (Npy.container major minor header (concat elems)) (Npy.Index i)
  = Ok (Npy.NdArray dt
          [take size (drop (length header - Z.to_nat (- i) * size) header)]).
Proof.
  intros [Hh Hi Hs He Hf] Hneg Hlen.
  rewrite (NpyEdgeFacts.read_to_header eval_header itemsize major minor header
             (concat elems) (Npy.Index i) Hf).
  cbn zeta. rewrite Hh. cbn [rbind Npy.shape Npy.descr length Nat.eqb].
  rewrite Hi. cbn [rbind].
  set (lo := (Z.of_nat (length header) + i * Z.of_nat size)%Z).
  replace (8 + Z.of_nat (Npy.length_width major) + Z.of_nat (length header)
           + i * Z.of_nat size)%Z
    with (8 + Z.of_nat (Npy.length_width major) + lo)%Z by (unfold lo; lia).
  replace (8 + Z.of_nat (Npy.length_width major) + Z.of_nat (length header)
           + (i + 1) * Z.of_nat size)%Z
    with (8 + Z.of_nat (Npy.length_width major) + (lo + Z.of_nat size))%Z
    by (unfold lo; lia).
  rewrite NpyEdgeFacts.read_before_payload by (unfold lo; nia).
  assert (Hchunk : Npy.read_bytes header lo (lo + Z.of_nat size)
                   = take size (drop (length header - Z.to_nat (- i) * size) header)).
  { unfold Npy.read_bytes. f_equal; [lia |]. f_equal. unfold lo. nia. }
  rewrite Hchunk.
  set (chunk := take size (drop (length header - Z.to_nat (- i) * size) header)).
  assert (Hl : length chunk = size).
  { unfold chunk. rewrite length_take, length_drop. nia. }
  pose proof (NpyFacts.frombuffer_concat dt size [chunk] Hs
                ltac:(repeat constructor; exact Hl)) as Hfb.
  cbn [concat] in Hfb. rewrite app_nil_r in Hfb. exact Hfb.
Qed.

(** Index -1 on the three sample integers: not the last of them, [ff ff],
    but the last two bytes of the header, a space and a line feed. *)
Lemma read_array_range_from_npy_negative_index_witness :
  Npy.read_array_range_from_npy Npy.eval_header_numpy Npy.itemsize_numpy
    (Npy.container x01 x00 Samples.sample_header (concat Samples.sample_elems))
    (Npy.Index (-1))
  = Ok (Npy.NdArray "<i2" [[x20; x0a]]%byte).
Proof.
  refine (read_array_range_from_npy_negative_index Npy.eval_header_numpy
            Npy.itemsize_numpy x01 x00 Samples.sample_header "<i2" 2
            Samples.sample_elems (-1) _ _ _).
  - split.
    + vm_compute. reflexivity.
    + vm_compute. reflexivity.
    + lia.
    + repeat constructor.
    + vm_compute. reflexivity.
  - lia.
  - vm_compute. discriminate.
Defined.

(** [is_new_ephys_folder] (lines 444-459).  The two name hallmarks are
    [Record Node] and [structure.oebin].  A path whose text holds one of
    them, letter case apart, is a new ephys folder whatever the storage
    holds, and so is every path on which [get_ephys_root] returns; a path
    without them is one exactly when a [Record Node*] or a
    [structure*.oebin] entry lies beneath it. *)
Theorem is_new_ephys_folder_hallmarks (fs : filesystem) (p : PyPath.path) :
  let text := PyStr.lower (PyPath.as_posix p) in
  Hallmarks.components = ["Record Node"; "structure.oebin"]
  /\ (PyStr.contains "record node" text = true
      \/ PyStr.contains "structure.oebin" text = true ->
      Hallmarks.is_new_ephys_folder fs p = true)
  /\ (forall r, Topology.get_ephys_root p = Ok r ->
        Hallmarks.is_new_ephys_folder fs p = true)
  /\ (PyStr.contains "record node" text = false ->
      PyStr.contains "structure.oebin" text = false ->
      (Hallmarks.is_new_ephys_folder fs p = true
       <-> exists q, q ∈ Fs.rglob fs p "Record Node*"
                     \/ q ∈ Fs.rglob fs p "structure*.oebin")).
Proof.
  intros text. split; [reflexivity |].
  assert (Htext : PyStr.contains "record node" text = true
                  \/ PyStr.contains "structure.oebin" text = true ->
                  Hallmarks.is_new_ephys_folder fs p = true).
  { rewrite HallmarksFacts.is_new_ephys_folder_eq. fold text.
    intros [-> | ->]; [reflexivity | now rewrite orb_true_r]. }
  split; [exact Htext |]. split.
  - intros r Hr. apply Htext. left.
    unfold Topology.get_ephys_root in Hr.
    destruct (PyStr.contains "Record Node" (PyPath.as_posix p)) eqn:Ec;
      [| discriminate].
    exact (LowerFacts.contains_lower _ _ Ec).
  - intros H1 H2. rewrite HallmarksFacts.is_new_ephys_folder_eq. fold text.
    rewrite H1, H2. cbn [orb]. rewrite orb_true_iff, !HallmarksFacts.found_iff.
    split.
    + intros [[q Hq] | [q Hq]]; exists q; [now left | now right].
    + intros (q & [Hq | Hq]); [left | right]; now exists q.
Qed.

(** [is_valid_ephys_folder] and [is_complete_ephys_folder] (lines 462-489).
    A folder in which [get_single_oebin_path] finds a manifest is valid when
    no size is asked for.  A valid folder is a directory and a new ephys
    folder, and stays valid when the size threshold is dropped; a complete
    folder is a new ephys folder with a [continuous.dat], a
    [spike_times.npy] and a [spike_clusters.npy] somewhere beneath it. *)
Theorem is_valid_ephys_folder_of_manifest (fs : filesystem)
    (size_gb_below : PyPath.path -> Q -> bool) (p : PyPath.path)
    (min_size_gb : option Q) :
  (forall q, Topology.get_single_oebin_path fs p = Ok q ->
     Hallmarks.is_valid_ephys_folder fs size_gb_below p None = true)
  /\ (Hallmarks.is_valid_ephys_folder fs size_gb_below p min_size_gb = true ->
      Fs.is_dir fs p = true
      /\ Hallmarks.is_new_ephys_folder fs p = true
      /\ Hallmarks.is_valid_ephys_folder fs size_gb_below p None = true
      /\ (forall m, min_size_gb = Some m -> size_gb_below p m = false))
  /\ (Hallmarks.is_complete_ephys_folder fs p = true ->
      Hallmarks.is_new_ephys_folder fs p = true
      /\ Forall (fun name => exists q, q ∈ Fs.rglob fs p name)
           ["continuous.dat"; "spike_times.npy"; "spike_clusters.npy"]).
Proof.
  split; [| split].
  - intros q Hq. unfold Topology.get_single_oebin_path in Hq.
    unfold Hallmarks.is_valid_ephys_folder.
    destruct (Fs.is_dir fs p); cbn [negb] in *; [| discriminate].
    rewrite HallmarksFacts.is_new_ephys_folder_eq.
    assert (Hf : Hallmarks.found fs p "structure*.oebin" = true).
    { unfold Hallmarks.found.
      now destruct (Fs.rglob fs p "structure*.oebin"). }
    now rewrite Hf, orb_true_r.
  - unfold Hallmarks.is_valid_ephys_folder.
    destruct (Fs.is_dir fs p); cbn [negb]; [| discriminate].
    destruct (Hallmarks.is_new_ephys_folder fs p); cbn [negb]; [| discriminate].
    intros H. repeat split. intros m ->.
    now destruct (size_gb_below p m).
  - unfold Hallmarks.is_complete_ephys_folder.
    destruct (Hallmarks.is_new_ephys_folder fs p); cbn [negb]; [| discriminate].
    cbn [forallb]. rewrite andb_true_r.
    intros [H1 [H2 H3]%andb_true_iff]%andb_true_iff.
    split; [reflexivity |].
    repeat constructor; now apply HallmarksFacts.found_iff.
Qed.

(** The sample record node holds manifests: it is a valid folder. *)
Lemma is_valid_ephys_folder_of_manifest_witness :
  Hallmarks.is_valid_ephys_folder (Fs.of_tree Samples.session_tree)
    (fun _ _ => false) Samples.node None = true.
Proof.
  apply (proj1 (is_valid_ephys_folder_of_manifest (Fs.of_tree Samples.session_tree)
                  (fun _ _ => false) Samples.node None)
           (Samples.descend Samples.node ["experiment1"; "recording1"; "structure.oebin"])).
  vm_compute. reflexivity.
Defined.

(** [validate_ephys] (lines 778-788).  The roots are validated in order and
    the first failure is the outcome of the call; a root passes when each of
    its manifests' folders passes [validate_recording_folder].  With
    [ignore_small_folders] the only folder validated is the one of the
    manifest [get_single_oebin_path] selects, and a root without any
    manifest fails; without it, a root with no [structure.oebin] beneath it
    passes, nothing being validated. *)
Theorem validate_ephys_outcomes (fs : filesystem) (np : numpy)
    (clipped_path_to_compressed : PyPath.path -> result PyPath.path)
    (json_loads : string -> option json)
    (read_sync_file : PyPath.path -> result Sync.sync_dataset)
    (barcodes : Type)
    (extract_barcodes_from_times :
       list PyFloat.float -> list PyFloat.float -> PyFloat.float -> result barcodes)
    (get_probe_time_offset :
       barcodes -> barcodes -> Z -> PyFloat.float
       -> result (PyFloat.float * PyFloat.float))
    (sync_path_or_dataset : option Sync.sync_path_or_dataset)
    (ignore_small_folders : bool) :
  let validate_ephys :=
    ValidateAll.validate_ephys fs np clipped_path_to_compressed json_loads
      read_sync_file barcodes extract_barcodes_from_times get_probe_time_offset in
  let validate_recording_folder :=
    Validate.validate_recording_folder fs np clipped_path_to_compressed json_loads
      read_sync_file barcodes extract_barcodes_from_times get_probe_time_offset in
  let validate_root := fun root => validate_ephys [root] sync_path_or_dataset
                                     ignore_small_folders in
  (forall roots,
     validate_ephys roots sync_path_or_dataset ignore_small_folders = Ok tt
     <-> Forall (fun root => validate_root root = Ok tt) roots)
  /\ (forall before root after e,
        Forall (fun r => validate_root r = Ok tt) before ->
        validate_root root = Err e ->
        validate_ephys (before ++ root :: after) sync_path_or_dataset
          ignore_small_folders = Err e)
  /\ (forall root,
        ignore_small_folders = true ->
        validate_root root
        = do single <- Topology.get_single_oebin_path fs root;
          validate_recording_folder (PyPath.parent single) sync_path_or_dataset)
  /\ (forall root,
        ignore_small_folders = true ->
        Fs.rglob fs root "structure*.oebin" = [] ->
        validate_root root = Err ValueError
        \/ validate_root root = Err FileNotFoundError)
  /\ (forall root,
        ignore_small_folders = false ->
        Fs.rglob fs root "structure.oebin" = [] ->
        validate_root root = Ok tt).
Proof.
  intros validate_ephys validate_recording_folder validate_root.
  set (run := fun root =>
         do oebin_paths <- ValidateAll.oebin_paths_of fs root ignore_small_folders;
         ValidateAll.validate_recordings fs np clipped_path_to_compressed json_loads
           read_sync_file barcodes extract_barcodes_from_times get_probe_time_offset
           oebin_paths sync_path_or_dataset).
  assert (Hroot : forall root, validate_root root = run root).
  { intros root. unfold validate_root, validate_ephys, run.
    cbn [ValidateAll.validate_ephys].
    destruct (ValidateAll.oebin_paths_of fs root ignore_small_folders) as [ps|e];
      cbn [rbind]; [| reflexivity].
    now destruct (ValidateAll.validate_recordings _ _ _ _ _ _ _ _ ps _) as [[]|e]. }
  assert (Hcons : forall root rest,
            validate_ephys (root :: rest) sync_path_or_dataset ignore_small_folders
            = do _ <- run root;
              validate_ephys rest sync_path_or_dataset ignore_small_folders).
  { intros root rest. unfold validate_ephys, run.
    cbn [ValidateAll.validate_ephys].
    now destruct (ValidateAll.oebin_paths_of fs root ignore_small_folders). }
  split; [| split; [| split; [| split]]].
  - induction roots as [|root roots IH].
    + split; [constructor | reflexivity].
    + rewrite Hcons. split.
      * intros H. destruct (run root) as [[]|e] eqn:Er; cbn [rbind] in H;
          [| discriminate].
        constructor; [now rewrite Hroot | now apply IH].
      * intros H. inversion H as [|? ? H1 H2]; subst.
        rewrite Hroot in H1. rewrite H1. cbn [rbind]. now apply IH.
  - intros before root after e Hb He.
    induction Hb as [|r before Hr _ IH]; cbn [app]; rewrite Hcons.
    + rewrite Hroot in He. now rewrite He.
    + rewrite Hroot in Hr. rewrite Hr. exact IH.
  - intros root ->. rewrite Hroot. unfold run, ValidateAll.oebin_paths_of.
    destruct (Topology.get_single_oebin_path fs root) as [single|e]; cbn [rbind];
      [| reflexivity].
    cbn [ValidateAll.validate_recordings]. unfold validate_recording_folder.
    now destruct (Validate.validate_recording_folder _ _ _ _ _ _ _ _ _ _) as [[]|e].
  - intros root -> Hnone. rewrite Hroot. unfold run, ValidateAll.oebin_paths_of.
    unfold Topology.get_single_oebin_path. rewrite Hnone.
    destruct (Fs.is_dir fs root); cbn; [now right | now left].
  - intros root -> Hnone. rewrite Hroot. unfold run, ValidateAll.oebin_paths_of.
    now rewrite Hnone.
Qed.

(** [clipped_path_to_compressed], the path returned (lines 246-274).  A
    path returned is an entry of the storage that lies right inside the
    folder [ecephys_compressed] beside an ancestor of the argument named
    [ecephys_clipped]; its name is [<experiment>_<record node>#<device>.zarr]
    with [experiment] and [Record Node ] each followed by digits, and the
    text of the argument holds [<record node>/<experiment>/recording]. *)
Theorem clipped_path_to_compressed_returns (fs : filesystem) (p c : PyPath.path) :
  Compressed.clipped_path_to_compressed fs p = Ok c ->
  exists root experiment_number record_node_number device,
    let experiment := ("experiment" ++ experiment_number)%string in
    let record_node := ("Record Node " ++ record_node_number)%string in
    root ∈ PyPath.parents p /\ PyPath.name root = "ecephys_clipped"
    /\ c ∈ fs_paths fs
    /\ PyPath.parent c = PyPath.child (PyPath.parent root) "ecephys_compressed"
    /\ PyPath.name c
       = (experiment ++ "_" ++ record_node ++ "#" ++ device ++ ".zarr")%string
    /\ experiment_number <> "" /\ PyStr.all_digits experiment_number = true
    /\ record_node_number <> "" /\ PyStr.all_digits record_node_number = true
    /\ PyStr.contains (record_node ++ "/" ++ experiment ++ "/recording")
         (PyPath.as_posix p) = true.
Proof. apply CompressedFacts.clipped_path_to_compressed_shape. Qed.

(** The example of the docstring. *)
Lemma clipped_path_to_compressed_returns_witness :
  exists root experiment_number record_node_number device,
    root ∈ PyPath.parents Samples.clipped_probe
    /\ PyPath.name root = "ecephys_clipped"
    /\ Samples.compressed_probe ∈ fs_paths (Fs.of_tree Samples.bucket_tree)
    /\ PyPath.parent Samples.compressed_probe
       = PyPath.child (PyPath.parent root) "ecephys_compressed"
    /\ PyPath.name Samples.compressed_probe
       = (("experiment" ++ experiment_number) ++ "_"
          ++ ("Record Node " ++ record_node_number) ++ "#" ++ device ++ ".zarr")%string
    /\ experiment_number <> "" /\ PyStr.all_digits experiment_number = true
    /\ record_node_number <> "" /\ PyStr.all_digits record_node_number = true
    /\ PyStr.contains (("Record Node " ++ record_node_number) ++ "/"
                       ++ ("experiment" ++ experiment_number) ++ "/recording")
         (PyPath.as_posix Samples.clipped_probe) = true.
Proof.
  apply (clipped_path_to_compressed_returns (Fs.of_tree Samples.bucket_tree)
           Samples.clipped_probe Samples.compressed_probe).
  vm_compute. reflexivity.
Defined.

(** [get_ephys_timing_on_pxi] with [clipped_path_to_compressed] (lines
    220-224, 246-248).  A device yielded whose continuous-data path does not
    hold [ecephys_clipped] has no compressed path; a compressed path given
    is the one [clipped_path_to_compressed] returns for the continuous-data
    folder, an entry of the storage inside a folder [ecephys_compressed]. *)
Theorem get_ephys_timing_on_pxi_compressed (fs : filesystem) (np : numpy)
    (recording_dirs : list PyPath.path) (only_devices_including : option string)
    (info : Devices.EphysTimingInfoOnPXI) :
  info ∈ yielded (Devices.get_ephys_timing_on_pxi fs np
                    (Compressed.clipped_path_to_compressed fs)
                    recording_dirs only_devices_including) ->
  (PyStr.contains "ecephys_clipped"
     (PyPath.as_posix (Devices.continuous (Devices.device info))) = false ->
   Devices.compressed (Devices.device info) = None)
  /\ (forall c,
        Devices.compressed (Devices.device info) = Some c ->
        Compressed.clipped_path_to_compressed fs
          (Devices.continuous (Devices.device info)) = Ok c
        /\ c ∈ fs_paths fs
        /\ PyPath.name (PyPath.parent c) = "ecephys_compressed").
Proof.
  intros H.
  apply ResolverFacts.get_ephys_timing_on_pxi_yields_from in H
    as (d & text & data & dev & _ & _ & _ & H).
  apply ResolverFacts.device_body_fields in H
    as (entry & raw & _ & _ & _ & _ & _ & _ & _ & _ & _ & _ & Hcomp).
  split.
  - intros Hno.
    destruct (Devices.compressed (Devices.device info)) as [c|]; [| reflexivity].
    rewrite (CompressedFacts.clipped_path_to_compressed_guard fs _ Hno) in Hcomp.
    discriminate.
  - intros c Hc. rewrite Hc in Hcomp. split; [exact Hcomp |].
    apply CompressedFacts.clipped_path_to_compressed_shape in Hcomp
      as (root & en & rn & device & _ & _ & Hin & Hpar & _).
    split; [exact Hin |]. rewrite Hpar. apply MergeFacts.name_child.
Qed.

(** The sample recording inside a clipped session: the digitizer comes with
    its compressed copy. *)
Lemma get_ephys_timing_on_pxi_compressed_witness :
  Compressed.clipped_path_to_compressed (Fs.of_tree Samples.clipped_tree)
    (Devices.continuous (Devices.device Samples.clipped_digitizer))
  = Ok Samples.compressed_digitizer
  /\ Samples.compressed_digitizer ∈ fs_paths (Fs.of_tree Samples.clipped_tree)
  /\ PyPath.name (PyPath.parent Samples.compressed_digitizer) = "ecephys_compressed".
Proof.
  assert (E : yielded (Devices.get_ephys_timing_on_pxi
                         (Fs.of_tree Samples.clipped_tree) numpy_model
                         (Compressed.clipped_path_to_compressed
                            (Fs.of_tree Samples.clipped_tree))
                         [Samples.clipped_recording] None)
              = [Samples.clipped_digitizer]) by (vm_compute; reflexivity).
  refine (proj2 (get_ephys_timing_on_pxi_compressed (Fs.of_tree Samples.clipped_tree)
                   numpy_model [Samples.clipped_recording] None
                   Samples.clipped_digitizer _) Samples.compressed_digitizer eq_refl).
  rewrite E. left.
Defined.

(** [clipped_path_to_compressed], the documented layout (lines 246-274).  For
    a one-line path
    [.../ecephys_clipped/Record Node N/experimentM/recordingK/<kind>/<device>],
    where the folder [<kind>] is not itself named [ecephys_clipped] and
    neither [experiment] nor [Record Node ] occurs in [<kind>/<device>], and
    with [.../ecephys_compressed] no file, the call returns
    [.../ecephys_compressed/experimentM_Record Node N#<device>.zarr] when
    that entry exists, and raises a [FileNotFoundError] when it does not. *)
Theorem clipped_path_to_compressed_layout (fs : filesystem) (drive : string)
    (above : list string)
    (node_number experiment_number recording_number kind device : string) :
  let record_node := ("Record Node " ++ node_number)%string in
  let experiment := ("experiment" ++ experiment_number)%string in
  let p := PyPath.Path drive
             (above ++ ["ecephys_clipped"; record_node; experiment;
                        ("recording" ++ recording_number)%string; kind; device]) in
  let compressed :=
    PyPath.Path drive
      (above ++ ["ecephys_compressed";
                 (experiment ++ "_" ++ record_node ++ "#" ++ device ++ ".zarr")%string]) in
  PyStr.all_digits node_number = true -> node_number <> "" ->
  PyStr.all_digits experiment_number = true -> experiment_number <> "" ->
  PyStr.all_digits recording_number = true -> recording_number <> "" ->
  kind <> "" -> PyStr.mem_char "/" kind = false -> kind <> "ecephys_clipped" ->
  PyStr.contains "experiment" (kind ++ "/" ++ device) = false ->
  PyStr.contains "Record Node " (kind ++ "/" ++ device) = false ->
  PyStr.contains PyStr.newline_chars (PyPath.as_posix p) = false ->
  Fs.is_file fs (PyPath.Path drive (above ++ ["ecephys_compressed"])) = false ->
  (compressed ∈ fs_paths fs ->
   Compressed.clipped_path_to_compressed fs p = Ok compressed)
  /\ (compressed ∉ fs_paths fs ->
      Compressed.clipped_path_to_compressed fs p = Err FileNotFoundError).
Proof.
  intros record_node experiment p compressed.
  intros H1 H2 H3 H4 H5 H6 H7 H8 H9 H10 H11 H12 H13.
  now apply LayoutFacts.clipped_layout.
Qed.

(** The example of the docstring: the probe A stream of the clipped session
    and its compressed copy. *)
Lemma clipped_path_to_compressed_layout_witness :
  Compressed.clipped_path_to_compressed (Fs.of_tree Samples.bucket_tree)
    Samples.clipped_probe
  = Ok Samples.compressed_probe.
Proof.
  refine (proj1 (clipped_path_to_compressed_layout (Fs.of_tree Samples.bucket_tree)
                   "s3://" ["aind-ephys-data"; "ecephys_670248_2023-08-03_12-04-15"]
                   "102" "1" "1" "continuous" "Neuropix-PXI-100.ProbeA-AP"
                   eq_refl _ eq_refl _ eq_refl _ _ eq_refl _ eq_refl eq_refl _ _) _);
    try discriminate.
  - vm_compute. reflexivity.
  - vm_compute. reflexivity.
  - apply (bool_decide_unpack _). vm_compute. exact I.
Defined.

(** [get_single_oebin_path], every outcome (lines 620-634).  The call raises
    a [ValueError] exactly when the path is no directory and a
    [FileNotFoundError] exactly when it is one with no [structure*.oebin]
    beneath it; in every other case it returns, and what it returns is one
    of the manifests found beneath the path: the choice of the largest
    folder never fails. *)
Theorem get_single_oebin_path_outcome (fs : filesystem) (p : PyPath.path) :
  let manifests := Fs.rglob fs p "structure*.oebin" in
  (Topology.get_single_oebin_path fs p = Err ValueError <-> Fs.is_dir fs p = false)
  /\ (Topology.get_single_oebin_path fs p = Err FileNotFoundError
      <-> Fs.is_dir fs p = true /\ manifests = [])
  /\ ((exists q, Topology.get_single_oebin_path fs p = Ok q)
      <-> Fs.is_dir fs p = true /\ manifests <> [])
  /\ (forall q,
        Topology.get_single_oebin_path fs p = Ok q ->
        q ∈ manifests /\ q ∈ fs_paths fs /\ Fs.beneath p q = true
        /\ PyPath.glob_match "structure*.oebin" (PyPath.name q) = true).
Proof.
  intros manifests.
  assert (Hcases : Fs.is_dir fs p = false
                   /\ Topology.get_single_oebin_path fs p = Err ValueError
                   \/ Fs.is_dir fs p = true /\ manifests = []
                      /\ Topology.get_single_oebin_path fs p = Err FileNotFoundError
                   \/ Fs.is_dir fs p = true /\ manifests <> []
                      /\ exists q, Topology.get_single_oebin_path fs p = Ok q
                                   /\ q ∈ manifests).
  { destruct (Fs.is_dir fs p) eqn:Ed.
    - right. destruct manifests as [|m1 [|m2 ms]] eqn:Em.
      + left. repeat split. unfold Topology.get_single_oebin_path.
        fold manifests. now rewrite Ed, Em.
      + right. repeat split; [discriminate |]. exists m1. split; [| left].
        now apply TopologyFacts.get_single_oebin_path_one.
      + right. repeat split; [discriminate |].
        destruct (TopologyFacts.get_single_oebin_path_many fs p Ed)
          as (i & q & Hi & Hq & _).
        { fold manifests. rewrite Em. cbn. lia. }
        exists q. split; [exact Hq |]. fold manifests in Hi. rewrite Em in Hi.
        apply list_elem_of_lookup. now exists i.
    - left. split; [reflexivity |]. unfold Topology.get_single_oebin_path.
      now rewrite Ed. }
  destruct Hcases as [[Hd He] | [(Hd & Hm & He) | (Hd & Hm & q & Hq & Hin)]].
  - rewrite He, Hd. split; [tauto |]. split; [split; [discriminate | intros [? _]; discriminate] |].
    split; [split; [intros [? ?]; discriminate | intros [? _]; discriminate] |].
    discriminate.
  - rewrite He, Hd, Hm. split; [split; discriminate |]. split; [tauto |].
    split; [split; [intros [? ?]; discriminate | intros [_ ?]; contradiction] |].
    discriminate.
  - rewrite Hq, Hd. split; [split; discriminate |].
    split; [split; [discriminate | intros [_ ?]; contradiction] |].
    split; [split; [tauto | eauto] |].
    intros q' [= <-]. split; [exact Hin |].
    unfold manifests, Fs.rglob in Hin.
    apply list_elem_of_filter in Hin as [Hf Hin].
    apply Is_true_true, andb_true_iff in Hf as [Hb Hg]. now repeat split.
Qed.

(** [get_ephys_timing_on_pxi], the guard on the continuous-data folder
    (lines 193-195).  A device listed in the acquisition log whose
    continuous-data folder does not exist is skipped without an error: the
    stream is the one obtained from the remaining devices of the log, and
    every timing yielded belongs to a device whose continuous-data folder
    exists. *)
Theorem get_ephys_timing_on_pxi_skips (fs : filesystem) (np : numpy)
    (clipped_path_to_compressed : PyPath.path -> result PyPath.path)
    (only_devices_including : option string)
    (recording_dir : PyPath.path) (text : string)
    (data : list (string * sync_entry)) :
  Fs.read_text fs (PyPath.child recording_dir "sync_messages.txt") = Ok text ->
  get_sync_messages_data text = Ok data ->
  Devices.get_ephys_timing_on_pxi fs np clipped_path_to_compressed
    [recording_dir] only_devices_including
  = gen_for_list
      (filter (fun d => Fs.exists_ fs
                 (PyPath.child (PyPath.child recording_dir "continuous") d))
         (map fst data))
      (Devices.device_body fs np clipped_path_to_compressed recording_dir data
         only_devices_including)
  /\ (forall info,
        info ∈ yielded (Devices.get_ephys_timing_on_pxi fs np
                          clipped_path_to_compressed [recording_dir]
                          only_devices_including) ->
        Fs.exists_ fs (Devices.continuous (Devices.device info)) = true).
Proof.
  intros Ht Hd.
  assert (E : Devices.get_ephys_timing_on_pxi fs np clipped_path_to_compressed
                [recording_dir] only_devices_including
              = gen_for_list (map fst data)
                  (Devices.device_body fs np clipped_path_to_compressed
                     recording_dir data only_devices_including)).
  { unfold Devices.get_ephys_timing_on_pxi. cbn [gen_for_list].
    unfold Devices.recording_body. rewrite Ht. cbn [rbind]. rewrite Hd.
    cbn [gen_try].
    destruct (gen_for_list _ _) as [ys [e|]]; cbn; [reflexivity |].
    now rewrite app_nil_r. }
  split.
  - rewrite E. apply GenFacts.gen_for_list_filter.
    intros d _ Hex. now apply DevicesFacts.device_body_skip.
  - rewrite E. intros info (d & _ & Hy)%GenFacts.yielded_gen_for_list.
    now apply DevicesFacts.device_body_yields in Hy as (_ & _ & Hex & _).
Qed.

(** On the sample recording the probe, which has no continuous-data
    folder, is skipped and the digitizer is yielded. *)
Lemma get_ephys_timing_on_pxi_skips_witness :
  let g := Devices.get_ephys_timing_on_pxi (Fs.of_tree Samples.recorded_tree)
             numpy_model Samples.no_compressed [Samples.recording] None in
  map (fun info => Devices.name (Devices.device info)) (yielded g)
  = ["NI-DAQmx-105.PXI-6133"]
  /\ raised g = None
  /\ (forall info, info ∈ yielded g ->
       Fs.exists_ (Fs.of_tree Samples.recorded_tree)
         (Devices.continuous (Devices.device info)) = true).
Proof.
  intros g. split; [vm_compute; reflexivity |]. split; [vm_compute; reflexivity |].
  refine (proj2 (get_ephys_timing_on_pxi_skips (Fs.of_tree Samples.recorded_tree)
                   numpy_model Samples.no_compressed None Samples.recording
                   (string_of_list_byte Samples.log)
                   [("ProbeA-AP", SyncEntry 100 30000);
                    ("NI-DAQmx-105.PXI-6133", SyncEntry 257417001 30000)]
                   _ _)).
  - vm_compute. reflexivity.
  - vm_compute. reflexivity.
Defined.
